(** * A shallow embedding of the claude-api request handlers

    The repository holds three serverless handlers:
      - [src/api/index.js]      (module [Index]),
      - [src/unnamed/part_000]  (module [Part000], an earlier variant of the
        same endpoint with its own registry and fallback loop),
      - [src/api/claude.js]     (module [Claude]).

    The handlers are JavaScript [async] functions.  Within one request all
    awaits are sequential, so a handler is modelled as a computation in a
    state-and-exception monad.  The state holds the list of upstream calls
    made so far and the response object [res]; an exception leaves the state
    as it was when it was thrown, as in JavaScript.  The upstream services,
    the clock and the process environment are a [world] the handlers run in. *)

From Stdlib Require Import ZArith NArith List String Ascii Bool Lia.
From Stdlib Require DecimalString.
Import ListNotations.
Local Open Scope string_scope.
Local Open Scope list_scope.
Set Warnings "-register-all".

(* ================================================================== *)
(** ** JavaScript strings *)
(* ================================================================== *)

(** A JavaScript string is a sequence of UTF-16 code units (values below
    [65536]).  Unpaired surrogates are legal string contents: [JSON.parse]
    produces them from an escape such as ["\ud800"]. *)
Definition code_unit := N.
Definition jstr := list code_unit.

(** The string literals of the source are ASCII. *)
Definition js (s : string) : jstr := map N_of_ascii (list_ascii_of_string s).

Fixpoint jstr_eqb (a b : jstr) : bool :=
  match a, b with
  | [], [] => true
  | x :: a', y :: b' => N.eqb x y && jstr_eqb a' b'
  | _, _ => false
  end.

(** [String.prototype.toLowerCase] on a string of ASCII code units: the
    letters A to Z change, nothing else does.  The case mapping of other
    letters is not modelled.  For a string with such letters the result
    still compares with the model names as the real one does (the only
    ASCII letter another character lower-cases to is k, which is in none of
    the names), and that is all it is used for: a statement about the
    lower-cased name a handler echoes is made for ASCII names only. *)
Definition lower_unit (c : code_unit) : code_unit :=
  if (N.leb 65 c && N.leb c 90)%bool then (c + 32)%N else c.
Definition toLowerCase_str (s : jstr) : jstr := map lower_unit s.

Definition is_high_surrogate (c : code_unit) : bool :=
  (N.leb 55296 c && N.leb c 56319)%bool.       (* 0xD800 .. 0xDBFF *)
Definition is_low_surrogate (c : code_unit) : bool :=
  (N.leb 56320 c && N.leb c 57343)%bool.       (* 0xDC00 .. 0xDFFF *)

(** The code point of a surrogate pair. *)
Definition pair_code_point (hi lo : code_unit) : N :=
  ((hi - 55296) * 1024 + (lo - 56320) + 65536)%N.

(** *** encodeURIComponent *)

(** The characters [encodeURIComponent] leaves as they are:
    [A-Z a-z 0-9 - _ . ! ~ * ' ( )]. *)
Definition uri_unreserved (c : code_unit) : bool :=
  ((N.leb 65 c && N.leb c 90) || (N.leb 97 c && N.leb c 122)
   || (N.leb 48 c && N.leb c 57)
   || N.eqb c 45 || N.eqb c 95 || N.eqb c 46 || N.eqb c 33
   || N.eqb c 126 || N.eqb c 42 || N.eqb c 39 || N.eqb c 40 || N.eqb c 41)%bool.

Definition hex_digit (d : N) : code_unit :=
  if N.ltb d 10 then (48 + d)%N else (55 + d)%N.   (* '0'..'9', 'A'..'F' *)

Definition pct_octet (b : N) : jstr :=
  [37%N; hex_digit (b / 16); hex_digit (b mod 16)].  (* '%' then two digits *)

Definition utf8_octets (cp : N) : list N :=
  if N.ltb cp 128 then [cp]
  else if N.ltb cp 2048 then [(192 + cp / 64)%N; (128 + cp mod 64)%N]
  else if N.ltb cp 65536 then
    [(224 + cp / 4096)%N; (128 + (cp / 64) mod 64)%N; (128 + cp mod 64)%N]
  else
    [(240 + cp / 262144)%N; (128 + (cp / 4096) mod 64)%N;
     (128 + (cp / 64) mod 64)%N; (128 + cp mod 64)%N].

Definition pct_code_point (cp : N) : jstr := flat_map pct_octet (utf8_octets cp).

(** [encodeURIComponent s]: [None] stands for the [URIError] that
    ECMAScript's [Encode] throws at a surrogate that is not part of a pair. *)
Fixpoint encodeURIComponent_str (s : jstr) : option jstr :=
  match s with
  | [] => Some []
  | c :: rest =>
      if uri_unreserved c then option_map (cons c) (encodeURIComponent_str rest)
      else if is_low_surrogate c then None
      else if is_high_surrogate c then
        match rest with
        | d :: rest' =>
            if is_low_surrogate d
            then option_map (app (pct_code_point (pair_code_point c d)))
                            (encodeURIComponent_str rest')
            else None
        | [] => None
        end
      else option_map (app (pct_code_point c)) (encodeURIComponent_str rest)
  end.

(** A string without unpaired surrogates (ECMAScript's [isWellFormed]). *)
Fixpoint well_formed (s : jstr) : bool :=
  match s with
  | [] => true
  | c :: rest =>
      if is_low_surrogate c then false
      else if is_high_surrogate c then
        match rest with
        | d :: rest' => is_low_surrogate d && well_formed rest'
        | [] => false
        end
      else well_formed rest
  end.

(** The string iterator used by spread syntax: one string per code point. *)
Fixpoint code_point_strings (s : jstr) : list jstr :=
  match s with
  | [] => []
  | c :: rest =>
      if is_high_surrogate c then
        match rest with
        | d :: rest' =>
            if is_low_surrogate d then [c; d] :: code_point_strings rest'
            else [c] :: code_point_strings rest
        | [] => [[c]]
        end
      else [c] :: code_point_strings rest
  end.

(* ================================================================== *)
(** ** JavaScript values *)
(* ================================================================== *)

(** The values the handlers see are request parameters and parsed response
    bodies, so they are JSON values plus [undefined].  An object is a list of
    its own properties; a lookup takes the first entry for a key.  Numbers
    are represented by integers: the handlers only test a number for
    truthiness or turn it into a string. *)
Inductive value : Type :=
| VUndef
| VNull
| VBool (b : bool)
| VNum (n : Z)
| VStr (s : jstr)
| VArr (elems : list value)
| VObj (fields : list (jstr * value)).

Definition truthy (v : value) : bool :=
  match v with
  | VUndef | VNull => false
  | VBool b => b
  | VNum n => negb (Z.eqb n 0)
  | VStr s => match s with [] => false | _ => true end
  | VArr _ | VObj _ => true
  end.

Definition is_nullish (v : value) : bool :=
  match v with VUndef | VNull => true | _ => false end.

(** [v === 'literal'] *)
Definition strict_eq_str (v : value) (lit : jstr) : bool :=
  match v with VStr s => jstr_eqb s lit | _ => false end.

Fixpoint own (k : jstr) (fields : list (jstr * value)) : option value :=
  match fields with
  | [] => None
  | (k', v) :: rest => if jstr_eqb k k' then Some v else own k rest
  end.

Definition own_or_undef (k : jstr) (fields : list (jstr * value)) : value :=
  match own k fields with Some v => v | None => VUndef end.

(** [a || b] where evaluating [b] has no effect. *)
Definition or_else (a b : value) : value := if truthy a then a else b.

(** Parameter default in a destructuring pattern: [{ x = d } = o]. *)
Definition default_to (d v : value) : value :=
  match v with VUndef => d | _ => v end.

(** [ToString] on an integer in decimal digits, as JavaScript prints the
    integers below 10^21. *)
Definition decimal (n : Z) : jstr :=
  js (DecimalString.NilZero.string_of_int (Z.to_int n)).

(** [ToString] on a JSON value; [None] stands for the [TypeError] of an
    object whose own [toString] property shadows [Object.prototype.toString]
    with something that cannot be called. *)
Fixpoint to_string (v : value) : option jstr :=
  match v with
  | VUndef => Some (js "undefined")
  | VNull => Some (js "null")
  | VBool true => Some (js "true")
  | VBool false => Some (js "false")
  | VNum n => Some (decimal n)
  | VStr s => Some s
  | VArr l =>
      (fix join (l : list value) : option jstr :=
         match l with
         | [] => Some []
         | x :: r =>
             match (if is_nullish x then Some [] else to_string x) with
             | None => None
             | Some sx =>
                 match r with
                 | [] => Some sx
                 | _ => option_map (fun sr => sx ++ js "," ++ sr) (join r)
                 end
             end
         end) l
  | VObj fields =>
      match own (js "toString") fields with
      | Some _ => None
      | None => Some (js "[object Object]")
      end
  end.

(** Last [n] elements: [xs.slice(-n)]. *)
Definition last_n {A} (n : nat) (xs : list A) : list A :=
  skipn (List.length xs - n) xs.

(** Property reads.  [prop_of v k] is [v.k] for a [v] that is neither
    [null] nor [undefined], and for the property names the handlers read
    ([prompt], [response], [choices], ...): none of them is an array index,
    [length], or a name found on a built-in prototype, so only an object's
    own properties can answer. *)
Definition prop_of (v : value) (k : jstr) : value :=
  match v with
  | VObj fields => own_or_undef k fields
  | _ => VUndef
  end.

(** [v[0]] for a [v] that is neither [null] nor [undefined]. *)
Definition index0_of (v : value) : value :=
  match v with
  | VArr (x :: _) => x
  | VStr (c :: _) => VStr [c]
  | VObj fields => own_or_undef (js "0") fields
  | _ => VUndef
  end.

(** Optional chaining: [v?.k] and [v?.[0]]. *)
Definition opt_prop (v : value) (k : jstr) : value :=
  if is_nullish v then VUndef else prop_of v k.
Definition opt_index0 (v : value) : value :=
  if is_nullish v then VUndef else index0_of v.

(* ================================================================== *)
(** ** The world, the state and the monad *)
(* ================================================================== *)

Inductive exn : Type :=
| TypeError (msg : jstr)
| SyntaxError (msg : jstr)
| URIError (msg : jstr)
| FetchError (msg : jstr)
| Error (msg : jstr).

(** [error.message] *)
Definition message (e : exn) : jstr :=
  match e with
  | TypeError m | SyntaxError m | URIError m | FetchError m | Error m => m
  end.

(** What one upstream call gives: the promise of [fetch] rejects
    ([NetErr]), or it resolves to a response with a status and a body;
    [parsed = None] is a body that [response.json()] rejects. *)
Inductive fetch_result : Type :=
| NetErr (msg : jstr)
| Resp (status : Z) (parsed : option value).

(** The environment of a request.  [upstream n url body] answers the call
    made after [n] earlier calls of the same request. *)
Record world : Type := {
  upstream : nat -> jstr -> value -> fetch_result;
  now : jstr;                          (* new Date().toISOString() *)
  GEMINI_API_KEY : option jstr         (* process.env.GEMINI_API_KEY *)
}.

(** One upstream call: the URL and the object given to [JSON.stringify]
    for the request body. *)
Record call : Type := { call_url : jstr; call_body : value }.

Inductive sent : Type :=
| NotSent
| Ended                      (* res.end() *)
| Json (payload : value).    (* res.json(payload) *)

Record res_state : Type := {
  headers : list (jstr * jstr);
  statusCode : Z;
  sent_body : sent
}.

Record state : Type := { calls : list call; res : res_state }.

Definition fresh_res : res_state :=
  {| headers := []; statusCode := 200%Z; sent_body := NotSent |}.
Definition initial : state := {| calls := []; res := fresh_res |}.

Inductive outcome (A : Type) : Type :=
| Ret (a : A)
| Throw (e : exn).
Arguments Ret {A} a.
Arguments Throw {A} e.

Definition M (A : Type) : Type := state -> outcome A * state.

Definition ret {A} (a : A) : M A := fun s => (Ret a, s).
Definition throw {A} (e : exn) : M A := fun s => (Throw e, s).
Definition bind {A B} (m : M A) (f : A -> M B) : M B :=
  fun s => match m s with
           | (Ret a, s') => f a s'
           | (Throw e, s') => (Throw e, s')
           end.
(** [try { m } catch (e) { h e }] *)
Definition try_catch {A} (m : M A) (h : exn -> M A) : M A :=
  fun s => match m s with
           | (Ret a, s') => (Ret a, s')
           | (Throw e, s') => h e s'
           end.

Declare Scope js_scope.
Delimit Scope js_scope with js.
Notation "x <- m ;; k" := (bind m (fun x => k))
  (at level 61, m at next level, right associativity) : js_scope.
Notation "m ;; k" := (bind m (fun _ => k))
  (at level 61, right associativity) : js_scope.
Local Open Scope js_scope.

(** [v.k], with the [TypeError] of a read on [null] or [undefined].  The
    text of that error is the engine's own and names the property; one fixed
    text stands for it. *)
Definition get_prop (v : value) (k : jstr) : M value :=
  if is_nullish v
  then throw (TypeError (js "Cannot read properties of null or undefined"))
  else ret (prop_of v k).

(** [a || b] where [b] is still to be evaluated. *)
Definition orM (a : M value) (b : M value) : M value :=
  x <- a ;; if truthy x then ret x else b.
Notation "a <||> b" := (orM a b) (at level 60, right associativity) : js_scope.

Fixpoint mapM {A B} (f : A -> M B) (l : list A) : M (list B) :=
  match l with
  | [] => ret []
  | x :: r => y <- f x ;; ys <- mapM f r ;; ret (y :: ys)
  end.

(** [model.toLowerCase()] *)
Definition toLowerCase (v : value) : M jstr :=
  match v with
  | VStr s => ret (toLowerCase_str s)
  | VUndef | VNull =>
      throw (TypeError (js "Cannot read properties of null or undefined"))
  | _ => throw (TypeError (js "toLowerCase is not a function"))
  end.

(** [history.slice(-5)]: arrays and strings have [slice]. *)
Definition slice_last5 (v : value) : M value :=
  match v with
  | VArr l => ret (VArr (last_n 5 l))
  | VStr s => ret (VStr (last_n 5 s))
  | VUndef | VNull =>
      throw (TypeError (js "Cannot read properties of null or undefined"))
  | _ => throw (TypeError (js "slice is not a function"))
  end.

(** [[...v]]: arrays and strings are iterable. *)
Definition spread (v : value) : M (list value) :=
  match v with
  | VArr l => ret l
  | VStr s => ret (map VStr (code_point_strings s))
  | _ => throw (TypeError (js "value is not iterable"))
  end.

(** [encodeURIComponent(v)] *)
Definition encodeURIComponent (v : value) : M jstr :=
  match to_string v with
  | None => throw (TypeError (js "Cannot convert object to primitive value"))
  | Some s =>
      match encodeURIComponent_str s with
      | Some e => ret e
      | None => throw (URIError (js "URI malformed"))
      end
  end.

(** *** The response object [res] *)

Definition setHeader (k v : jstr) : M unit :=
  fun s => (Ret tt,
            {| calls := calls s;
               res := {| headers := headers (res s) ++ [(k, v)];
                         statusCode := statusCode (res s);
                         sent_body := sent_body (res s) |} |}).

(** [res.status(code).json(payload)] *)
Definition res_json (code : Z) (payload : value) : M unit :=
  fun s => (Ret tt,
            {| calls := calls s;
               res := {| headers := headers (res s);
                         statusCode := code;
                         sent_body := Json payload |} |}).

(** [res.status(code).end()] *)
Definition res_end (code : Z) : M unit :=
  fun s => (Ret tt,
            {| calls := calls s;
               res := {| headers := headers (res s);
                         statusCode := code;
                         sent_body := Ended |} |}).

(** *** fetch *)

Record response : Type := { resp_status : Z; resp_parsed : option value }.

(** [response.ok] *)
Definition ok (r : response) : bool :=
  (Z.leb 200 (resp_status r) && Z.leb (resp_status r) 299)%bool.

(** [await response.json()]; the text of the [SyntaxError] is the parser's
    own, one fixed text stands for it. *)
Definition json (r : response) : M value :=
  match resp_parsed r with
  | Some v => ret v
  | None => throw (SyntaxError (js "Unexpected token in JSON"))
  end.

Section Fetch.
Variable w : world.

(** [await fetch(url, { method: 'POST', body: JSON.stringify(body) })].
    The call is recorded whether or not it succeeds. *)
Definition fetch (url : jstr) (body : value) : M response :=
  fun s =>
    let s' := {| calls := calls s ++ [{| call_url := url; call_body := body |}];
                 res := res s |} in
    match upstream w (List.length (calls s)) url body with
    | NetErr msg => (Throw (FetchError msg), s')
    | Resp st parsed => (Ret {| resp_status := st; resp_parsed := parsed |}, s')
    end.
End Fetch.

(** An inbound request as the platform hands it over: [req.query] is always
    an object, [req.body] is whatever the body parser produced (possibly
    [undefined]). *)
Record request : Type := {
  method : jstr;
  query : list (jstr * value);
  body : value
}.

(** A function body leaves a [try] block either by [return v] ([Some v]) or
    by falling out of it ([None]). *)
Definition returned := option value.

(** [req.method === 'GET' ? req.query : req.body] *)
Definition params_of (req : request) : value :=
  if jstr_eqb (method req) (js "GET") then VObj (query req) else body req.

(** [const { name = dflt } = params], once [params] is known to be neither
    [null] nor [undefined]. *)
Definition param (req : request) (name : string) (dflt : value) : value :=
  default_to dflt (prop_of (params_of req) (js name)).

(* ================================================================== *)
(** ** src/api/index.js *)
(* ================================================================== *)

Module Index.

Record registry : Type := {
  chatgpt : list jstr;
  claude : list jstr;
  perplexity : list jstr;
  gemini : list jstr;
  image : list jstr
}.

Definition WORKING_APIS : registry := {|
  chatgpt := [ js "https://api.kastg.xyz/api/ai/chatgptv2";
               js "https://deepenglish.com/wp-json/ai-chatbot/v1/chat" ];
  claude := [ js "https://api.kastg.xyz/api/ai/claude" ];
  perplexity := [ js "https://api.kastg.xyz/api/ai/perplexity" ];
  gemini := [ js "https://generativelanguage.googleapis.com/v1beta/models/gemini-pro:generateContent" ];
  image := [ js "https://image.pollinations.ai/prompt/";
             js "https://api.kastg.xyz/api/ai/stablediffusion" ]
|}.

(** [WORKING_APIS.name[i]] for an index the registry has. *)
Definition at_ (urls : list jstr) (i : nat) : jstr := nth i urls [].

(** The sentinel the source compares the key with. *)
Definition placeholder_key : jstr := js "YOUR_GEMINI_KEY".

Section Handlers.
Variable w : world.

(** [h => ({ role: h.role, content: h.content })] *)
Definition turn_of (h : value) : M value :=
  role <- get_prop h (js "role") ;;
  content <- get_prop h (js "content") ;;
  ret (VObj [(js "role", role); (js "content", content)]).

(** [history.map(h => ...)]: only an array has [map]. *)
Definition map_turns (history : value) : M (list value) :=
  match history with
  | VArr l => mapM turn_of l
  | VUndef | VNull =>
      throw (TypeError (js "Cannot read properties of null or undefined"))
  | _ => throw (TypeError (js "map is not a function"))
  end.

(** The expressions that take the answer out of a parsed body. *)

(** [data.response || data.message || data.result] *)
Definition normalize_generic (data : value) : M value :=
  get_prop data (js "response")
  <||> get_prop data (js "message")
  <||> get_prop data (js "result").

(** [data.response || data.message] *)
Definition normalize_deepenglish (data : value) : M value :=
  get_prop data (js "response") <||> get_prop data (js "message").

(** [data.candidates?.[0]?.content?.parts?.[0]?.text] *)
Definition normalize_gemini (data : value) : M value :=
  candidates <- get_prop data (js "candidates") ;;
  ret (opt_prop
         (opt_index0
            (opt_prop (opt_prop (opt_index0 candidates) (js "content")) (js "parts")))
         (js "text")).

(** [data.url || data.image] *)
Definition normalize_image (data : value) : M value :=
  get_prop data (js "url") <||> get_prop data (js "image").

(** Every upstream attempt of the chat functions is the same block:
<<
  try {
    const response = await fetch(url, { ..., body: JSON.stringify(body) });
    if (response.ok) {
      const data = await response.json();
      return normalize(data);
    }
  } catch (e) { console.log(...) }
>>
    The request body is built before [fetch] is called and building it
    can throw ([history.slice], [history.map]).  The result is [Some v]
    when the block returned [v] from the enclosing function. *)
Definition attempt (url : jstr) (build : M value) (normalize : value -> M value)
  : M returned :=
  try_catch
    (payload <- build ;;
     response <- fetch w url payload ;;
     if ok response then
       (data <- json response ;;
        v <- normalize data ;;
        ret (Some v))
     else ret None)
    (fun _ => ret None).

Definition kastg_body (prompt history : value) : M value :=
  h5 <- slice_last5 history ;;
  ret (VObj [(js "prompt", prompt); (js "history", h5)]).

Definition deepenglish_body (prompt history : value) : M value :=
  turns <- map_turns history ;;
  ret (VObj [(js "messages",
              VArr (turns ++ [VObj [(js "role", VStr (js "user"));
                                    (js "content", prompt)]]))]).

Definition tryChatGPT (prompt history : value) : M value :=
  (* Try kastg API *)
  r1 <- attempt (at_ (chatgpt WORKING_APIS) 0) (kastg_body prompt history)
          normalize_generic ;;
  match r1 with
  | Some v => ret v
  | None =>
      (* Try deepenglish fallback *)
      r2 <- attempt (at_ (chatgpt WORKING_APIS) 1) (deepenglish_body prompt history)
              normalize_deepenglish ;;
      match r2 with
      | Some v => ret v
      | None => ret VNull
      end
  end.

Definition tryClaude (prompt history : value) : M value :=
  r <- attempt (at_ (claude WORKING_APIS) 0) (kastg_body prompt history)
         normalize_generic ;;
  match r with
  | Some v => ret v
  | None => ret VNull
  end.

Definition tryPerplexity (prompt : value) : M value :=
  r <- attempt (at_ (perplexity WORKING_APIS) 0)
         (ret (VObj [(js "prompt", prompt)]))
         normalize_generic ;;
  match r with
  | Some v => ret v
  | None => ret VNull
  end.

(** [process.env.GEMINI_API_KEY || 'YOUR_GEMINI_KEY']: an environment
    value is a string when it is there. *)
Definition GEMINI_KEY : jstr :=
  match GEMINI_API_KEY w with
  | Some (c :: k) => c :: k
  | Some [] | None => placeholder_key
  end.

(** [`${WORKING_APIS.gemini[0]}?key=${GEMINI_KEY}`] *)
Definition gemini_url : jstr :=
  at_ (gemini WORKING_APIS) 0 ++ js "?key=" ++ GEMINI_KEY.

Definition tryGemini (prompt history imageUrl : value) : M value :=
  if (match GEMINI_KEY with [] => true | _ => false end
      || jstr_eqb GEMINI_KEY placeholder_key)%bool
  then
    (* Fallback to ChatGPT if no Gemini key *)
    tryChatGPT prompt history
  else
    r <- attempt gemini_url
           (ret (VObj [(js "contents",
                        VArr [VObj [(js "parts",
                                     VArr [VObj [(js "text", prompt)]])]])]))
           normalize_gemini ;;
    match r with
    | Some v => ret v
    | None =>
        (* Fallback to ChatGPT *)
        tryChatGPT prompt history
    end.

Definition handleChatRequest (prompt model history imageUrl : value) : M unit :=
  modelLower <- toLowerCase model ;;
  try_catch
    (response <-
       (if jstr_eqb modelLower (js "chatgpt") || jstr_eqb modelLower (js "gpt")
           || jstr_eqb modelLower (js "gpt4")
        then tryChatGPT prompt history
        else if jstr_eqb modelLower (js "claude")
        then tryClaude prompt history
        else if jstr_eqb modelLower (js "perplexity") || jstr_eqb modelLower (js "search")
        then tryPerplexity prompt
        else if jstr_eqb modelLower (js "gemini")
        then tryGemini prompt history imageUrl
        else tryChatGPT prompt history) ;;
     if truthy response then
       res_json 200 (VObj [(js "success", VBool true);
                           (js "model", VStr modelLower);
                           (js "response", response);
                           (js "timestamp", VStr (now w))])
     else throw (Error (js "All APIs failed")))
    (fun error =>
       res_json 500 (VObj [(js "error", VStr (js "Chat generation failed"));
                           (js "message", VStr (message error));
                           (js "model", VStr modelLower)])).

Definition handleImageGeneration (prompt : value) : M unit :=
  if negb (truthy prompt) then
    res_json 400 (VObj [(js "error", VStr (js "Prompt required for image generation"))])
  else
    try_catch
      (encodedPrompt <- encodeURIComponent prompt ;;
       let imageUrl :=
         at_ (image WORKING_APIS) 0 ++ encodedPrompt
           ++ js "?width=1024&height=1024&nologo=true&enhance=true" in
       res_json 200 (VObj [(js "success", VBool true);
                           (js "model", VStr (js "pollinations"));
                           (js "imageUrl", VStr imageUrl);
                           (js "directUrl", VStr imageUrl);
                           (js "prompt", prompt);
                           (js "timestamp", VStr (now w))]))
      (fun error =>
         (* Try kastg stable diffusion as fallback *)
         r <- try_catch
                (response <- fetch w (at_ (image WORKING_APIS) 1)
                               (VObj [(js "prompt", prompt)]) ;;
                 if ok response then
                   (data <- json response ;;
                    url <- normalize_image data ;;
                    res_json 200 (VObj [(js "success", VBool true);
                                        (js "model", VStr (js "stable-diffusion"));
                                        (js "imageUrl", url);
                                        (js "prompt", prompt);
                                        (js "timestamp", VStr (now w))]) ;;
                    ret true)
                 else ret false)
                (fun _ => ret false) ;;
         if (r : bool) then ret tt
         else
           res_json 500 (VObj [(js "error", VStr (js "Image generation failed"));
                               (js "message", VStr (message error))])).

(** [module.exports = async (req, res) => ...] *)
Definition handler (req : request) : M unit :=
  setHeader (js "Access-Control-Allow-Origin") (js "*") ;;
  setHeader (js "Access-Control-Allow-Methods") (js "GET, POST, OPTIONS") ;;
  setHeader (js "Access-Control-Allow-Headers") (js "Content-Type, Authorization") ;;
  if jstr_eqb (method req) (js "OPTIONS") then res_end 200
  else
    try_catch
      (let params := params_of req in
       (* destructuring [null] or [undefined] throws *)
       prompt <- get_prop params (js "prompt") ;;
       let model := param req "model" (VStr (js "chatgpt")) in
       let action := param req "action" (VStr (js "chat")) in
       let history := param req "history" (VArr []) in
       let imageUrl := param req "imageUrl" VNull in
       if (negb (truthy prompt) && negb (strict_eq_str action (js "test")))%bool then
         res_json 400
           (VObj [(js "error", VStr (js "Missing prompt"));
                  (js "usage",
                   VObj [(js "chat",
                          VStr (js "POST / with {prompt, model: chatgpt|claude|perplexity|gemini}"));
                         (js "image",
                          VStr (js "POST / with {action: image, prompt: your description}"))])])
       else if strict_eq_str action (js "test") then
         res_json 200
           (VObj [(js "status", VStr (js "online"));
                  (js "models", VArr [VStr (js "chatgpt"); VStr (js "claude");
                                      VStr (js "perplexity"); VStr (js "gemini")]);
                  (js "features", VArr [VStr (js "chat"); VStr (js "image")]);
                  (js "timestamp", VStr (now w))])
       else if strict_eq_str action (js "image") then
         handleImageGeneration prompt
       else
         handleChatRequest prompt model history imageUrl)
      (fun error =>
         res_json 500 (VObj [(js "error", VStr (js "Internal server error"));
                             (js "message", VStr (message error))])).

End Handlers.
End Index.

(* ================================================================== *)
(** ** src/unnamed/part_000 *)
(* ================================================================== *)

Module Part000.

Definition APIS : list (jstr * jstr) :=
  [ (js "gpt4", js "https://api.guruapi.tech/ai/gpt4");
    (js "claude", js "https://api.guruapi.tech/ai/claude");
    (js "gemini", js "https://api.guruapi.tech/ai/gemini");
    (js "llama", js "https://api.guruapi.tech/ai/llama");
    (js "imageGen", js "https://api.guruapi.tech/ai/image") ].

Record fallback_registry : Type := { chat : list jstr; image : list jstr }.

Definition FALLBACK : fallback_registry := {|
  chat := [ js "https://widipe.com/openai";
            js "https://api.freeaiapi.xyz/v1/chat/completions" ];
  image := [ js "https://api.freeaiapi.xyz/v1/images/generations" ]
|}.

(** What [APIS[model] || APIS.gpt4] can be: one of the registry's URLs, or
    a truthy value that is no URL.  [APIS] is an object literal, so
    [APIS['constructor']] and [APIS['__proto__']] are inherited from
    [Object.prototype]; the other inherited names have capital letters and
    [callChatAPI] gets a lower-cased model. *)
Inductive url_arg : Type :=
| Url (u : jstr)
| NotUrl.

Fixpoint own_url (k : jstr) (table : list (jstr * jstr)) : option jstr :=
  match table with
  | [] => None
  | (k', u) :: rest => if jstr_eqb k k' then Some u else own_url k rest
  end.

Definition APIS_gpt4 : jstr := js "https://api.guruapi.tech/ai/gpt4".

(** [APIS[model] || APIS.gpt4] *)
Definition api_url (model : jstr) : url_arg :=
  match own_url model APIS with
  | Some u => Url u
  | None =>
      if (jstr_eqb model (js "constructor") || jstr_eqb model (js "__proto__"))%bool
      then NotUrl
      else Url APIS_gpt4
  end.

Section Handlers.
Variable w : world.

(** [fetch] rejects, without a request, what is not an absolute URL. *)
Definition fetch_arg (a : url_arg) (body : value) : M response :=
  match a with
  | Url u => fetch w u body
  | NotUrl => throw (TypeError (js "Only absolute URLs are supported"))
  end.

(** [data.response || data.answer || data.result || null] *)
Definition normalize_primary (data : value) : M value :=
  get_prop data (js "response")
  <||> get_prop data (js "answer")
  <||> get_prop data (js "result")
  <||> ret VNull.

(** [data.choices?.[0]?.message?.content || null] *)
Definition normalize_choices (data : value) : M value :=
  choices <- get_prop data (js "choices") ;;
  ret (or_else
         (opt_prop (opt_prop (opt_index0 choices) (js "message")) (js "content"))
         VNull).

(** Call primary chat API *)
Definition callChatAPI (prompt : value) (model : jstr) (history : value) : M value :=
  let apiUrl := api_url model in
  try_catch
    (response <- fetch_arg apiUrl
                   (VObj [(js "query", prompt);
                          (js "history", or_else history (VArr []))]) ;;
     if negb (ok response) then throw (Error (js "API request failed"))
     else
       data <- json response ;;
       normalize_primary data)
    (fun _ => ret VNull).

(** Call fallback chat API *)
Definition callFallbackChat (prompt : value) (apiUrl : jstr) (history : value) : M value :=
  try_catch
    (turns <- spread (or_else history (VArr [])) ;;
     let messages :=
       VArr (turns ++ [VObj [(js "role", VStr (js "user")); (js "content", prompt)]]) in
     response <- fetch w apiUrl
                   (VObj [(js "model", VStr (js "gpt-4"));
                          (js "messages", messages);
                          (js "stream", VBool false)]) ;;
     if negb (ok response) then throw (Error (js "Fallback API failed"))
     else
       data <- json response ;;
       normalize_choices data)
    (fun _ => ret VNull).

(** The loop [for (const fallbackUrl of FALLBACK.chat)] of [handleChat];
    the result tells whether an iteration returned from the function. *)
Fixpoint try_fallbacks (prompt history : value) (urls : list jstr) : M bool :=
  match urls with
  | [] => ret false
  | fallbackUrl :: rest =>
      response <- callFallbackChat prompt fallbackUrl history ;;
      if truthy response then
        (res_json 200 (VObj [(js "success", VBool true);
                             (js "model", VStr (js "fallback"));
                             (js "response", response);
                             (js "timestamp", VStr (now w))]) ;;
         ret true)
      else try_fallbacks prompt history rest
  end.

(** Handle chat requests *)
Definition handleChat (prompt model history : value) : M unit :=
  selectedModel <- toLowerCase model ;;
  try_catch
    (response <- callChatAPI prompt selectedModel history ;;
     if truthy response then
       res_json 200 (VObj [(js "success", VBool true);
                           (js "model", VStr selectedModel);
                           (js "response", response);
                           (js "timestamp", VStr (now w))])
     else
       done <- try_fallbacks prompt history (chat FALLBACK) ;;
       if (done : bool) then ret tt
       else throw (Error (js "All APIs failed")))
    (fun error =>
       res_json 500 (VObj [(js "error", VStr (js "Chat generation failed"));
                           (js "message", VStr (message error))])).

(** Handle image generation *)
Definition handleImageGen (prompt : value) : M unit :=
  if negb (truthy prompt) then
    res_json 400 (VObj [(js "error", VStr (js "Prompt required for image generation"))])
  else
    try_catch
      (encoded <- encodeURIComponent prompt ;;
       let imageUrl :=
         js "https://image.pollinations.ai/prompt/" ++ encoded
           ++ js "?width=1024&height=1024&nologo=true" in
       res_json 200 (VObj [(js "success", VBool true);
                           (js "model", VStr (js "pollinations-ai"));
                           (js "imageUrl", VStr imageUrl);
                           (js "prompt", prompt);
                           (js "timestamp", VStr (now w))]))
      (fun error =>
         (* Fallback to another service *)
         try_catch
           (response <- fetch w (js "https://api.freeaiapi.xyz/v1/images/generations")
                          (VObj [(js "prompt", prompt);
                                 (js "n", VNum 1);
                                 (js "size", VStr (js "1024x1024"))]) ;;
            data <- json response ;;
            d <- get_prop data (js "data") ;;
            res_json 200 (VObj [(js "success", VBool true);
                                (js "model", VStr (js "dalle-free"));
                                (js "imageUrl",
                                 or_else (opt_prop (opt_index0 d) (js "url")) VNull);
                                (js "prompt", prompt);
                                (js "timestamp", VStr (now w))]))
           (fun fallbackError =>
              res_json 500 (VObj [(js "error", VStr (js "Image generation failed"));
                                  (js "message", VStr (message fallbackError))]))).

(** [module.exports = async (req, res) => ...] *)
Definition handler (req : request) : M unit :=
  setHeader (js "Access-Control-Allow-Origin") (js "*") ;;
  setHeader (js "Access-Control-Allow-Methods") (js "GET, POST, OPTIONS") ;;
  setHeader (js "Access-Control-Allow-Headers") (js "Content-Type") ;;
  if jstr_eqb (method req) (js "OPTIONS") then res_end 200
  else
    try_catch
      (let params := params_of req in
       (* destructuring [null] or [undefined] throws *)
       prompt <- get_prop params (js "prompt") ;;
       let model := param req "model" (VStr (js "gpt4")) in
       let action := param req "action" (VStr (js "chat")) in
       let history := param req "history" (VArr []) in
       if (negb (truthy prompt) && strict_eq_str action (js "chat"))%bool then
         res_json 400
           (VObj [(js "error", VStr (js "Prompt required"));
                  (js "usage",
                   VStr (js "GET /?prompt=your_question&model=gpt4|claude|gemini|llama"))])
       else if strict_eq_str action (js "image") then
         (* Image generation *)
         handleImageGen prompt
       else
         (* Chat/Text generation *)
         handleChat prompt model history)
      (fun error =>
         res_json 500 (VObj [(js "error", VStr (js "Internal server error"));
                             (js "message", VStr (message error))])).

End Handlers.
End Part000.

(* ================================================================== *)
(** ** src/api/claude.js *)
(* ================================================================== *)

Module Claude.

Definition endpoint : jstr := js "https://api.cocos.si/chat/completions".

(** The object given to [JSON.stringify] for the request body. *)
Definition request_body (prompt : value) : value :=
  VObj [(js "model", VStr (js "claude-3-5-sonnet"));
        (js "messages",
         VArr [VObj [(js "role", VStr (js "user")); (js "content", prompt)]])].

(** [data.choices?.[0]?.message?.content || "No response."] *)
Definition normalize (data : value) : M value :=
  choices <- get_prop data (js "choices") ;;
  ret (or_else
         (opt_prop (opt_prop (opt_index0 choices) (js "message")) (js "content"))
         (VStr (js "No response."))).

Section Handler.
Variable w : world.

Definition handler (req : request) : M unit :=
  try_catch
    (let prompt := or_else (own_or_undef (js "prompt") (query req)) (VStr (js "Hello")) in
     response <- fetch w endpoint (request_body prompt) ;;
     data <- json response ;;
     answer <- normalize data ;;
     res_json 200
       (VObj [(js "success", VBool true);
              (js "model", VStr (js "claude-3.5-sonnet"));
              (js "response", answer)]))
    (fun err =>
       res_json 500 (VObj [(js "success", VBool false);
                           (js "error", VStr (message err))])).

End Handler.
End Claude.

(** Running a handler on a fresh response object. *)
Definition run {A} (m : M A) : outcome A * state := m initial.
Definition final {A} (m : M A) : state := snd (run m).
Definition status_of {A} (m : M A) : Z := statusCode (res (final m)).
Definition body_of {A} (m : M A) : sent := sent_body (res (final m)).
Definition urls_of {A} (m : M A) : list jstr := map call_url (calls (final m)).

(* ================================================================== *)
(** ** The vocabulary of the specification *)
(* ================================================================== *)

(** The CORS headers every handler of the endpoint sets first. *)
Definition cors (allowed_headers : string) : list (jstr * jstr) :=
  [ (js "Access-Control-Allow-Origin", js "*");
    (js "Access-Control-Allow-Methods", js "GET, POST, OPTIONS");
    (js "Access-Control-Allow-Headers", js allowed_headers) ].

(** The state after a handler answered [res.status(code).json(payload)]
    having made the upstream calls [made]. *)
Definition responded (hdrs : list (jstr * jstr)) (code : Z) (payload : value)
    (made : list call) : state :=
  {| calls := made;
     res := {| headers := hdrs; statusCode := code; sent_body := Json payload |} |}.

(** A request the router parses parameters of: not a pre-flight, and with a
    parameter object to destructure. *)
Definition routed (req : request) : bool :=
  negb (jstr_eqb (method req) (js "OPTIONS")) && negb (is_nullish (params_of req)).

Definition prompt_of (req : request) : value := prop_of (params_of req) (js "prompt").
Definition action_of (req : request) : value := param req "action" (VStr (js "chat")).
Definition history_of (req : request) : value := param req "history" (VArr []).

(** A request the router hands to the chat handler. *)
Definition chat_request (req : request) : bool :=
  routed req && truthy (prompt_of req)
  && negb (strict_eq_str (action_of req) (js "test"))
  && negb (strict_eq_str (action_of req) (js "image")).

(** A request the router hands to the image handler, with a string prompt. *)
Definition image_request (req : request) (prompt : jstr) : bool :=
  routed req && strict_eq_str (action_of req) (js "image")
  && match prompt_of req with VStr s => jstr_eqb s prompt | _ => false end.

(** The static status payload of the test action. *)
Definition status_payload (w : world) : value :=
  VObj [(js "status", VStr (js "online"));
        (js "models", VArr [VStr (js "chatgpt"); VStr (js "claude");
                            VStr (js "perplexity"); VStr (js "gemini")]);
        (js "features", VArr [VStr (js "chat"); VStr (js "image")]);
        (js "timestamp", VStr (now w))].

(** The success envelope of a chat answer. *)
Definition chat_envelope (w : world) (model : jstr) (answer : value) : value :=
  VObj [(js "success", VBool true);
        (js "model", VStr model);
        (js "response", answer);
        (js "timestamp", VStr (now w))].

(** [response.ok] on a status code. *)
Definition ok_status (st : Z) : bool := (Z.leb 200 st && Z.leb st 299)%bool.

(** An attempt that fails: network error, non-2xx status, or a body that
    does not parse as JSON. *)
Definition failed (r : fetch_result) : bool :=
  match r with
  | NetErr _ => true
  | Resp st parsed =>
      negb (ok_status st) || match parsed with None => true | Some _ => false end
  end.

(** The value a normalizing expression takes out of a parsed body. *)
Definition extract (normalize : value -> M value) (data : value) : outcome value :=
  fst (normalize data initial).

(** The usable (truthy) value a normalizing expression finds, if any. *)
Definition usable (normalize : value -> M value) (data : value) : option value :=
  match extract normalize data with
  | Ret v => if truthy v then Some v else None
  | Throw _ => None
  end.

(** An attempt that fails or returns data without a usable value. *)
Definition gives_nothing (normalize : value -> M value) (r : fetch_result) : bool :=
  match r with
  | NetErr _ => true
  | Resp st parsed =>
      negb (ok_status st)
      || match parsed with
         | None => true
         | Some data => match usable normalize data with None => true | Some _ => false end
         end
  end.

(** A candidate upstream of a model: where it is and how its answer is read. *)
Record candidate : Type := { c_url : jstr; c_normalize : value -> M value }.

(** The upstream at [c] fails whenever it is called. *)
Definition fails (w : world) (c : candidate) : Prop :=
  forall n payload, failed (upstream w n (c_url c) payload) = true.

(** The upstream at [c] fails or returns nothing usable whenever it is called. *)
Definition answers_nothing (w : world) (c : candidate) : Prop :=
  forall n payload, gives_nothing (c_normalize c) (upstream w n (c_url c) payload) = true.

(** The upstream at [c] returns a valid payload whose normalized value is [v]. *)
Definition answers (w : world) (c : candidate) (v : value) : Prop :=
  forall n payload, exists st data,
    upstream w n (c_url c) payload = Resp st (Some data)
    /\ ok_status st = true
    /\ usable (c_normalize c) data = Some v.

(** A history as the data model has it: an array of turns. *)
Definition is_turns (history : value) : bool :=
  match history with
  | VArr l => forallb (fun h => negb (is_nullish h)) l
  | _ => false
  end.

(** The candidate chains of [src/api/index.js], per lower-cased model name, as
    [handleChatRequest] and the [try...] functions go through them. *)
Definition chatgpt_chain : list candidate :=
  [ {| c_url := Index.at_ (Index.chatgpt Index.WORKING_APIS) 0;
       c_normalize := Index.normalize_generic |};
    {| c_url := Index.at_ (Index.chatgpt Index.WORKING_APIS) 1;
       c_normalize := Index.normalize_deepenglish |} ].

Definition key_configured (w : world) : bool :=
  match GEMINI_API_KEY w with
  | Some (c :: k) => negb (jstr_eqb (c :: k) Index.placeholder_key)
  | Some [] | None => false
  end.

Definition index_chain (w : world) (model : jstr) : list candidate :=
  if (jstr_eqb model (js "chatgpt") || jstr_eqb model (js "gpt")
      || jstr_eqb model (js "gpt4"))%bool then chatgpt_chain
  else if jstr_eqb model (js "claude") then
    [ {| c_url := Index.at_ (Index.claude Index.WORKING_APIS) 0;
         c_normalize := Index.normalize_generic |} ]
  else if (jstr_eqb model (js "perplexity") || jstr_eqb model (js "search"))%bool then
    [ {| c_url := Index.at_ (Index.perplexity Index.WORKING_APIS) 0;
         c_normalize := Index.normalize_generic |} ]
  else if jstr_eqb model (js "gemini") then
    if key_configured w
    then {| c_url := Index.gemini_url w; c_normalize := Index.normalize_gemini |}
         :: chatgpt_chain
    else chatgpt_chain
  else chatgpt_chain.

(** The candidate chain of [src/unnamed/part_000]: the model's primary URL,
    then the fallback list. *)
Definition part000_chain (model : jstr) : list candidate :=
  match Part000.api_url model with
  | Part000.Url u => [ {| c_url := u; c_normalize := Part000.normalize_primary |} ]
  | Part000.NotUrl => []
  end
  ++ map (fun u => {| c_url := u; c_normalize := Part000.normalize_choices |})
         (Part000.chat Part000.FALLBACK).

(** The normalizer as the specification words it: the first candidate field
    that is neither [null] nor [undefined], and [null] when there is none. *)
Definition spec_normalize (fields : list string) (data : value) : value :=
  match find (fun v => negb (is_nullish v)) (map (fun k => prop_of data (js k)) fields) with
  | Some v => v
  | None => VNull
  end.

(** The first truthy candidate field, which is what [a || b || c] finds. *)
Definition first_truthy (fields : list string) (data : value) : option value :=
  find truthy (map (fun k => prop_of data (js k)) fields).

(** Whether [u] begins with [prefix]. *)
Fixpoint starts_with (prefix u : jstr) : bool :=
  match prefix, u with
  | [], _ => true
  | p :: prefix', c :: u' => N.eqb p c && starts_with prefix' u'
  | _ :: _, [] => false
  end.

(** [data.choices?.[0]?.message?.content] on a body that is not [null]. *)
Definition choices_content (data : value) : value :=
  opt_prop (opt_prop (opt_index0 (prop_of data (js "choices"))) (js "message")) (js "content").

(** [data.candidates?.[0]?.content?.parts?.[0]?.text] on a body that is not
    [null]. *)
Definition candidates_text (data : value) : value :=
  opt_prop
    (opt_index0
       (opt_prop (opt_prop (opt_index0 (prop_of data (js "candidates"))) (js "content"))
          (js "parts")))
    (js "text").

(** The envelopes of the router's validation answers. *)
Definition index_missing_prompt : value :=
  VObj [(js "error", VStr (js "Missing prompt"));
        (js "usage",
         VObj [(js "chat",
                VStr (js "POST / with {prompt, model: chatgpt|claude|perplexity|gemini}"));
               (js "image",
                VStr (js "POST / with {action: image, prompt: your description}"))])].

Definition part000_prompt_required : value :=
  VObj [(js "error", VStr (js "Prompt required"));
        (js "usage",
         VStr (js "GET /?prompt=your_question&model=gpt4|claude|gemini|llama"))].

Definition image_prompt_required : value :=
  VObj [(js "error", VStr (js "Prompt required for image generation"))].

(** The success envelope of [claude.js]. *)
Definition claude_envelope (answer : value) : value :=
  VObj [(js "success", VBool true);
        (js "model", VStr (js "claude-3.5-sonnet"));
        (js "response", answer)].

(** The image URLs the two image handlers build from an encoded prompt. *)
Definition index_image_url (encoded : jstr) : jstr :=
  js "https://image.pollinations.ai/prompt/" ++ encoded
    ++ js "?width=1024&height=1024&nologo=true&enhance=true".

Definition part000_image_url (encoded : jstr) : jstr :=
  js "https://image.pollinations.ai/prompt/" ++ encoded
    ++ js "?width=1024&height=1024&nologo=true".

Definition index_image_envelope (w : world) (prompt : value) (url : jstr) : value :=
  VObj [(js "success", VBool true);
        (js "model", VStr (js "pollinations"));
        (js "imageUrl", VStr url);
        (js "directUrl", VStr url);
        (js "prompt", prompt);
        (js "timestamp", VStr (now w))].

Definition part000_image_envelope (w : world) (prompt : value) (url : jstr) : value :=
  VObj [(js "success", VBool true);
        (js "model", VStr (js "pollinations-ai"));
        (js "imageUrl", VStr url);
        (js "prompt", prompt);
        (js "timestamp", VStr (now w))].

(** The call of the catch branch of [handleImageGeneration]. *)
Definition stable_diffusion_call (prompt : value) : call :=
  {| call_url := Index.at_ (Index.image Index.WORKING_APIS) 1;
     call_body := VObj [(js "prompt", prompt)] |}.

(* ------------------------------------------------------------------ *)
(** *** The fallback invoker, as a walk over a plan *)

(** The state after one more upstream call. *)
Definition log (s : state) (url : jstr) (payload : value) : state :=
  {| calls := calls s ++ [{| call_url := url; call_body := payload |}]; res := res s |}.

(** The request body a body-building step makes, if it does not throw. *)
Definition built (build : M value) : option value :=
  match fst (build initial) with
  | Ret payload => Some payload
  | Throw _ => None
  end.

(** What an attempt of api/index.js makes of the upstream's answer: on a 2xx
    answer with a parsed body the enclosing function returns whatever the
    normalizer gives, usable or not. *)
Definition settle_returned (normalize : value -> M value) (r : fetch_result) : returned :=
  match r with
  | Resp st (Some data) =>
      if ok_status st then
        match extract normalize data with
        | Ret v => Some v
        | Throw _ => None
        end
      else None
  | Resp _ None | NetErr _ => None
  end.

(** What an attempt of part_000 makes of the upstream's answer: only a
    usable value ends the search. *)
Definition settle_usable (normalize : value -> M value) (r : fetch_result) : returned :=
  match r with
  | Resp st (Some data) => if ok_status st then usable normalize data else None
  | Resp _ None | NetErr _ => None
  end.

(** A candidate with the request body for it; [None] when building the body
    throws, in which case the attempt is over before any call. *)
Definition planned : Type := (candidate * option value)%type.

(** Trying the candidates of a plan in order until one settles. *)
Fixpoint walk (settle : (value -> M value) -> fetch_result -> returned)
    (w : world) (plan : list planned) (s : state) : returned * state :=
  match plan with
  | [] => (None, s)
  | (c, None) :: rest => walk settle w rest s
  | (c, Some payload) :: rest =>
      match settle (c_normalize c)
              (upstream w (List.length (calls s)) (c_url c) payload) with
      | Some v => (Some v, log s (c_url c) payload)
      | None => walk settle w rest (log s (c_url c) payload)
      end
  end.

(** [return v] or the final [return null]. *)
Definition value_of (r : returned) : value :=
  match r with Some v => v | None => VNull end.

Definition chatgpt_plan (prompt history : value) : list planned :=
  [ ({| c_url := Index.at_ (Index.chatgpt Index.WORKING_APIS) 0;
        c_normalize := Index.normalize_generic |},
     built (Index.kastg_body prompt history));
    ({| c_url := Index.at_ (Index.chatgpt Index.WORKING_APIS) 1;
        c_normalize := Index.normalize_deepenglish |},
     built (Index.deepenglish_body prompt history)) ].

Definition gemini_payload (prompt : value) : value :=
  VObj [(js "contents",
         VArr [VObj [(js "parts", VArr [VObj [(js "text", prompt)]])]])].

(** The plan [handleChatRequest] follows for a lower-cased model name. *)
Definition index_plan (w : world) (model : jstr) (prompt history : value) : list planned :=
  if (jstr_eqb model (js "chatgpt") || jstr_eqb model (js "gpt")
      || jstr_eqb model (js "gpt4"))%bool then chatgpt_plan prompt history
  else if jstr_eqb model (js "claude") then
    [ ({| c_url := Index.at_ (Index.claude Index.WORKING_APIS) 0;
          c_normalize := Index.normalize_generic |},
       built (Index.kastg_body prompt history)) ]
  else if (jstr_eqb model (js "perplexity") || jstr_eqb model (js "search"))%bool then
    [ ({| c_url := Index.at_ (Index.perplexity Index.WORKING_APIS) 0;
          c_normalize := Index.normalize_generic |},
       Some (VObj [(js "prompt", prompt)])) ]
  else if jstr_eqb model (js "gemini") then
    if key_configured w
    then ({| c_url := Index.gemini_url w; c_normalize := Index.normalize_gemini |},
          Some (gemini_payload prompt))
         :: chatgpt_plan prompt history
    else chatgpt_plan prompt history
  else chatgpt_plan prompt history.

(** The request bodies of part_000. *)
Definition primary_payload (prompt history : value) : value :=
  VObj [(js "query", prompt); (js "history", or_else history (VArr []))].

Definition fallback_body (prompt history : value) : M value :=
  turns <- spread (or_else history (VArr [])) ;;
  ret (VObj [(js "model", VStr (js "gpt-4"));
             (js "messages",
              VArr (turns ++ [VObj [(js "role", VStr (js "user")); (js "content", prompt)]]));
             (js "stream", VBool false)]).

Definition fallback_plan (prompt history : value) (urls : list jstr) : list planned :=
  map (fun u => ({| c_url := u; c_normalize := Part000.normalize_choices |},
                 built (fallback_body prompt history))) urls.

Definition part000_plan (model : jstr) (prompt history : value) : list planned :=
  match Part000.api_url model with
  | Part000.Url u =>
      [ ({| c_url := u; c_normalize := Part000.normalize_primary |},
         Some (primary_payload prompt history)) ]
  | Part000.NotUrl => []
  end
  ++ fallback_plan prompt history (Part000.chat Part000.FALLBACK).

(** The failure envelopes of the chat handlers. *)
Definition index_chat_failed (model : jstr) : value :=
  VObj [(js "error", VStr (js "Chat generation failed"));
        (js "message", VStr (js "All APIs failed"));
        (js "model", VStr model)].

Definition part000_chat_failed : value :=
  VObj [(js "error", VStr (js "Chat generation failed"));
        (js "message", VStr (js "All APIs failed"))].

(** A computation that reads no state and leaves it as it is. *)
Definition stateless {A} (m : M A) : Prop := forall s, m s = (fst (m initial), s).

(* ------------------------------------------------------------------ *)
(** *** The two deployments of the endpoint *)

Inductive deployment : Type :=
| IndexJs      (* src/api/index.js *)
| Part000Js.   (* src/unnamed/part_000 *)

Definition handler_of (d : deployment) : world -> request -> M unit :=
  match d with
  | IndexJs => Index.handler
  | Part000Js => Part000.handler
  end.

(** [model = 'chatgpt'] and [model = 'gpt4'] in the destructuring patterns. *)
Definition model_of (d : deployment) (req : request) : value :=
  match d with
  | IndexJs => param req "model" (VStr (js "chatgpt"))
  | Part000Js => param req "model" (VStr (js "gpt4"))
  end.

Definition chain_of (d : deployment) (w : world) (model : jstr) : list candidate :=
  match d with
  | IndexJs => index_chain w model
  | Part000Js => part000_chain model
  end.

(** The model name in the success envelope when candidate [n] of the chain
    answers: part_000 says "fallback" for an answer of the fallback list. *)
Definition answered_as (d : deployment) (model : jstr) (n : nat) : jstr :=
  match d with
  | IndexJs => model
  | Part000Js =>
      match Part000.api_url model, n with
      | Part000.Url _, O => model
      | _, _ => js "fallback"
      end
  end.

Definition chat_failed (d : deployment) (model : jstr) : value :=
  match d with
  | IndexJs => index_chat_failed model
  | Part000Js => part000_chat_failed
  end.

(** The state in which the router calls a handler function. *)
Definition routed_state (d : deployment) : state :=
  {| calls := [];
     res := {| headers := cors (match d with
                                | IndexJs => "Content-Type, Authorization"
                                | Part000Js => "Content-Type"
                                end);
               statusCode := 200;
               sent_body := NotSent |} |}.

(** The address of the gemini upstream, before the key. *)
Definition gemini_base : jstr := Index.at_ (Index.gemini Index.WORKING_APIS) 0.

(** The chat layer as the router calls it for a request whose model is the
    string [m]. *)
Definition chat_layer (d : deployment) (w : world) (req : request) (m : jstr) : M unit :=
  match d with
  | IndexJs =>
      Index.handleChatRequest w (prompt_of req) (VStr m) (history_of req)
        (param req "imageUrl" VNull)
  | Part000Js => Part000.handleChat w (prompt_of req) (VStr m) (history_of req)
  end.

(* ------------------------------------------------------------------ *)
(** *** Lower-cased model names *)

(** A string of ASCII code units.  On such a string
    [String.prototype.toLowerCase] changes the letters A to Z and nothing
    else, which is what [toLowerCase_str] does. *)
Definition ascii_only (s : jstr) : bool := forallb (fun c => N.ltb c 128) s.

(** [name] is the lower-cased form of the model name [m], as far as it is
    determined here: for a name of ASCII code units.  What a handler echoes
    for another name is a string this development does not tell. *)
Definition lower_cased (m name : jstr) : Prop :=
  ascii_only m = true -> name = toLowerCase_str m.

(* ------------------------------------------------------------------ *)
(** *** The provider registry and the readings of the answers, as the
        specification lists them *)

(** How the answer of a provider is read out of its parsed body. *)
Inductive reading : Type :=
| Fields (names : list string)   (* the first truthy of these fields *)
| ChoicesContent                 (* choices[0].message.content *)
| CandidatesText.                (* candidates[0].content.parts[0].text *)

(** The usable value of a parsed body under a reading; the body [null] has
    none. *)
Definition read (r : reading) (data : value) : option value :=
  if is_nullish data then None
  else match r with
       | Fields names => first_truthy names data
       | ChoicesContent =>
           if truthy (choices_content data) then Some (choices_content data) else None
       | CandidatesText =>
           if truthy (candidates_text data) then Some (candidates_text data) else None
       end.

(** A candidate target: its address and the reading of its answer. *)
Record target : Type := { t_url : jstr; t_reading : reading }.

Definition chatgpt_targets : list target :=
  [ {| t_url := js "https://api.kastg.xyz/api/ai/chatgptv2";
       t_reading := Fields ["response"; "message"; "result"] |};
    {| t_url := js "https://deepenglish.com/wp-json/ai-chatbot/v1/chat";
       t_reading := Fields ["response"; "message"] |} ].

Definition gemini_target (key : jstr) : target :=
  {| t_url :=
       js "https://generativelanguage.googleapis.com/v1beta/models/gemini-pro:generateContent?key="
       ++ key;
     t_reading := CandidatesText |}.

(** The targets of api/index.js for a lower-cased model name, in the order
    they are tried. *)
Definition index_targets (w : world) (model : jstr) : list target :=
  if jstr_eqb model (js "claude") then
    [ {| t_url := js "https://api.kastg.xyz/api/ai/claude";
         t_reading := Fields ["response"; "message"; "result"] |} ]
  else if (jstr_eqb model (js "perplexity") || jstr_eqb model (js "search"))%bool then
    [ {| t_url := js "https://api.kastg.xyz/api/ai/perplexity";
         t_reading := Fields ["response"; "message"; "result"] |} ]
  else if jstr_eqb model (js "gemini") then
    match GEMINI_API_KEY w with
    | Some key =>
        if (jstr_eqb key [] || jstr_eqb key (js "YOUR_GEMINI_KEY"))%bool
        then chatgpt_targets
        else gemini_target key :: chatgpt_targets
    | None => chatgpt_targets
    end
  else chatgpt_targets.

(** The primary address of part_000 for a lower-cased model name: the
    registry entry of the name, the gpt4 entry for a name without one, and
    none for the two names an object literal inherits. *)
Definition part000_primary (model : jstr) : option jstr :=
  if jstr_eqb model (js "claude") then Some (js "https://api.guruapi.tech/ai/claude")
  else if jstr_eqb model (js "gemini") then Some (js "https://api.guruapi.tech/ai/gemini")
  else if jstr_eqb model (js "llama") then Some (js "https://api.guruapi.tech/ai/llama")
  else if jstr_eqb model (js "imageGen") then Some (js "https://api.guruapi.tech/ai/image")
  else if (jstr_eqb model (js "constructor") || jstr_eqb model (js "__proto__"))%bool
  then None
  else Some (js "https://api.guruapi.tech/ai/gpt4").

(** The targets of part_000: the primary address, then the fallback list. *)
Definition part000_targets (model : jstr) : list target :=
  match part000_primary model with
  | Some u => [ {| t_url := u; t_reading := Fields ["response"; "answer"; "result"] |} ]
  | None => []
  end
  ++ [ {| t_url := js "https://widipe.com/openai"; t_reading := ChoicesContent |};
       {| t_url := js "https://api.freeaiapi.xyz/v1/chat/completions";
          t_reading := ChoicesContent |} ].

Definition targets_of (d : deployment) (w : world) (model : jstr) : list target :=
  match d with
  | IndexJs => index_targets w model
  | Part000Js => part000_targets model
  end.

(** The upstream at [t] fails whenever it is called: network error, non-2xx
    status, or a body that does not parse. *)
Definition down (w : world) (t : target) : Prop :=
  forall n payload, failed (upstream w n (t_url t) payload) = true.

(** The upstream at [t] returns a valid payload, whose normalized value is
    [v], whenever it is called. *)
Definition valid_answer (w : world) (t : target) (v : value) : Prop :=
  forall n payload, exists st data,
    upstream w n (t_url t) payload = Resp st (Some data)
    /\ ok_status st = true
    /\ read (t_reading t) data = Some v.

(** The model name of the success envelope when target [n] answers:
    part_000 says "fallback" for an answer of the fallback list. *)
Definition label_of (d : deployment) (model : jstr) (n : nat) : jstr :=
  match d with
  | IndexJs => model
  | Part000Js =>
      match part000_primary model, n with
      | Some _, O => model
      | _, _ => js "fallback"
      end
  end.

(** A target and the candidate of the code that stands for it: the same
    address, and the same usable value out of every parsed body. *)
Definition stands_for (t : target) (c : candidate) : Prop :=
  t_url t = c_url c /\ forall data, read (t_reading t) data = usable (c_normalize c) data.

(** A field of a JSON answer; [undefined] when the answer has no such field
    or is no JSON answer. *)
Definition field_of (b : sent) (name : string) : value :=
  match b with
  | Json payload => prop_of payload (js name)
  | NotSent | Ended => VUndef
  end.

(* ================================================================== *)
(** ** Concrete worlds and requests *)
(* ================================================================== *)

(** A world in which every upstream answers [r]. *)
Definition world_all (r : fetch_result) : world :=
  {| upstream := fun _ _ _ => r; now := js "2024-01-01T00:00:00.000Z";
     GEMINI_API_KEY := None |}.

Definition post (payload : value) : request :=
  {| method := js "POST"; query := []; body := payload |}.

(** A prompt that is one unpaired high surrogate, as [JSON.parse] makes it
    from the body [{"action":"image","prompt":"\ud800"}]. *)
Definition lone_surrogate : jstr := [55296%N].

Definition image_post (prompt : jstr) : request :=
  post (VObj [(js "action", VStr (js "image")); (js "prompt", VStr prompt)]).

Definition chat_post (prompt : string) : request :=
  post (VObj [(js "prompt", VStr (js prompt))]).

Definition pong : value := VObj [(js "response", VStr (js "pong"))].

(** The first chatgpt upstream is down, every other upstream answers
    [{"response": "pong"}]. *)
Definition world_first_down : world :=
  {| upstream := fun _ url _ =>
       if jstr_eqb url (js "https://api.kastg.xyz/api/ai/chatgptv2")
       then NetErr (js "connect ECONNREFUSED")
       else Resp 200 (Some pong);
     now := js "2024-01-01T00:00:00.000Z";
     GEMINI_API_KEY := None |}.

(** A body every normalizer finds a usable value in. *)
Definition pong_any : value :=
  VObj [(js "response", VStr (js "pong"));
        (js "choices",
         VArr [VObj [(js "message", VObj [(js "content", VStr (js "pong"))])]])].

(** The first upstream of either deployment answers 200 with the body [{}];
    every other upstream answers 200 with a usable body. *)
Definition world_first_empty : world :=
  {| upstream := fun _ url _ =>
       if (jstr_eqb url (js "https://api.kastg.xyz/api/ai/chatgptv2")
           || jstr_eqb url (js "https://api.guruapi.tech/ai/gpt4"))%bool
       then Resp 200 (Some (VObj []))
       else Resp 200 (Some pong_any);
     now := js "2024-01-01T00:00:00.000Z";
     GEMINI_API_KEY := None |}.

Definition deepenglish : candidate :=
  {| c_url := js "https://deepenglish.com/wp-json/ai-chatbot/v1/chat";
     c_normalize := Index.normalize_deepenglish |}.

(** A GET request with its query string parsed: every value is a string. *)
Definition get (pairs : list (string * string)) : request :=
  {| method := js "GET";
     query := map (fun p => (js (fst p), VStr (js (snd p)))) pairs;
     body := VUndef |}.

Definition kastg_target : target :=
  {| t_url := js "https://api.kastg.xyz/api/ai/chatgptv2";
     t_reading := Fields ["response"; "message"; "result"] |}.

Definition deepenglish_target : target :=
  {| t_url := js "https://deepenglish.com/wp-json/ai-chatbot/v1/chat";
     t_reading := Fields ["response"; "message"] |}.

(* ================================================================== *)
(** ** Vocabulary for the behaviour of the handlers at large *)
(* ================================================================== *)

(** The envelope of the router's catch-all. *)
Definition internal_error (msg : jstr) : value :=
  VObj [(js "error", VStr (js "Internal server error")); (js "message", VStr msg)].

(** The state after the pre-flight answer [res.status(200).end()]. *)
Definition preflight_state (hdrs : list (jstr * jstr)) : state :=
  {| calls := [];
     res := {| headers := hdrs; statusCode := 200; sent_body := Ended |} |}.

(** A response that has been sent and whose status agrees with its body: an
    empty body or a JSON body without error field goes with 200, and a JSON
    body with a non-empty error string goes with 400 or 500. *)
Definition answered (r : res_state) : bool :=
  match sent_body r with
  | NotSent => false
  | Ended => Z.eqb (statusCode r) 200
  | Json payload =>
      match prop_of payload (js "error") with
      | VUndef => Z.eqb (statusCode r) 200
      | VStr (_ :: _) => (Z.eqb (statusCode r) 400 || Z.eqb (statusCode r) 500)%bool
      | _ => false
      end
  end.

(** What [encodeURIComponent(prompt)] gives, apart from the state. *)
Definition encoded (prompt : value) : outcome jstr :=
  fst (encodeURIComponent prompt initial).

(** The envelopes of the image fallbacks. *)
Definition stable_diffusion_envelope (w : world) (prompt url : value) : value :=
  VObj [(js "success", VBool true);
        (js "model", VStr (js "stable-diffusion"));
        (js "imageUrl", url);
        (js "prompt", prompt);
        (js "timestamp", VStr (now w))].

Definition dalle_envelope (w : world) (prompt url : value) : value :=
  VObj [(js "success", VBool true);
        (js "model", VStr (js "dalle-free"));
        (js "imageUrl", url);
        (js "prompt", prompt);
        (js "timestamp", VStr (now w))].

Definition image_failed (msg : jstr) : value :=
  VObj [(js "error", VStr (js "Image generation failed")); (js "message", VStr msg)].

(** The call of the catch branch of [handleImageGen]. *)
Definition dalle_call (prompt : value) : call :=
  {| call_url := js "https://api.freeaiapi.xyz/v1/images/generations";
     call_body := VObj [(js "prompt", prompt);
                        (js "n", VNum 1);
                        (js "size", VStr (js "1024x1024"))] |}.

(** A value that has [slice]: an array or a string. *)
Definition sliceable (v : value) : bool :=
  match v with VArr _ | VStr _ => true | _ => false end.

(** A character that cannot end or extend a URL path segment: what
    [encodeURIComponent] leaves unescaped, or the percent sign of an
    escape. *)
Definition url_safe (c : code_unit) : bool := uri_unreserved c || N.eqb c 37.

(** How often a code unit occurs in a string. *)
Definition occurrences (c : code_unit) (s : jstr) : nat :=
  List.length (filter (N.eqb c) s).

(** The turn sent for a history entry: [{ role: h.role, content: h.content }]. *)
Definition turn (h : value) : value :=
  VObj [(js "role", prop_of h (js "role")); (js "content", prop_of h (js "content"))].

Definition user_turn (prompt : value) : value :=
  VObj [(js "role", VStr (js "user")); (js "content", prompt)].

(** The model names [handleChatRequest] has a case for. *)
Definition known_model (model : jstr) : bool :=
  jstr_eqb model (js "chatgpt") || jstr_eqb model (js "gpt")
  || jstr_eqb model (js "gpt4") || jstr_eqb model (js "claude")
  || jstr_eqb model (js "perplexity") || jstr_eqb model (js "search")
  || jstr_eqb model (js "gemini").


(** What the function-level handlers leave in [res]: the headers they found,
    and an answer that is not the empty pre-flight answer. *)
Definition json_answer (st st' : state) : Prop :=
  headers (res st') = headers (res st)
  /\ answered (res st') = true
  /\ sent_body (res st') <> Ended.


(** A string value. *)
Definition is_string (v : value) : bool :=
  match v with VStr _ => true | _ => false end.


(** The request body of a fallback call of part_000 for a history [l]. *)
Definition fallback_payload (prompt : value) (l : list value) : value :=
  VObj [(js "model", VStr (js "gpt-4"));
        (js "messages", VArr (l ++ [user_turn prompt]));
        (js "stream", VBool false)].


(** A string all of whose code units are 16-bit values. *)
Definition sixteen_bit (s : jstr) : bool := forallb (fun c => N.ltb c 65536) s.


(** The addresses a deployment can contact. *)
Definition contactable (d : deployment) (w : world) : list jstr :=
  match d with
  | IndexJs =>
      Index.chatgpt Index.WORKING_APIS ++ Index.claude Index.WORKING_APIS
      ++ Index.perplexity Index.WORKING_APIS
      ++ [ Index.gemini_url w; Index.at_ (Index.image Index.WORKING_APIS) 1 ]
  | Part000Js =>
      [ js "https://api.guruapi.tech/ai/gpt4"; js "https://api.guruapi.tech/ai/claude";
        js "https://api.guruapi.tech/ai/gemini"; js "https://api.guruapi.tech/ai/llama" ]
      ++ Part000.chat Part000.FALLBACK
      ++ [ js "https://api.freeaiapi.xyz/v1/images/generations" ]
  end.


(** Seven turns of a conversation. *)
Definition seven_turns : list value :=
  map (fun n => VObj [(js "role", VStr (js "user")); (js "content", VNum n)])
      [1; 2; 3; 4; 5; 6; 7]%Z.

(* ================================================================== *)
(** ** Basic facts *)
(* ================================================================== *)

Lemma jstr_eqb_refl (a : jstr) : jstr_eqb a a = true.
Proof.
  induction a as [|x a IH]; simpl; [reflexivity|].
  now rewrite N.eqb_refl.
Qed.

Lemma jstr_eqb_eq (a b : jstr) : jstr_eqb a b = true <-> a = b.
Proof.
  split; [|intros ->; apply jstr_eqb_refl].
  revert b; induction a as [|x a IH]; intros [|y b]; simpl; try discriminate; auto.
  intros H. apply andb_true_iff in H as [H1 H2].
  apply N.eqb_eq in H1. f_equal; auto.
Qed.

Lemma strict_eq_str_eq (v : value) (lit : jstr) :
  strict_eq_str v lit = true <-> v = VStr lit.
Proof.
  destruct v; simpl; try (split; [discriminate | intros H; inversion H]).
  rewrite jstr_eqb_eq. split; [intros -> | intros H; inversion H]; reflexivity.
Qed.

Lemma routed_inv (req : request) :
  routed req = true ->
  jstr_eqb (method req) (js "OPTIONS") = false /\ is_nullish (params_of req) = false.
Proof.
  unfold routed. intros H. apply andb_true_iff in H as [H1 H2].
  split; now apply negb_true_iff.
Qed.

(** Unfolding the monad's plumbing, leaving the handlers' own steps. *)
Ltac plumb :=
  cbv [run final status_of body_of urls_of bind ret throw try_catch orM
       setHeader res_json res_end initial fresh_res responded
       calls res headers statusCode sent_body fst snd].

(** Running the primitive steps of a handler. *)
Ltac exec :=
  cbv [bind ret throw try_catch fetch json ok get_prop res_json res_end setHeader
       encodeURIComponent resp_status resp_parsed calls res headers statusCode sent_body].

(* ================================================================== *)
(** ** The router: test action and validation (C5, C4) *)
(* ================================================================== *)

Lemma index_test_action (w : world) (req : request) :
  routed req = true ->
  action_of req = VStr (js "test") ->
  run (Index.handler w req)
  = (Ret tt, responded (cors "Content-Type, Authorization") 200 (status_payload w) []).
Proof.
  intros Hr Ha. apply routed_inv in Hr as [Hm Hp].
  unfold Index.handler. plumb. rewrite Hm.
  unfold get_prop. rewrite Hp. plumb.
  fold (action_of req). rewrite Ha.
  cbv [strict_eq_str]. rewrite jstr_eqb_refl, andb_false_r.
  reflexivity.
Qed.

(** C5 (amended).  For every GET or POST request that carries parameters and
    has action "test", the handler of api/index.js makes no upstream call and
    answers HTTP 200 with the static status payload: status "online", the
    four models, the two features and the timestamp.  (The handler of
    part_000 has no test action.) *)
Theorem C5_test_action_is_static (w : world) (req : request) :
  routed req = true ->
  action_of req = VStr (js "test") ->
  status_of (Index.handler w req) = 200%Z
  /\ body_of (Index.handler w req) = Json (status_payload w)
  /\ urls_of (Index.handler w req) = [].
Proof.
  intros Hr Ha. unfold status_of, body_of, urls_of, final.
  rewrite (index_test_action w req Hr Ha). repeat split.
Qed.

Lemma C5_test_action_is_static_witness :
  let req := post (VObj [(js "action", VStr (js "test"))]) in
  let w := world_all (NetErr (js "unreachable")) in
  status_of (Index.handler w req) = 200%Z
  /\ body_of (Index.handler w req) = Json (status_payload w)
  /\ urls_of (Index.handler w req) = [].
Proof.
  apply C5_test_action_is_static; reflexivity.
Defined.

(** C5 as stated fails.  In part_000 a request with action "test" is handed
    to the chat handler, which calls the gpt4 upstream and both fallbacks.
    In api/index.js an OPTIONS request with action "test" is answered by the
    pre-flight branch, with an empty body. *)
Lemma C5_counterexample_part000 :
  let req := post (VObj [(js "action", VStr (js "test"))]) in
  let preflight :=
    {| method := js "OPTIONS"; query := [(js "action", VStr (js "test"))];
       body := VUndef |} in
  let w := world_all (NetErr (js "unreachable")) in
  urls_of (Part000.handler w req)
  = [ js "https://api.guruapi.tech/ai/gpt4";
      js "https://widipe.com/openai";
      js "https://api.freeaiapi.xyz/v1/chat/completions" ]
  /\ status_of (Part000.handler w req) = 500%Z
  /\ body_of (Index.handler w preflight) = Ended.
Proof. repeat split. Qed.

Lemma index_missing_prompt_run (w : world) (req : request) :
  routed req = true ->
  truthy (prompt_of req) = false ->
  strict_eq_str (action_of req) (js "test") = false ->
  run (Index.handler w req)
  = (Ret tt, responded (cors "Content-Type, Authorization") 400 index_missing_prompt []).
Proof.
  intros Hr Hp Ha. apply routed_inv in Hr as [Hm Hq].
  unfold Index.handler. plumb. rewrite Hm.
  unfold get_prop. rewrite Hq. plumb.
  fold (prompt_of req). fold (action_of req). rewrite Hp, Ha.
  reflexivity.
Qed.

Lemma part000_prompt_required_run (w : world) (req : request) :
  routed req = true ->
  truthy (prompt_of req) = false ->
  action_of req = VStr (js "chat") ->
  run (Part000.handler w req)
  = (Ret tt, responded (cors "Content-Type") 400 part000_prompt_required []).
Proof.
  intros Hr Hp Ha. apply routed_inv in Hr as [Hm Hq].
  unfold Part000.handler. plumb. rewrite Hm.
  unfold get_prop. rewrite Hq. plumb.
  fold (prompt_of req). fold (action_of req). rewrite Hp, Ha.
  reflexivity.
Qed.

Lemma part000_image_prompt_required_run (w : world) (req : request) :
  routed req = true ->
  truthy (prompt_of req) = false ->
  action_of req = VStr (js "image") ->
  run (Part000.handler w req)
  = (Ret tt, responded (cors "Content-Type") 400 image_prompt_required []).
Proof.
  intros Hr Hp Ha. apply routed_inv in Hr as [Hm Hq].
  unfold Part000.handler. plumb. rewrite Hm.
  unfold get_prop. rewrite Hq. plumb.
  fold (prompt_of req). fold (action_of req). rewrite Hp, Ha.
  cbv [strict_eq_str]. rewrite jstr_eqb_refl.
  replace (jstr_eqb (js "image") (js "chat")) with false by reflexivity.
  rewrite andb_false_r.
  unfold Part000.handleImageGen. rewrite Hp. reflexivity.
Qed.

(** C4 (amended).  For every GET or POST request that carries parameters,
    whose prompt is absent (or falsy) and whose action is not "test": the
    handler of api/index.js answers HTTP 400 with a body that holds a usage
    hint and makes no upstream call; the handler of part_000 does the same
    when the action is "chat" (the default), and when the action is "image"
    it answers HTTP 400 without a usage hint, again with no upstream call. *)
Theorem C4_missing_prompt_is_rejected (w : world) (req : request) :
  routed req = true ->
  truthy (prompt_of req) = false ->
  strict_eq_str (action_of req) (js "test") = false ->
  (status_of (Index.handler w req) = 400%Z
   /\ body_of (Index.handler w req) = Json index_missing_prompt
   /\ truthy (prop_of index_missing_prompt (js "usage")) = true
   /\ urls_of (Index.handler w req) = [])
  /\ match action_of req with
     | VStr a =>
         if jstr_eqb a (js "chat") then
           status_of (Part000.handler w req) = 400%Z
           /\ body_of (Part000.handler w req) = Json part000_prompt_required
           /\ truthy (prop_of part000_prompt_required (js "usage")) = true
           /\ urls_of (Part000.handler w req) = []
         else if jstr_eqb a (js "image") then
           status_of (Part000.handler w req) = 400%Z
           /\ body_of (Part000.handler w req) = Json image_prompt_required
           /\ urls_of (Part000.handler w req) = []
         else True
     | _ => True
     end.
Proof.
  intros Hr Hp Ha. split.
  - unfold status_of, body_of, urls_of, final.
    rewrite (index_missing_prompt_run w req Hr Hp Ha). repeat split.
  - destruct (action_of req) as [| | | |a| |] eqn:Hact; trivial.
    destruct (jstr_eqb a (js "chat")) eqn:Hc.
    + apply jstr_eqb_eq in Hc. subst a.
      unfold status_of, body_of, urls_of, final.
      rewrite (part000_prompt_required_run w req Hr Hp Hact). repeat split.
    + destruct (jstr_eqb a (js "image")) eqn:Hi; trivial.
      apply jstr_eqb_eq in Hi. subst a.
      unfold status_of, body_of, urls_of, final.
      rewrite (part000_image_prompt_required_run w req Hr Hp Hact). repeat split.
Qed.

Lemma C4_missing_prompt_is_rejected_witness :
  let req := post (VObj [(js "model", VStr (js "claude"))]) in
  let w := world_all (NetErr (js "unreachable")) in
  (status_of (Index.handler w req) = 400%Z
   /\ body_of (Index.handler w req) = Json index_missing_prompt
   /\ truthy (prop_of index_missing_prompt (js "usage")) = true
   /\ urls_of (Index.handler w req) = [])
  /\ (status_of (Part000.handler w req) = 400%Z
      /\ body_of (Part000.handler w req) = Json part000_prompt_required
      /\ truthy (prop_of part000_prompt_required (js "usage")) = true
      /\ urls_of (Part000.handler w req) = []).
Proof.
  exact (C4_missing_prompt_is_rejected
           (world_all (NetErr (js "unreachable")))
           (post (VObj [(js "model", VStr (js "claude"))]))
           eq_refl eq_refl eq_refl).
Defined.

(** C4 as stated fails.  In part_000, with action "image" and no prompt the
    answer is HTTP 400 without a usage hint, and with any other action that
    is not "chat" the request goes to the chat handler, which calls
    upstreams.  In api/index.js a POST without a body has no prompt, and the
    answer is HTTP 500: destructuring [undefined] throws. *)
Lemma C4_counterexample_part000 :
  let w := world_all (NetErr (js "unreachable")) in
  let req_image := post (VObj [(js "action", VStr (js "image"))]) in
  let req_other := post (VObj [(js "action", VStr (js "summarize"))]) in
  (status_of (Part000.handler w req_image) = 400%Z
   /\ body_of (Part000.handler w req_image) = Json image_prompt_required
   /\ prop_of image_prompt_required (js "usage") = VUndef)
  /\ (status_of (Part000.handler w req_other) = 500%Z
      /\ List.length (urls_of (Part000.handler w req_other)) = 3%nat)
  /\ status_of (Index.handler w (post VUndef)) = 500%Z.
Proof. repeat split. Qed.

(* ================================================================== *)
(** ** The standalone handler of claude.js (C9) *)
(* ================================================================== *)

Lemma claude_normalize_run (data : value) (s : state) :
  is_nullish data = false ->
  Claude.normalize data s
  = (Ret (or_else (choices_content data) (VStr (js "No response."))), s).
Proof.
  intros Hd. unfold Claude.normalize, get_prop. rewrite Hd. reflexivity.
Qed.

(** What the handler does, by what the upstream call gives. *)
Lemma claude_handler_run (w : world) (req : request) :
  let prompt := or_else (own_or_undef (js "prompt") (query req)) (VStr (js "Hello")) in
  let made := [ {| call_url := Claude.endpoint; call_body := Claude.request_body prompt |} ] in
  run (Claude.handler w req)
  = match upstream w 0 Claude.endpoint (Claude.request_body prompt) with
    | NetErr msg =>
        (Ret tt, responded [] 500
                   (VObj [(js "success", VBool false); (js "error", VStr msg)]) made)
    | Resp st None =>
        (Ret tt, responded [] 500
                   (VObj [(js "success", VBool false);
                          (js "error", VStr (js "Unexpected token in JSON"))]) made)
    | Resp st (Some data) =>
        if is_nullish data then
          (Ret tt, responded [] 500
                     (VObj [(js "success", VBool false);
                            (js "error",
                             VStr (js "Cannot read properties of null or undefined"))]) made)
        else
          (Ret tt, responded [] 200
                     (claude_envelope
                        (or_else (choices_content data) (VStr (js "No response.")))) made)
    end.
Proof.
  intros prompt made. unfold Claude.handler. fold prompt.
  plumb. unfold fetch. cbn [calls List.length initial res app].
  destruct (upstream w 0 Claude.endpoint (Claude.request_body prompt))
    as [msg | st [data|]]; try reflexivity.
  unfold json. cbn [resp_parsed]. plumb.
  destruct (is_nullish data) eqn:Hd.
  - unfold Claude.normalize, get_prop. rewrite Hd. reflexivity.
  - rewrite claude_normalize_run by exact Hd. reflexivity.
Qed.

(** C9 (amended).  The handler of claude.js never answers HTTP 400: a missing
    prompt is replaced by "Hello", which is what is sent upstream.  Whenever
    the fetch and the JSON parse do not throw and the parsed body is not
    null, whatever the upstream status, the handler answers HTTP 200 with
    success true, and the response is the content field, or "No response."
    when that field is absent or falsy.  When the fetch or the JSON parse
    throws, the handler answers HTTP 500.  (A parsed body that is null is
    left out.) *)
Theorem C9_claude_handler_defaults (w : world) (req : request) :
  let prompt := or_else (own_or_undef (js "prompt") (query req)) (VStr (js "Hello")) in
  let h := Claude.handler w req in
  match own (js "prompt") (query req) with
  | None => prompt = VStr (js "Hello")
  | Some _ => True
  end
  /\ calls (final h)
     = [ {| call_url := Claude.endpoint; call_body := Claude.request_body prompt |} ]
  /\ status_of h <> 400%Z
  /\ match upstream w 0 Claude.endpoint (Claude.request_body prompt) with
     | Resp st (Some data) =>
         if is_nullish data then True
         else status_of h = 200%Z
              /\ body_of h
                 = Json (claude_envelope
                           (or_else (choices_content data) (VStr (js "No response."))))
              /\ match choices_content data with
                 | VUndef =>
                     body_of h = Json (claude_envelope (VStr (js "No response.")))
                 | _ => True
                 end
     | Resp _ None | NetErr _ => status_of h = 500%Z
     end.
Proof.
  intros prompt h.
  pose proof (claude_handler_run w req) as Hrun. cbv zeta in Hrun.
  fold prompt in Hrun. fold h in Hrun.
  unfold status_of, body_of, final. rewrite Hrun. clear Hrun.
  split.
  { unfold prompt, own_or_undef. destruct (own (js "prompt") (query req)); trivial. }
  destruct (upstream w 0 Claude.endpoint (Claude.request_body prompt))
    as [msg | st [data|]].
  - repeat split; discriminate.
  - destruct (is_nullish data) eqn:Hd.
    + repeat split; discriminate.
    + repeat split; try discriminate.
      destruct (choices_content data); trivial.
  - repeat split; discriminate.
Qed.

(** C9 as stated fails: the upstream answers 200 with the JSON body [null];
    neither the fetch nor the parse throws, and the handler answers 500. *)
Lemma C9_counterexample_null_body :
  let w := world_all (Resp 200 (Some VNull)) in
  let req := {| method := js "GET"; query := []; body := VUndef |} in
  upstream w 0 Claude.endpoint (Claude.request_body (VStr (js "Hello")))
  = Resp 200 (Some VNull)
  /\ status_of (Claude.handler w req) = 500%Z
  /\ body_of (Claude.handler w req)
     = Json (VObj [(js "success", VBool false);
                   (js "error", VStr (js "Cannot read properties of null or undefined"))]).
Proof. repeat split. Qed.

(* ================================================================== *)
(** ** The response normalizers (C6) *)
(* ================================================================== *)

(** The normalizers read the body and nothing else: they leave the state
    alone, so [extract] tells all about them. *)
Lemma normalize_generic_run (data : value) (s : state) :
  Index.normalize_generic data s = (extract Index.normalize_generic data, s).
Proof.
  unfold extract, Index.normalize_generic, orM, bind, get_prop, ret, throw.
  destruct (is_nullish data); [reflexivity|].
  repeat (match goal with |- context [truthy ?v] => destruct (truthy v) end;
          try reflexivity).
Qed.

Lemma normalize_deepenglish_run (data : value) (s : state) :
  Index.normalize_deepenglish data s = (extract Index.normalize_deepenglish data, s).
Proof.
  unfold extract, Index.normalize_deepenglish, orM, bind, get_prop, ret, throw.
  destruct (is_nullish data); [reflexivity|].
  repeat (match goal with |- context [truthy ?v] => destruct (truthy v) end;
          try reflexivity).
Qed.

Lemma normalize_gemini_run (data : value) (s : state) :
  Index.normalize_gemini data s = (extract Index.normalize_gemini data, s).
Proof.
  unfold extract, Index.normalize_gemini, bind, get_prop, ret, throw.
  destruct (is_nullish data); reflexivity.
Qed.

Lemma normalize_image_run (data : value) (s : state) :
  Index.normalize_image data s = (extract Index.normalize_image data, s).
Proof.
  unfold extract, Index.normalize_image, orM, bind, get_prop, ret, throw.
  destruct (is_nullish data); [reflexivity|].
  repeat (match goal with |- context [truthy ?v] => destruct (truthy v) end;
          try reflexivity).
Qed.

Lemma normalize_primary_run (data : value) (s : state) :
  Part000.normalize_primary data s = (extract Part000.normalize_primary data, s).
Proof.
  unfold extract, Part000.normalize_primary, orM, bind, get_prop, ret, throw.
  destruct (is_nullish data); [reflexivity|].
  repeat (match goal with |- context [truthy ?v] => destruct (truthy v) end;
          try reflexivity).
Qed.

Lemma normalize_choices_run (data : value) (s : state) :
  Part000.normalize_choices data s = (extract Part000.normalize_choices data, s).
Proof.
  unfold extract, Part000.normalize_choices, bind, get_prop, ret, throw.
  destruct (is_nullish data); reflexivity.
Qed.

(** C6 (amended).  For every parsed body that is not null, a normalizer gives
    the first truthy value among its ordered candidate fields: response, then
    message, then result in api/index.js (response, then message for the
    second chatgpt upstream), and response, then answer, then result in
    part_000.  When no candidate is truthy the result is not usable: null in
    part_000, the value of the last candidate field in api/index.js.  In
    particular, when response is truthy, its value is the result whatever the
    other fields hold. *)
Theorem C6_normalizer_takes_first_truthy (data : value) :
  is_nullish data = false ->
  extract Index.normalize_generic data
  = Ret (match first_truthy ["response"; "message"; "result"] data with
         | Some v => v
         | None => prop_of data (js "result")
         end)
  /\ extract Index.normalize_deepenglish data
     = Ret (match first_truthy ["response"; "message"] data with
            | Some v => v
            | None => prop_of data (js "message")
            end)
  /\ extract Part000.normalize_primary data
     = Ret (match first_truthy ["response"; "answer"; "result"] data with
            | Some v => v
            | None => VNull
            end)
  /\ (if truthy (prop_of data (js "response")) then
        extract Index.normalize_generic data = Ret (prop_of data (js "response"))
        /\ extract Index.normalize_deepenglish data = Ret (prop_of data (js "response"))
        /\ extract Part000.normalize_primary data = Ret (prop_of data (js "response"))
      else
        usable Index.normalize_generic data
        = first_truthy ["message"; "result"] data).
Proof.
  intros Hd.
  unfold extract, usable, extract, first_truthy,
    Index.normalize_generic, Index.normalize_deepenglish, Part000.normalize_primary,
    orM, bind, get_prop, ret.
  rewrite Hd. cbn [map find fst].
  destruct (truthy (prop_of data (js "response"))) eqn:H1;
    destruct (truthy (prop_of data (js "message"))) eqn:H2;
    destruct (truthy (prop_of data (js "answer"))) eqn:H3;
    destruct (truthy (prop_of data (js "result"))) eqn:H4;
    cbn [fst]; rewrite ?H1, ?H2, ?H3, ?H4; repeat split.
Qed.

Lemma C6_normalizer_takes_first_truthy_witness :
  let data := VObj [(js "response", VStr (js "first")); (js "message", VStr (js "second"))] in
  extract Index.normalize_generic data = Ret (VStr (js "first"))
  /\ extract Index.normalize_deepenglish data = Ret (VStr (js "first"))
  /\ extract Part000.normalize_primary data = Ret (VStr (js "first"))
  /\ (extract Index.normalize_generic data = Ret (VStr (js "first"))
      /\ extract Index.normalize_deepenglish data = Ret (VStr (js "first"))
      /\ extract Part000.normalize_primary data = Ret (VStr (js "first"))).
Proof.
  exact (C6_normalizer_takes_first_truthy
           (VObj [(js "response", VStr (js "first")); (js "message", VStr (js "second"))])
           eq_refl).
Defined.

(** C6 as stated fails.  With a response that is the empty string and a
    message, the first field that is neither null nor undefined is response,
    yet the normalizers give the message; with no candidate field at all the
    normalizer of api/index.js gives undefined, not null. *)
Lemma C6_counterexample_empty_string :
  let data := VObj [(js "response", VStr []); (js "message", VStr (js "hi"))] in
  spec_normalize ["response"; "message"; "result"] data = VStr []
  /\ extract Index.normalize_generic data = Ret (VStr (js "hi"))
  /\ extract Part000.normalize_primary data = Ret VNull
  /\ spec_normalize ["response"; "message"; "result"] (VObj []) = VNull
  /\ extract Index.normalize_generic (VObj []) = Ret VUndef.
Proof. repeat split. Qed.

(* ================================================================== *)
(** ** Image generation (C8, C10) *)
(* ================================================================== *)

Lemma unreserved_not_surrogate (c : code_unit) :
  uri_unreserved c = true -> is_low_surrogate c = false /\ is_high_surrogate c = false.
Proof.
  unfold uri_unreserved, is_low_surrogate, is_high_surrogate.
  intros H.
  repeat (apply orb_true_iff in H as [H|H]);
    repeat match goal with
    | H : (_ && _)%bool = true |- _ => apply andb_true_iff in H as [? ?]
    | H : N.leb _ _ = true |- _ => apply N.leb_le in H
    | H : N.eqb _ _ = true |- _ => apply N.eqb_eq in H
    end;
    split; apply andb_false_iff;
    try (left; apply N.leb_gt; lia).
Qed.

(** [encodeURIComponent] throws exactly on the strings with an unpaired
    surrogate. *)
Lemma encode_iff_well_formed_bounded (n : nat) :
  forall s, (List.length s <= n)%nat ->
    match encodeURIComponent_str s with
    | Some _ => well_formed s = true
    | None => well_formed s = false
    end.
Proof.
  induction n as [|n IH]; intros s Hlen.
  - destruct s; [reflexivity | simpl in Hlen; lia].
  - destruct s as [|c rest]; [reflexivity|].
    cbn [encodeURIComponent_str well_formed].
    assert (Hrest : forall r, (List.length r <= List.length rest)%nat ->
              match encodeURIComponent_str r with
              | Some _ => well_formed r = true
              | None => well_formed r = false
              end).
    { intros r Hr. apply IH. simpl in Hlen. lia. }
    destruct (uri_unreserved c) eqn:Hu.
    + destruct (unreserved_not_surrogate c Hu) as [-> ->].
      specialize (Hrest rest (le_n _)).
      destruct (encodeURIComponent_str rest); exact Hrest.
    + destruct (is_low_surrogate c); [reflexivity|].
      destruct (is_high_surrogate c).
      * destruct rest as [|d rest']; [reflexivity|].
        destruct (is_low_surrogate d); [|reflexivity].
        specialize (Hrest rest' (Nat.le_succ_diag_r _)).
        cbn [andb]. destruct (encodeURIComponent_str rest'); exact Hrest.
      * specialize (Hrest rest (le_n _)).
        destruct (encodeURIComponent_str rest); exact Hrest.
Qed.

Lemma encode_well_formed (s : jstr) :
  well_formed s = true -> exists e, encodeURIComponent_str s = Some e.
Proof.
  intros H. pose proof (encode_iff_well_formed_bounded (List.length s) s (le_n _)) as E.
  destruct (encodeURIComponent_str s) as [e|]; [eauto | congruence].
Qed.

Lemma encode_ill_formed (s : jstr) :
  well_formed s = false -> encodeURIComponent_str s = None.
Proof.
  intros H. pose proof (encode_iff_well_formed_bounded (List.length s) s (le_n _)) as E.
  destruct (encodeURIComponent_str s) as [e|]; [congruence | reflexivity].
Qed.

Lemma truthy_nonempty (s : jstr) : s <> [] -> truthy (VStr s) = true.
Proof. destruct s; [congruence | reflexivity]. Qed.

Lemma handleImageGeneration_primary (w : world) (s e : jstr) (st : state) :
  s <> [] -> encodeURIComponent_str s = Some e ->
  Index.handleImageGeneration w (VStr s) st
  = res_json 200 (index_image_envelope w (VStr s) (index_image_url e)) st.
Proof.
  intros Hs He. unfold Index.handleImageGeneration.
  rewrite (truthy_nonempty s Hs). cbn [negb].
  unfold try_catch, bind, encodeURIComponent. cbn [to_string]. rewrite He.
  reflexivity.
Qed.

Lemma handleImageGen_primary (w : world) (s e : jstr) (st : state) :
  s <> [] -> encodeURIComponent_str s = Some e ->
  Part000.handleImageGen w (VStr s) st
  = res_json 200 (part000_image_envelope w (VStr s) (part000_image_url e)) st.
Proof.
  intros Hs He. unfold Part000.handleImageGen.
  rewrite (truthy_nonempty s Hs). cbn [negb].
  unfold try_catch, bind, encodeURIComponent. cbn [to_string]. rewrite He.
  reflexivity.
Qed.

Lemma image_request_inv (req : request) (s : jstr) :
  image_request req s = true ->
  routed req = true /\ action_of req = VStr (js "image") /\ prompt_of req = VStr s.
Proof.
  unfold image_request. intros H.
  apply andb_true_iff in H as [H H3]. apply andb_true_iff in H as [H1 H2].
  repeat split; trivial.
  - now apply strict_eq_str_eq.
  - destruct (prompt_of req); try discriminate.
    apply jstr_eqb_eq in H3. now subst.
Qed.

(** The image handlers catch what they throw. *)
Lemma handleImageGeneration_total (w : world) (p : value) (st : state) :
  exists st', Index.handleImageGeneration w p st = (Ret tt, st').
Proof.
  unfold Index.handleImageGeneration.
  destruct (truthy p); cbn [negb]; [|eexists; reflexivity].
  exec.
  destruct (to_string p) as [s|]; [destruct (encodeURIComponent_str s)|];
    try (eexists; reflexivity);
    (destruct (upstream w _ _ _) as [msg|code [data|]];
     [eexists; reflexivity | | destruct (_ && _)%bool; eexists; reflexivity]);
    (destruct (_ && _)%bool; [|eexists; reflexivity]);
    rewrite normalize_image_run;
    destruct (extract Index.normalize_image data); eexists; reflexivity.
Qed.

Lemma handleImageGen_total (w : world) (p : value) (st : state) :
  exists st', Part000.handleImageGen w p st = (Ret tt, st').
Proof.
  unfold Part000.handleImageGen.
  destruct (truthy p); cbn [negb]; [|eexists; reflexivity].
  exec.
  destruct (to_string p) as [s|]; [destruct (encodeURIComponent_str s)|];
    try (eexists; reflexivity);
    (destruct (upstream w _ _ _) as [msg|code [data|]];
     [eexists; reflexivity | | eexists; reflexivity]);
    destruct (is_nullish data); eexists; reflexivity.
Qed.

(** The router hands an image request to the image handler. *)
Lemma index_routes_image (w : world) (req : request) (s : jstr) :
  image_request req s = true -> s <> [] ->
  run (Index.handler w req)
  = Index.handleImageGeneration w (VStr s)
      {| calls := [];
         res := {| headers := cors "Content-Type, Authorization";
                   statusCode := 200; sent_body := NotSent |} |}.
Proof.
  intros Hreq Hs. apply image_request_inv in Hreq as (Hr & Ha & Hp).
  apply routed_inv in Hr as [Hm Hq].
  unfold Index.handler. plumb. rewrite Hm.
  unfold get_prop. rewrite Hq. plumb.
  fold (prompt_of req). fold (action_of req). rewrite Hp, Ha.
  rewrite (truthy_nonempty s Hs).
  cbv [strict_eq_str]. rewrite jstr_eqb_refl.
  replace (jstr_eqb (js "image") (js "test")) with false by reflexivity.
  cbn [negb andb].
  match goal with
  | |- context [Index.handleImageGeneration w (VStr s) ?st] =>
      destruct (handleImageGeneration_total w (VStr s) st) as [st' E]
  end.
  rewrite E. rewrite <- E. reflexivity.
Qed.

Lemma part000_routes_image (w : world) (req : request) (s : jstr) :
  image_request req s = true -> s <> [] ->
  run (Part000.handler w req)
  = Part000.handleImageGen w (VStr s)
      {| calls := [];
         res := {| headers := cors "Content-Type";
                   statusCode := 200; sent_body := NotSent |} |}.
Proof.
  intros Hreq Hs. apply image_request_inv in Hreq as (Hr & Ha & Hp).
  apply routed_inv in Hr as [Hm Hq].
  unfold Part000.handler. plumb. rewrite Hm.
  unfold get_prop. rewrite Hq. plumb.
  fold (prompt_of req). fold (action_of req). rewrite Hp, Ha.
  rewrite (truthy_nonempty s Hs).
  cbv [strict_eq_str]. rewrite jstr_eqb_refl.
  cbn [negb andb].
  match goal with
  | |- context [Part000.handleImageGen w (VStr s) ?st] =>
      destruct (handleImageGen_total w (VStr s) st) as [st' E]
  end.
  rewrite E. rewrite <- E. reflexivity.
Qed.

(** C8 (amended).  For every image request whose prompt is a non-empty string
    without unpaired surrogates, both image handlers answer HTTP 200 on the
    primary path, with an imageUrl that is the pollinations address followed
    by the percent-encoding of the prompt and the parameters width=1024 and
    height=1024, and no upstream call is made. *)
Theorem C8_image_primary_path (w : world) (req : request) (s : jstr) :
  image_request req s = true ->
  s <> [] ->
  well_formed s = true ->
  exists e,
    encodeURIComponent_str s = Some e
    /\ status_of (Index.handler w req) = 200%Z
    /\ body_of (Index.handler w req)
       = Json (index_image_envelope w (VStr s)
                 (js "https://image.pollinations.ai/prompt/" ++ e
                    ++ js "?width=1024&height=1024&nologo=true&enhance=true"))
    /\ urls_of (Index.handler w req) = []
    /\ status_of (Part000.handler w req) = 200%Z
    /\ body_of (Part000.handler w req)
       = Json (part000_image_envelope w (VStr s)
                 (js "https://image.pollinations.ai/prompt/" ++ e
                    ++ js "?width=1024&height=1024&nologo=true"))
    /\ urls_of (Part000.handler w req) = [].
Proof.
  intros Hreq Hs Hwf.
  destruct (encode_well_formed s Hwf) as [e He].
  exists e. split; [exact He|].
  unfold status_of, body_of, urls_of, final.
  rewrite (index_routes_image w req s Hreq Hs), (part000_routes_image w req s Hreq Hs).
  rewrite (handleImageGeneration_primary w s e _ Hs He).
  rewrite (handleImageGen_primary w s e _ Hs He).
  repeat split.
Qed.

Lemma C8_image_primary_path_witness :
  let w := world_all (NetErr (js "unreachable")) in
  let req := image_post (js "a red fox") in
  exists e,
    encodeURIComponent_str (js "a red fox") = Some e
    /\ status_of (Index.handler w req) = 200%Z
    /\ body_of (Index.handler w req)
       = Json (index_image_envelope w (VStr (js "a red fox"))
                 (js "https://image.pollinations.ai/prompt/" ++ e
                    ++ js "?width=1024&height=1024&nologo=true&enhance=true"))
    /\ urls_of (Index.handler w req) = []
    /\ status_of (Part000.handler w req) = 200%Z
    /\ body_of (Part000.handler w req)
       = Json (part000_image_envelope w (VStr (js "a red fox"))
                 (js "https://image.pollinations.ai/prompt/" ++ e
                    ++ js "?width=1024&height=1024&nologo=true"))
    /\ urls_of (Part000.handler w req) = [].
Proof.
  apply (C8_image_primary_path (world_all (NetErr (js "unreachable")))
           (image_post (js "a red fox")) (js "a red fox")).
  - reflexivity.
  - discriminate.
  - reflexivity.
Defined.

(** The spec's own example: the prompt "a red fox" is encoded a%20red%20fox. *)
Example red_fox_url :
  body_of (Index.handler (world_all (NetErr (js "unreachable"))) (image_post (js "a red fox")))
  = Json (index_image_envelope (world_all (NetErr (js "unreachable")))
            (VStr (js "a red fox"))
            (js "https://image.pollinations.ai/prompt/a%20red%20fox?width=1024&height=1024&nologo=true&enhance=true")).
Proof. reflexivity. Qed.

(** C8 as stated fails: the prompt made of one unpaired surrogate is not
    empty, [encodeURIComponent] throws on it, and the handler of part_000
    goes to its fallback upstream; when that fails the answer is HTTP 500. *)
Lemma C8_counterexample_unpaired_surrogate :
  let w := world_all (NetErr (js "unreachable")) in
  let req := image_post lone_surrogate in
  image_request req lone_surrogate = true
  /\ encodeURIComponent_str lone_surrogate = None
  /\ status_of (Part000.handler w req) = 500%Z
  /\ urls_of (Part000.handler w req)
     = [ js "https://api.freeaiapi.xyz/v1/images/generations" ].
Proof. repeat split. Qed.

(** C10 (amended).  In handleImageGeneration, for every non-empty string
    prompt without unpaired surrogates the primary path does not throw: the
    answer is HTTP 200 and the catch branch is not entered.  For a string
    prompt with an unpaired surrogate [encodeURIComponent] throws and the
    catch branch is entered: the stable-diffusion POST is made. *)
Theorem C10_image_catch_branch (w : world) (s : jstr) :
  s <> [] ->
  if well_formed s then
    exists e,
      encodeURIComponent_str s = Some e
      /\ run (Index.handleImageGeneration w (VStr s))
         = (Ret tt, responded [] 200
                      (index_image_envelope w (VStr s) (index_image_url e)) [])
  else
    calls (final (Index.handleImageGeneration w (VStr s)))
    = [ stable_diffusion_call (VStr s) ].
Proof.
  intros Hs. destruct (well_formed s) eqn:Hwf.
  - destruct (encode_well_formed s Hwf) as [e He]. exists e. split; [exact He|].
    unfold run. rewrite (handleImageGeneration_primary w s e _ Hs He). reflexivity.
  - apply encode_ill_formed in Hwf.
    unfold final, run, Index.handleImageGeneration.
    rewrite (truthy_nonempty s Hs). cbn [negb].
    exec. cbn [to_string]. rewrite Hwf.
    cbn [initial calls app List.length].
    destruct (upstream w _ _ _) as [msg|code [data|]]; cbn [snd]; try reflexivity.
    + destruct (_ && _)%bool; [|reflexivity].
      rewrite normalize_image_run.
      destruct (extract Index.normalize_image data); reflexivity.
    + destruct (_ && _)%bool; reflexivity.
Qed.

Lemma C10_image_catch_branch_witness :
  exists e,
    encodeURIComponent_str (js "a red fox") = Some e
    /\ run (Index.handleImageGeneration (world_all (NetErr (js "unreachable")))
              (VStr (js "a red fox")))
       = (Ret tt, responded [] 200
                    (index_image_envelope (world_all (NetErr (js "unreachable")))
                       (VStr (js "a red fox")) (index_image_url e)) []).
Proof.
  apply (C10_image_catch_branch (world_all (NetErr (js "unreachable"))) (js "a red fox")).
  discriminate.
Defined.

(** C10 as stated fails: on the string prompt made of one unpaired surrogate
    the primary path throws, the catch branch makes the stable-diffusion
    POST, and when that fails the answer is HTTP 500. *)
Lemma C10_counterexample_catch_reached :
  let w := world_all (NetErr (js "unreachable")) in
  truthy (VStr lone_surrogate) = true
  /\ calls (final (Index.handleImageGeneration w (VStr lone_surrogate)))
     = [ stable_diffusion_call (VStr lone_surrogate) ]
  /\ status_of (Index.handleImageGeneration w (VStr lone_surrogate)) = 500%Z
  /\ status_of (Index.handler w (image_post lone_surrogate)) = 500%Z.
Proof. repeat split. Qed.

(* ================================================================== *)
(** ** From the chat functions to walks over plans *)
(* ================================================================== *)

Lemma stateless_ret {A} (a : A) : stateless (ret a).
Proof. intros s. reflexivity. Qed.

Lemma stateless_throw {A} (e : exn) : stateless (@throw A e).
Proof. intros s. reflexivity. Qed.

Lemma stateless_bind {A B} (m : M A) (f : A -> M B) :
  stateless m -> (forall a, stateless (f a)) -> stateless (bind m f).
Proof.
  intros Hm Hf s. unfold bind.
  pose proof (Hm s) as Es. pose proof (Hm initial) as Ei.
  destruct (m initial) as [o s0]. cbn [fst] in Es, Ei.
  inversion Ei; subst s0. rewrite Es.
  destruct o as [a|e]; [apply Hf | reflexivity].
Qed.

Lemma stateless_get_prop (v : value) (k : jstr) : stateless (get_prop v k).
Proof. intros s. unfold get_prop. destruct (is_nullish v); reflexivity. Qed.

Lemma stateless_mapM {A B} (f : A -> M B) (l : list A) :
  (forall a, stateless (f a)) -> stateless (mapM f l).
Proof.
  intros Hf. induction l as [|x r IH]; cbn [mapM].
  - apply stateless_ret.
  - apply stateless_bind; [apply Hf|]. intros y.
    apply stateless_bind; [exact IH|]. intros ys. apply stateless_ret.
Qed.

Lemma stateless_slice_last5 (h : value) : stateless (slice_last5 h).
Proof. intros ?. destruct h; reflexivity. Qed.

Lemma stateless_spread (h : value) : stateless (spread h).
Proof. intros ?. destruct h; reflexivity. Qed.

Lemma stateless_turn_of (h : value) : stateless (Index.turn_of h).
Proof.
  unfold Index.turn_of.
  apply stateless_bind; [apply stateless_get_prop|]. intros role.
  apply stateless_bind; [apply stateless_get_prop|]. intros content.
  apply stateless_ret.
Qed.

Lemma stateless_map_turns (h : value) : stateless (Index.map_turns h).
Proof.
  destruct h; try (intros ?; reflexivity).
  apply stateless_mapM, stateless_turn_of.
Qed.

Lemma stateless_kastg_body (prompt history : value) :
  stateless (Index.kastg_body prompt history).
Proof.
  unfold Index.kastg_body.
  apply stateless_bind; [apply stateless_slice_last5|]. intros h5. apply stateless_ret.
Qed.

Lemma stateless_deepenglish_body (prompt history : value) :
  stateless (Index.deepenglish_body prompt history).
Proof.
  unfold Index.deepenglish_body.
  apply stateless_bind; [apply stateless_map_turns|]. intros t. apply stateless_ret.
Qed.

Lemma stateless_fallback_body (prompt history : value) :
  stateless (fallback_body prompt history).
Proof.
  unfold fallback_body.
  apply stateless_bind; [apply stateless_spread|]. intros t. apply stateless_ret.
Qed.

(** One attempt of api/index.js, in terms of what the upstream gives. *)
Lemma attempt_run (w : world) (url : jstr) (build : M value)
    (normalize : value -> M value) (s : state) :
  stateless build ->
  (forall data, stateless (normalize data)) ->
  Index.attempt w url build normalize s
  = match built build with
    | None => (Ret None, s)
    | Some payload =>
        (Ret (settle_returned normalize
                (upstream w (List.length (calls s)) url payload)),
         log s url payload)
    end.
Proof.
  intros Hb Hn. unfold Index.attempt, try_catch, bind, built.
  rewrite (Hb s).
  destruct (fst (build initial)) as [payload|e]; [|reflexivity].
  unfold fetch, settle_returned, log.
  destruct (upstream w (List.length (calls s)) url payload) as [msg|st [data|]];
    try reflexivity.
  - unfold ok, ok_status. cbn [resp_status].
    destruct (Z.leb 200 st && Z.leb st 299)%bool; [|reflexivity].
    unfold json. cbn [resp_parsed]. unfold ret at 1.
    rewrite (Hn data). unfold extract.
    destruct (fst (normalize data initial)); reflexivity.
  - unfold ok, ok_status. cbn [resp_status].
    destruct (Z.leb 200 st && Z.leb st 299)%bool; reflexivity.
Qed.

Lemma stateless_normalize_generic (d : value) : stateless (Index.normalize_generic d).
Proof. intros s. apply normalize_generic_run. Qed.
Lemma stateless_normalize_deepenglish (d : value) : stateless (Index.normalize_deepenglish d).
Proof. intros s. apply normalize_deepenglish_run. Qed.
Lemma stateless_normalize_gemini (d : value) : stateless (Index.normalize_gemini d).
Proof. intros s. apply normalize_gemini_run. Qed.
Lemma stateless_normalize_primary (d : value) : stateless (Part000.normalize_primary d).
Proof. intros s. apply normalize_primary_run. Qed.
Lemma stateless_normalize_choices (d : value) : stateless (Part000.normalize_choices d).
Proof. intros s. apply normalize_choices_run. Qed.

Lemma tryChatGPT_walk (w : world) (prompt history : value) (s : state) :
  Index.tryChatGPT w prompt history s
  = (Ret (value_of (fst (walk settle_returned w (chatgpt_plan prompt history) s))),
     snd (walk settle_returned w (chatgpt_plan prompt history) s)).
Proof.
  unfold Index.tryChatGPT, bind.
  rewrite attempt_run
    by (try apply stateless_kastg_body; intros; apply stateless_normalize_generic).
  unfold chatgpt_plan. cbn [walk c_url c_normalize].
  destruct (built (Index.kastg_body prompt history)) as [p1|].
  - destruct (settle_returned Index.normalize_generic _) as [v|]; [reflexivity|].
    rewrite attempt_run
      by (try apply stateless_deepenglish_body; intros; apply stateless_normalize_deepenglish).
    destruct (built (Index.deepenglish_body prompt history)) as [p2|]; [|reflexivity].
    destruct (settle_returned Index.normalize_deepenglish _) as [v|]; reflexivity.
  - rewrite attempt_run
      by (try apply stateless_deepenglish_body; intros; apply stateless_normalize_deepenglish).
    destruct (built (Index.deepenglish_body prompt history)) as [p2|]; [|reflexivity].
    destruct (settle_returned Index.normalize_deepenglish _) as [v|]; reflexivity.
Qed.

Lemma tryClaude_walk (w : world) (prompt history : value) (s : state) :
  let plan := [ ({| c_url := Index.at_ (Index.claude Index.WORKING_APIS) 0;
                    c_normalize := Index.normalize_generic |},
                 built (Index.kastg_body prompt history)) ] in
  Index.tryClaude w prompt history s
  = (Ret (value_of (fst (walk settle_returned w plan s))),
     snd (walk settle_returned w plan s)).
Proof.
  intros plan. subst plan. unfold Index.tryClaude, bind.
  rewrite attempt_run
    by (try apply stateless_kastg_body; intros; apply stateless_normalize_generic).
  cbn [walk c_url c_normalize].
  destruct (built (Index.kastg_body prompt history)) as [p1|]; [|reflexivity].
  destruct (settle_returned Index.normalize_generic _) as [v|]; reflexivity.
Qed.

Lemma tryPerplexity_walk (w : world) (prompt : value) (s : state) :
  let plan := [ ({| c_url := Index.at_ (Index.perplexity Index.WORKING_APIS) 0;
                    c_normalize := Index.normalize_generic |},
                 Some (VObj [(js "prompt", prompt)])) ] in
  Index.tryPerplexity w prompt s
  = (Ret (value_of (fst (walk settle_returned w plan s))),
     snd (walk settle_returned w plan s)).
Proof.
  intros plan. subst plan. unfold Index.tryPerplexity, bind.
  rewrite attempt_run
    by (try apply stateless_ret; intros; apply stateless_normalize_generic).
  cbn [walk c_url c_normalize built ret fst].
  destruct (settle_returned Index.normalize_generic _) as [v|]; reflexivity.
Qed.

(** The key test of [tryGemini]. *)
Lemma gemini_key_test (w : world) :
  (match Index.GEMINI_KEY w with [] => true | _ :: _ => false end
   || jstr_eqb (Index.GEMINI_KEY w) Index.placeholder_key)%bool
  = negb (key_configured w).
Proof.
  unfold Index.GEMINI_KEY, key_configured.
  destruct (GEMINI_API_KEY w) as [[|c k]|]; cbn [orb negb];
    try rewrite jstr_eqb_refl; try reflexivity.
  now rewrite negb_involutive.
Qed.

Lemma tryGemini_walk (w : world) (prompt history imageUrl : value) (s : state) :
  let plan :=
    if key_configured w
    then ({| c_url := Index.gemini_url w; c_normalize := Index.normalize_gemini |},
          Some (gemini_payload prompt)) :: chatgpt_plan prompt history
    else chatgpt_plan prompt history in
  Index.tryGemini w prompt history imageUrl s
  = (Ret (value_of (fst (walk settle_returned w plan s))),
     snd (walk settle_returned w plan s)).
Proof.
  intros plan. subst plan. unfold Index.tryGemini.
  rewrite gemini_key_test.
  destruct (key_configured w); cbn [negb].
  - unfold bind.
    rewrite attempt_run
      by (try apply stateless_ret; intros; apply stateless_normalize_gemini).
    cbn [walk c_url c_normalize built ret fst]. fold (gemini_payload prompt).
    destruct (settle_returned Index.normalize_gemini _) as [v|]; [reflexivity|].
    apply tryChatGPT_walk.
  - apply tryChatGPT_walk.
Qed.

(** The chat handler of api/index.js, in terms of the walk over the plan of
    the lower-cased model. *)
Lemma handleChatRequest_run (w : world) (prompt : value) (m : jstr)
    (history imageUrl : value) (s : state) :
  let model := toLowerCase_str m in
  let r := walk settle_returned w (index_plan w model prompt history) s in
  Index.handleChatRequest w prompt (VStr m) history imageUrl s
  = if truthy (value_of (fst r))
    then res_json 200 (chat_envelope w model (value_of (fst r))) (snd r)
    else res_json 500 (index_chat_failed model) (snd r).
Proof.
  intros model r. subst r.
  unfold Index.handleChatRequest, toLowerCase. fold model.
  unfold index_plan.
  unfold bind at 1. unfold ret at 1. unfold try_catch. unfold bind at 1.
  destruct (jstr_eqb model (js "chatgpt") || jstr_eqb model (js "gpt")
            || jstr_eqb model (js "gpt4"))%bool.
  { rewrite tryChatGPT_walk.
    destruct (truthy (value_of (fst _))); reflexivity. }
  destruct (jstr_eqb model (js "claude")).
  { rewrite tryClaude_walk.
    destruct (truthy (value_of (fst _))); reflexivity. }
  destruct (jstr_eqb model (js "perplexity") || jstr_eqb model (js "search"))%bool.
  { rewrite tryPerplexity_walk.
    destruct (truthy (value_of (fst _))); reflexivity. }
  destruct (jstr_eqb model (js "gemini")).
  { rewrite tryGemini_walk.
    destruct (key_configured w);
      destruct (truthy (value_of (fst _))); reflexivity. }
  rewrite tryChatGPT_walk.
  destruct (truthy (value_of (fst _))); reflexivity.
Qed.

(* ================================================================== *)
(** ** Properties of a walk *)
(* ================================================================== *)

Section Walk.
Variable settle : (value -> M value) -> fetch_result -> returned.
Variable w : world.

(** A walk makes upstream calls and leaves the response object alone. *)
Lemma walk_res (plan : list planned) (s : state) :
  res (snd (walk settle w plan s)) = res s.
Proof.
  revert s. induction plan as [|[c [p|]] rest IH]; intros s; cbn [walk].
  - reflexivity.
  - destruct (settle _ _); [reflexivity|]. rewrite IH. reflexivity.
  - apply IH.
Qed.

(** Every call of a walk goes to a candidate of the plan, in plan order. *)
Lemma walk_calls (plan : list planned) (s : state) :
  exists k,
    map call_url (calls (snd (walk settle w plan s)))
    = map call_url (calls s)
      ++ map (fun e => c_url (fst e))
           (filter (fun e => match snd e with Some _ => true | None => false end)
              (firstn k plan)).
Proof.
  revert s. induction plan as [|[c [p|]] rest IH]; intros s; cbn [walk].
  - exists 0%nat. cbn. now rewrite app_nil_r.
  - destruct (settle _ _).
    + exists 1%nat. cbn. rewrite map_app. reflexivity.
    + destruct (IH (log s (c_url c) p)) as [k Hk]. exists (S k).
      rewrite Hk. cbn. rewrite map_app, <- app_assoc. reflexivity.
  - destruct (IH s) as [k Hk]. exists (S k). rewrite Hk. reflexivity.
Qed.

Lemma walk_calls_in_plan (plan : list planned) (s : state) (u : jstr) :
  In u (map call_url (calls (snd (walk settle w plan s)))) ->
  In u (map call_url (calls s)) \/ In u (map (fun e => c_url (fst e)) plan).
Proof.
  destruct (walk_calls plan s) as [k Hk]. rewrite Hk.
  intros H. apply in_app_or in H as [H|H]; [now left|right].
  apply in_map_iff in H as (e & <- & He).
  apply filter_In in He as [He _].
  apply in_map_iff. exists e. split; [reflexivity|].
  revert He. clear. revert plan.
  induction k as [|k IH]; intros [|x plan]; cbn; try tauto.
  intros [->|H]; [now left | right; now apply IH].
Qed.

Section ShortCircuit.
(** What makes the walk go on to the next candidate. *)
Variable moves_on : (value -> M value) -> fetch_result -> bool.
Hypothesis settle_moves_on :
  forall normalize r, moves_on normalize r = true -> settle normalize r = None.
Hypothesis settle_answer :
  forall normalize st data v,
    ok_status st = true -> usable normalize data = Some v ->
    settle normalize (Resp st (Some data)) = Some v.

(** Short circuit: when the first [m] candidates move the walk on and
    the next one answers [v], the walk gives [v] after calling exactly
    the first [m + 1] candidates. *)
Lemma walk_short_circuit (plan : list planned) :
  forall (m : nat) (c : candidate) (payload v : value) (s : state),
    (forall i e, (i < m)%nat -> nth_error plan i = Some e ->
       snd e <> None
       /\ forall n q, moves_on (c_normalize (fst e))
                        (upstream w n (c_url (fst e)) q) = true) ->
    nth_error plan m = Some (c, Some payload) ->
    answers w c v ->
    fst (walk settle w plan s) = Some v
    /\ map call_url (calls (snd (walk settle w plan s)))
       = map call_url (calls s) ++ map (fun e => c_url (fst e)) (firstn (S m) plan).
Proof.
  induction plan as [|[c0 q0] rest IH]; intros m c payload v s Hbefore Hm Hans.
  - destruct m; discriminate.
  - destruct m as [|m].
    + cbn in Hm. inversion Hm; subst c0 q0. cbn [walk].
      destruct (Hans (List.length (calls s)) payload) as (st & data & Hup & Hok & Hus).
      rewrite Hup, (settle_answer _ st data v Hok Hus).
      cbn. rewrite map_app. split; reflexivity.
    + destruct (Hbefore 0%nat (c0, q0) (Nat.lt_0_succ m) eq_refl) as [Hq Hmove].
      cbn [fst snd] in Hq, Hmove.
      destruct q0 as [p0|]; [|congruence].
      cbn [walk]. rewrite (settle_moves_on _ _ (Hmove _ _)).
      destruct (IH m c payload v (log s (c_url c0) p0)) as [Hv Hc].
      * intros i e Hi He. apply (Hbefore (S i) e); [lia | exact He].
      * exact Hm.
      * exact Hans.
      * split; [exact Hv|]. rewrite Hc. cbn. rewrite map_app, <- app_assoc.
        reflexivity.
Qed.
End ShortCircuit.

Section Exhausted.
Hypothesis settle_nothing :
  forall normalize r,
    gives_nothing normalize r = true -> truthy (value_of (settle normalize r)) = false.

(** When every candidate of the plan fails or returns nothing usable,
    the walk gives nothing usable. *)
Lemma walk_exhausted (plan : list planned) (s : state) :
  (forall e, In e plan -> answers_nothing w (fst e)) ->
  truthy (value_of (fst (walk settle w plan s))) = false.
Proof.
  revert s. induction plan as [|[c [p|]] rest IH]; intros s Hall; cbn [walk].
  - reflexivity.
  - pose proof (Hall (c, Some p) (or_introl eq_refl) (List.length (calls s)) p) as Hn.
    cbn [fst] in Hn. apply settle_nothing in Hn.
    destruct (settle (c_normalize c) _) as [v|].
    + exact Hn.
    + apply IH. intros e He. apply Hall. now right.
  - apply IH. intros e He. apply Hall. now right.
Qed.
End Exhausted.
End Walk.

Lemma settle_returned_failed (normalize : value -> M value) (r : fetch_result) :
  failed r = true -> settle_returned normalize r = None.
Proof.
  destruct r as [msg|st [data|]]; cbn; try reflexivity.
  rewrite orb_false_r. intros H. apply negb_true_iff in H. now rewrite H.
Qed.

Lemma settle_returned_answer (normalize : value -> M value) (st : Z) (data v : value) :
  ok_status st = true -> usable normalize data = Some v ->
  settle_returned normalize (Resp st (Some data)) = Some v.
Proof.
  intros Hok. unfold usable, settle_returned. rewrite Hok.
  destruct (extract normalize data) as [x|e]; [|discriminate].
  destruct (truthy x); [|discriminate]. exact (fun H => H).
Qed.

Lemma settle_returned_nothing (normalize : value -> M value) (r : fetch_result) :
  gives_nothing normalize r = true ->
  truthy (value_of (settle_returned normalize r)) = false.
Proof.
  destruct r as [msg|st [data|]]; cbn; try reflexivity.
  unfold usable. destruct (ok_status st); [|reflexivity]. cbn.
  destruct (extract normalize data) as [x|e]; [|reflexivity].
  cbn. destruct (truthy x); [discriminate | reflexivity].
Qed.

Lemma settle_usable_nothing (normalize : value -> M value) (r : fetch_result) :
  gives_nothing normalize r = true -> settle_usable normalize r = None.
Proof.
  destruct r as [msg|st [data|]]; cbn; try reflexivity.
  destruct (ok_status st); [|reflexivity]. cbn.
  destruct (usable normalize data); [discriminate | reflexivity].
Qed.

Lemma settle_usable_answer (normalize : value -> M value) (st : Z) (data v : value) :
  ok_status st = true -> usable normalize data = Some v ->
  settle_usable normalize (Resp st (Some data)) = Some v.
Proof. intros Hok Hus. cbn. now rewrite Hok. Qed.

Lemma usable_truthy (normalize : value -> M value) (data v : value) :
  usable normalize data = Some v -> truthy v = true.
Proof.
  unfold usable. destruct (extract normalize data) as [x|e]; [|discriminate].
  destruct (truthy x) eqn:E; [|discriminate]. intros H. inversion H; subst. exact E.
Qed.

(* ================================================================== *)
(** ** The chat functions of part_000 as walks *)
(* ================================================================== *)

(** The normalizers of part_000 end in [|| null]: what they give is usable
    or it is [null]. *)
Lemma normalize_primary_or_null (data : value) :
  extract Part000.normalize_primary data
  = match usable Part000.normalize_primary data with
    | Some v => Ret v
    | None =>
        if is_nullish data
        then Throw (TypeError (js "Cannot read properties of null or undefined"))
        else Ret VNull
    end.
Proof.
  unfold usable, extract, Part000.normalize_primary, orM, bind, get_prop, ret, throw.
  destruct (is_nullish data); [reflexivity|]. cbn [fst].
  destruct (truthy (prop_of data (js "response"))) eqn:E1; cbn [fst];
    [rewrite E1; reflexivity|].
  destruct (truthy (prop_of data (js "answer"))) eqn:E2; cbn [fst];
    [rewrite E2; reflexivity|].
  destruct (truthy (prop_of data (js "result"))) eqn:E3; cbn [fst];
    [rewrite E3; reflexivity|].
  reflexivity.
Qed.

Lemma normalize_choices_or_null (data : value) :
  extract Part000.normalize_choices data
  = match usable Part000.normalize_choices data with
    | Some v => Ret v
    | None =>
        if is_nullish data
        then Throw (TypeError (js "Cannot read properties of null or undefined"))
        else Ret VNull
    end.
Proof.
  unfold usable, extract, Part000.normalize_choices, bind, get_prop, ret, throw, or_else.
  destruct (is_nullish data); [reflexivity|]. cbn [fst].
  destruct (truthy (opt_prop _ _)) eqn:E; [rewrite E|]; reflexivity.
Qed.

(** [callChatAPI], in terms of what the primary upstream gives. *)
Lemma callChatAPI_run (w : world) (prompt : value) (model : jstr) (history : value)
    (s : state) :
  Part000.callChatAPI w prompt model history s
  = match Part000.api_url model with
    | Part000.NotUrl => (Ret VNull, s)
    | Part000.Url u =>
        (Ret (value_of (settle_usable Part000.normalize_primary
                          (upstream w (List.length (calls s)) u
                             (primary_payload prompt history)))),
         log s u (primary_payload prompt history))
    end.
Proof.
  unfold Part000.callChatAPI, Part000.fetch_arg.
  destruct (Part000.api_url model) as [u|]; [|reflexivity].
  fold (primary_payload prompt history).
  unfold try_catch, bind, fetch, settle_usable, log, ok, ok_status.
  destruct (upstream w (List.length (calls s)) u (primary_payload prompt history))
    as [msg|st [data|]]; cbn [resp_status resp_parsed]; try reflexivity.
  - destruct (Z.leb 200 st && Z.leb st 299)%bool; cbn [negb]; [|reflexivity].
    unfold json. cbn [resp_parsed]. unfold ret at 1.
    rewrite normalize_primary_run, normalize_primary_or_null.
    destruct (usable Part000.normalize_primary data); [reflexivity|].
    destruct (is_nullish data); reflexivity.
  - destruct (Z.leb 200 st && Z.leb st 299)%bool; reflexivity.
Qed.

(** [callFallbackChat], in terms of what the fallback upstream gives. *)
Lemma callFallbackChat_run (w : world) (prompt : value) (url : jstr) (history : value)
    (s : state) :
  Part000.callFallbackChat w prompt url history s
  = match built (fallback_body prompt history) with
    | None => (Ret VNull, s)
    | Some payload =>
        (Ret (value_of (settle_usable Part000.normalize_choices
                          (upstream w (List.length (calls s)) url payload))),
         log s url payload)
    end.
Proof.
  unfold Part000.callFallbackChat, built, fallback_body.
  destruct (or_else history (VArr [])) as [| | | |str|turns|];
    try reflexivity;
    cbn [spread]; unfold try_catch, bind, ret; cbn [fst];
    unfold fetch, settle_usable, log, ok, ok_status;
    (match goal with
     | |- context [upstream w ?n url ?p] =>
         destruct (upstream w n url p) as [msg|st [data|]]
     end; cbn [resp_status resp_parsed]; try reflexivity;
     [ destruct (Z.leb 200 st && Z.leb st 299)%bool; cbn [negb]; [|reflexivity];
       unfold json; cbn [resp_parsed]; unfold ret;
       rewrite normalize_choices_run, normalize_choices_or_null;
       destruct (usable Part000.normalize_choices data); [reflexivity|];
       destruct (is_nullish data); reflexivity
     | destruct (Z.leb 200 st && Z.leb st 299)%bool; reflexivity ]).
Qed.

Lemma settle_usable_truthy (normalize : value -> M value) (r : fetch_result) (v : value) :
  settle_usable normalize r = Some v -> truthy v = true.
Proof.
  destruct r as [msg|st [data|]]; cbn; try discriminate.
  destruct (ok_status st); [|discriminate]. apply usable_truthy.
Qed.

Lemma walk_usable_truthy (w : world) (plan : list planned) (s : state) (v : value) :
  fst (walk settle_usable w plan s) = Some v -> truthy v = true.
Proof.
  revert s. induction plan as [|[c [p|]] rest IH]; intros s; cbn [walk].
  - discriminate.
  - destruct (settle_usable (c_normalize c) _) as [x|] eqn:E.
    + cbn. intros H. inversion H; subst. eapply settle_usable_truthy, E.
    + apply IH.
  - apply IH.
Qed.

(** The loop over [FALLBACK.chat]. *)
Lemma try_fallbacks_walk (w : world) (prompt history : value) (urls : list jstr)
    (s : state) :
  let r := walk settle_usable w (fallback_plan prompt history urls) s in
  Part000.try_fallbacks w prompt history urls s
  = match fst r with
    | Some v =>
        (Ret true, snd (res_json 200 (chat_envelope w (js "fallback") v) (snd r)))
    | None => (Ret false, snd r)
    end.
Proof.
  revert s. induction urls as [|u rest IH]; intros s; cbn zeta.
  - reflexivity.
  - cbn [Part000.try_fallbacks fallback_plan map walk c_url c_normalize].
    unfold bind at 1. rewrite callFallbackChat_run.
    destruct (built (fallback_body prompt history)) as [payload|] eqn:Eb.
    + destruct (settle_usable Part000.normalize_choices _) as [v|] eqn:Ev.
      * cbn [value_of]. rewrite (settle_usable_truthy _ _ _ Ev). reflexivity.
      * cbn [value_of truthy]. specialize (IH (log s u payload)). cbn zeta in IH.
        unfold fallback_plan in IH. rewrite Eb in IH. exact IH.
    + cbn [truthy]. specialize (IH s). cbn zeta in IH.
      unfold fallback_plan in IH. rewrite Eb in IH. exact IH.
Qed.

(** The chat handler of part_000, in terms of the walk over its plan. *)
Lemma handleChat_run (w : world) (prompt : value) (m : jstr) (history : value)
    (s : state) :
  let model := toLowerCase_str m in
  let fallbacks := fun s1 =>
    let r := walk settle_usable w
               (fallback_plan prompt history (Part000.chat Part000.FALLBACK)) s1 in
    match fst r with
    | Some v => res_json 200 (chat_envelope w (js "fallback") v) (snd r)
    | None => res_json 500 part000_chat_failed (snd r)
    end in
  Part000.handleChat w prompt (VStr m) history s
  = match Part000.api_url model with
    | Part000.Url u =>
        match settle_usable Part000.normalize_primary
                (upstream w (List.length (calls s)) u (primary_payload prompt history)) with
        | Some v =>
            res_json 200 (chat_envelope w model v) (log s u (primary_payload prompt history))
        | None => fallbacks (log s u (primary_payload prompt history))
        end
    | Part000.NotUrl => fallbacks s
    end.
Proof.
  intros model fallbacks. subst fallbacks.
  unfold Part000.handleChat, toLowerCase. fold model.
  unfold bind at 1. unfold ret at 1. unfold try_catch. unfold bind at 1.
  rewrite callChatAPI_run.
  destruct (Part000.api_url model) as [u|].
  - destruct (settle_usable Part000.normalize_primary _) as [v|] eqn:Ev.
    + cbn [value_of]. rewrite (settle_usable_truthy _ _ _ Ev). reflexivity.
    + cbn [value_of truthy]. unfold bind. rewrite try_fallbacks_walk. cbn zeta.
      destruct (fst (walk _ _ _ _)); reflexivity.
  - cbn [truthy]. unfold bind. rewrite try_fallbacks_walk. cbn zeta.
    destruct (fst (walk _ _ _ _)); reflexivity.
Qed.

(* ================================================================== *)
(** ** The router hands chat requests to the chat handlers *)
(* ================================================================== *)

Lemma chat_request_inv (req : request) :
  chat_request req = true ->
  routed req = true /\ truthy (prompt_of req) = true
  /\ strict_eq_str (action_of req) (js "test") = false
  /\ strict_eq_str (action_of req) (js "image") = false.
Proof.
  unfold chat_request. intros H.
  apply andb_true_iff in H as [H H4]. apply andb_true_iff in H as [H H3].
  apply andb_true_iff in H as [H1 H2].
  apply negb_true_iff in H3, H4. auto.
Qed.

Lemma handleChatRequest_total (w : world) (prompt : value) (m : jstr)
    (history imageUrl : value) (s : state) :
  fst (Index.handleChatRequest w prompt (VStr m) history imageUrl s) = Ret tt.
Proof.
  rewrite handleChatRequest_run. cbn zeta.
  destruct (truthy _); reflexivity.
Qed.

Lemma handleChat_total (w : world) (prompt : value) (m : jstr) (history : value)
    (s : state) :
  fst (Part000.handleChat w prompt (VStr m) history s) = Ret tt.
Proof.
  rewrite handleChat_run. cbn zeta.
  destruct (Part000.api_url _); [destruct (settle_usable _ _)|];
    try reflexivity; destruct (fst (walk _ _ _ _)); reflexivity.
Qed.

Lemma index_routes_chat (w : world) (req : request) (m : jstr) :
  chat_request req = true ->
  model_of IndexJs req = VStr m ->
  run (Index.handler w req)
  = Index.handleChatRequest w (prompt_of req) (VStr m) (history_of req)
      (param req "imageUrl" VNull) (routed_state IndexJs).
Proof.
  intros Hreq Hmodel. apply chat_request_inv in Hreq as (Hr & Hp & Ht & Hi).
  apply routed_inv in Hr as [Hm Hq]. cbn [model_of] in Hmodel.
  unfold Index.handler. plumb. rewrite Hm.
  unfold get_prop. rewrite Hq. plumb.
  fold (prompt_of req). fold (action_of req). fold (history_of req).
  rewrite Hp, Ht, Hi, Hmodel. cbn [negb andb].
  pose proof (handleChatRequest_total w (prompt_of req) m (history_of req)
                (param req "imageUrl" VNull) (routed_state IndexJs)) as Htot.
  unfold routed_state, cors in Htot. cbn [app].
  destruct (Index.handleChatRequest w _ _ _ _ _) as [o s'] eqn:E.
  cbn [fst] in Htot. subst o. reflexivity.
Qed.

Lemma part000_routes_chat (w : world) (req : request) (m : jstr) :
  chat_request req = true ->
  model_of Part000Js req = VStr m ->
  run (Part000.handler w req)
  = Part000.handleChat w (prompt_of req) (VStr m) (history_of req) (routed_state Part000Js).
Proof.
  intros Hreq Hmodel. apply chat_request_inv in Hreq as (Hr & Hp & Ht & Hi).
  apply routed_inv in Hr as [Hm Hq]. cbn [model_of] in Hmodel.
  unfold Part000.handler. plumb. rewrite Hm.
  unfold get_prop. rewrite Hq. plumb.
  fold (prompt_of req). fold (action_of req). fold (history_of req).
  rewrite Hp, Hi, Hmodel. cbn [negb andb].
  pose proof (handleChat_total w (prompt_of req) m (history_of req)
                (routed_state Part000Js)) as Htot.
  unfold routed_state, cors in Htot. cbn [app].
  destruct (Part000.handleChat w _ _ _ _) as [o s'] eqn:E.
  cbn [fst] in Htot. subst o. reflexivity.
Qed.

(** The plans go through the chains. *)
Lemma index_plan_chain (w : world) (model : jstr) (prompt history : value) :
  map fst (index_plan w model prompt history) = index_chain w model.
Proof.
  unfold index_plan, index_chain.
  repeat match goal with
         | |- context [if ?b then _ else _] => destruct b
         end; reflexivity.
Qed.

Lemma part000_plan_chain (model : jstr) (prompt history : value) :
  map fst (part000_plan model prompt history) = part000_chain model.
Proof.
  unfold part000_plan, part000_chain, fallback_plan.
  rewrite map_app, map_map. cbn [fst].
  destruct (Part000.api_url model); reflexivity.
Qed.

(** With a history that is an array of turns every request body can be
    built. *)
Lemma turn_of_run (h : value) (s : state) :
  is_nullish h = false ->
  Index.turn_of h s
  = (Ret (VObj [(js "role", prop_of h (js "role"));
                (js "content", prop_of h (js "content"))]), s).
Proof.
  intros Hh. unfold Index.turn_of, bind, get_prop. rewrite Hh. reflexivity.
Qed.

Lemma mapM_turn_of_built (l : list value) :
  forallb (fun h => negb (is_nullish h)) l = true ->
  exists turns, fst (mapM Index.turn_of l initial) = Ret turns.
Proof.
  induction l as [|h l IH]; cbn [forallb mapM].
  - intros _. exists []. reflexivity.
  - intros H. apply andb_true_iff in H as [Hh Hl]. apply negb_true_iff in Hh.
    destruct (IH Hl) as [turns Ht].
    unfold bind at 1. rewrite (turn_of_run h initial Hh).
    unfold bind.
    destruct (mapM Index.turn_of l initial) as [o s']. cbn [fst] in Ht.
    subst o. eexists. reflexivity.
Qed.

Lemma chatgpt_plan_built (prompt history : value) :
  is_turns history = true ->
  Forall (fun e : planned => snd e <> None) (chatgpt_plan prompt history).
Proof.
  intros H. destruct history as [| | | | |l|]; try discriminate. cbn [is_turns] in H.
  unfold chatgpt_plan. repeat constructor; cbn [snd].
  - discriminate.
  - unfold built, Index.deepenglish_body, Index.map_turns.
    destruct (mapM_turn_of_built l H) as [turns Ht].
    pose proof (stateless_mapM Index.turn_of l stateless_turn_of initial) as E.
    unfold bind. destruct (mapM Index.turn_of l initial) as [o s'].
    cbn [fst] in Ht, E. subst o. discriminate.
Qed.

Lemma index_plan_built (w : world) (model : jstr) (prompt history : value) :
  is_turns history = true ->
  Forall (fun e : planned => snd e <> None) (index_plan w model prompt history).
Proof.
  intros H. pose proof (chatgpt_plan_built prompt history H) as Hc.
  unfold index_plan.
  repeat match goal with
         | |- context [if ?b then _ else _] => destruct b
         end;
    first [ exact Hc
          | constructor; [cbn [snd]; discriminate | exact Hc]
          | repeat constructor; cbn [snd]; try discriminate;
            destruct history; discriminate ].
Qed.

Lemma fallback_plan_built (prompt history : value) (urls : list jstr) :
  is_turns history = true ->
  Forall (fun e : planned => snd e <> None) (fallback_plan prompt history urls).
Proof.
  intros H. destruct history as [| | | | |l|]; try discriminate.
  unfold fallback_plan. apply Forall_forall. intros e He.
  apply in_map_iff in He as (u & <- & _). cbn [snd]. discriminate.
Qed.

(* ================================================================== *)
(** ** The fallback chain: short circuit, exhaustion, the gemini key
       (C2, C3, C7, C1) *)
(* ================================================================== *)

Lemma settle_usable_failed (normalize : value -> M value) (r : fetch_result) :
  failed r = true -> settle_usable normalize r = None.
Proof.
  destruct r as [msg|st [data|]]; cbn; try reflexivity.
  rewrite orb_false_r. intros H. apply negb_true_iff in H. now rewrite H.
Qed.

Lemma failed_gives_nothing (normalize : value -> M value) (r : fetch_result) :
  failed r = true -> gives_nothing normalize r = true.
Proof.
  destruct r as [msg|st [data|]]; cbn; try reflexivity.
  - rewrite orb_false_r. intros ->. reflexivity.
  - intros _. apply orb_true_r.
Qed.

Lemma fails_answers_nothing (w : world) (c : candidate) :
  fails w c -> answers_nothing w c.
Proof. intros H n payload. apply failed_gives_nothing, H. Qed.

Lemma answers_truthy (w : world) (c : candidate) (v : value) :
  answers w c v -> truthy v = true.
Proof.
  intros H. destruct (H 0%nat VNull) as (st & data & _ & _ & Hu).
  eapply usable_truthy, Hu.
Qed.

(** Short circuit along a chain: the walk over a plan whose request bodies
    can all be built. *)
Lemma walk_chain_short_circuit
    (settle : (value -> M value) -> fetch_result -> returned)
    (moves_on : (value -> M value) -> fetch_result -> bool) (w : world) :
  (forall normalize r, moves_on normalize r = true -> settle normalize r = None) ->
  (forall normalize st data v,
      ok_status st = true -> usable normalize data = Some v ->
      settle normalize (Resp st (Some data)) = Some v) ->
  forall (plan : list planned) (n : nat) (c : candidate) (v : value) (s : state),
    Forall (fun e : planned => snd e <> None) plan ->
    nth_error (map fst plan) n = Some c ->
    (forall i c', (i < n)%nat -> nth_error (map fst plan) i = Some c' ->
       forall k q, moves_on (c_normalize c') (upstream w k (c_url c') q) = true) ->
    answers w c v ->
    fst (walk settle w plan s) = Some v
    /\ map call_url (calls (snd (walk settle w plan s)))
       = map call_url (calls s) ++ map c_url (firstn (S n) (map fst plan)).
Proof.
  intros Hmove Hanswer plan n c v s Hbuilt Hn Hbefore Hans.
  rewrite nth_error_map in Hn.
  change (option_map fst (@nth_error planned plan n) = Some c) in Hn.
  destruct (@nth_error planned plan n) as [[c0 q]|] eqn:En; [|discriminate].
  cbn in Hn. injection Hn as Hn. subst c0.
  assert (Hq : q <> None).
  { apply nth_error_In in En. rewrite Forall_forall in Hbuilt.
    apply (Hbuilt _ En). }
  destruct q as [payload|]; [|congruence].
  destruct (walk_short_circuit settle w moves_on Hmove Hanswer
              plan n c payload v s) as [Hv Hc]; trivial.
  - intros i e Hi He. split.
    + apply nth_error_In in He. rewrite Forall_forall in Hbuilt. apply (Hbuilt _ He).
    + apply (Hbefore i (fst e) Hi). rewrite nth_error_map.
      change (option_map fst (@nth_error planned plan i) = Some (fst e)).
      rewrite He. reflexivity.
  - split; [exact Hv|]. rewrite Hc. rewrite firstn_map, map_map. reflexivity.
Qed.

(** Short circuit in api/index.js. *)
Lemma index_short_circuit (w : world) (req : request) (m : jstr) (n : nat)
    (c : candidate) (v : value) :
  chat_request req = true ->
  model_of IndexJs req = VStr m ->
  is_turns (history_of req) = true ->
  nth_error (index_chain w (toLowerCase_str m)) n = Some c ->
  (forall i c', (i < n)%nat ->
     nth_error (index_chain w (toLowerCase_str m)) i = Some c' -> fails w c') ->
  answers w c v ->
  run (Index.handler w req)
  = (Ret tt,
     responded (cors "Content-Type, Authorization") 200
       (chat_envelope w (toLowerCase_str m) v)
       (calls (final (Index.handler w req))))
  /\ urls_of (Index.handler w req)
     = map c_url (firstn (S n) (index_chain w (toLowerCase_str m))).
Proof.
  intros Hreq Hmodel Hturns Hn Hbefore Hans.
  pose proof (answers_truthy w c v Hans) as Htruthy.
  unfold urls_of, final.
  rewrite (index_routes_chat w req m Hreq Hmodel), handleChatRequest_run. cbn zeta.
  rewrite <- (index_plan_chain w (toLowerCase_str m) (prompt_of req) (history_of req))
    in Hn, Hbefore |- *.
  destruct (walk_chain_short_circuit settle_returned (fun _ r => failed r) w
              settle_returned_failed settle_returned_answer
              _ n c v (routed_state IndexJs)
              (index_plan_built w _ (prompt_of req) _ Hturns) Hn Hbefore Hans)
    as [Hv Hc].
  rewrite Hv. cbn [value_of]. rewrite Htruthy.
  pose proof (walk_res settle_returned w
                (index_plan w (toLowerCase_str m) (prompt_of req) (history_of req))
                (routed_state IndexJs)) as Hres.
  unfold res_json. rewrite Hres. cbn [snd calls]. rewrite Hc.
  split; reflexivity.
Qed.

(** Short circuit in part_000, where a candidate that returns nothing usable
    is passed over like one that fails. *)
Lemma part000_short_circuit (w : world) (req : request) (m : jstr) (n : nat)
    (c : candidate) (v : value) :
  chat_request req = true ->
  model_of Part000Js req = VStr m ->
  is_turns (history_of req) = true ->
  nth_error (part000_chain (toLowerCase_str m)) n = Some c ->
  (forall i c', (i < n)%nat ->
     nth_error (part000_chain (toLowerCase_str m)) i = Some c' -> answers_nothing w c') ->
  answers w c v ->
  run (Part000.handler w req)
  = (Ret tt,
     responded (cors "Content-Type") 200
       (chat_envelope w (answered_as Part000Js (toLowerCase_str m) n) v)
       (calls (final (Part000.handler w req))))
  /\ urls_of (Part000.handler w req)
     = map c_url (firstn (S n) (part000_chain (toLowerCase_str m))).
Proof.
  intros Hreq Hmodel Hturns Hn Hbefore Hans.
  unfold urls_of, final.
  rewrite (part000_routes_chat w req m Hreq Hmodel), handleChat_run. cbn zeta.
  unfold part000_chain in Hn, Hbefore |- *. cbn [answered_as].
  pose proof (fallback_plan_built (prompt_of req) (history_of req)
                (Part000.chat Part000.FALLBACK) Hturns) as Hbuilt.
  assert (Hfb : map fst (fallback_plan (prompt_of req) (history_of req)
                           (Part000.chat Part000.FALLBACK))
                = map (fun u => {| c_url := u; c_normalize := Part000.normalize_choices |})
                    (Part000.chat Part000.FALLBACK)).
  { unfold fallback_plan. rewrite map_map. reflexivity. }
  rewrite <- Hfb in Hn, Hbefore |- *.
  destruct (Part000.api_url (toLowerCase_str m)) as [u|].
  - destruct n as [|n].
    + cbn in Hn. injection Hn as Hn. subst c.
      destruct (Hans 0%nat (primary_payload (prompt_of req) (history_of req)))
        as (st & data & Hup & Hok & Hus).
      cbn [c_url c_normalize routed_state calls List.length] in Hup, Hus |- *.
      rewrite Hup, (settle_usable_answer _ st data v Hok Hus).
      split; reflexivity.
    + pose proof (Hbefore 0%nat _ (Nat.lt_0_succ n) eq_refl 0%nat
                    (primary_payload (prompt_of req) (history_of req))) as H0.
      cbn [c_url c_normalize routed_state calls List.length] in H0 |- *.
      rewrite (settle_usable_nothing _ _ H0).
      destruct (walk_chain_short_circuit settle_usable gives_nothing w
                  settle_usable_nothing settle_usable_answer
                  _ n c v
                  (log (routed_state Part000Js) u
                     (primary_payload (prompt_of req) (history_of req)))
                  Hbuilt) as [Hv Hc]; trivial.
      { intros i c' Hi Hc'. apply (Hbefore (S i) c'); [lia | exact Hc']. }
      fold (routed_state Part000Js).
      rewrite Hv.
      match goal with
      | |- context [walk settle_usable w ?plan ?s] =>
          pose proof (walk_res settle_usable w plan s) as Hres
      end.
      unfold res_json. rewrite Hres. cbn [snd calls]. rewrite Hc.
      split; reflexivity.
  - destruct (walk_chain_short_circuit settle_usable gives_nothing w
                settle_usable_nothing settle_usable_answer
                _ n c v (routed_state Part000Js) Hbuilt) as [Hv Hc]; trivial.
    rewrite Hv.
    match goal with
    | |- context [walk settle_usable w ?plan ?s] =>
        pose proof (walk_res settle_usable w plan s) as Hres
    end.
    unfold res_json. rewrite Hres. cbn [snd calls]. rewrite Hc.
    split; reflexivity.
Qed.

(** Lower-casing keeps a string within ASCII, and outside of it. *)
Lemma lower_unit_ascii (c : code_unit) : N.ltb (lower_unit c) 128 = N.ltb c 128.
Proof.
  unfold lower_unit. destruct (N.leb 65 c && N.leb c 90)%bool eqn:E; [|reflexivity].
  apply andb_true_iff in E as [E1 E2]. apply N.leb_le in E1, E2.
  transitivity true; [|symmetry]; apply N.ltb_lt; lia.
Qed.

Lemma lower_case_ascii (m : jstr) : ascii_only (toLowerCase_str m) = ascii_only m.
Proof.
  unfold ascii_only, toLowerCase_str. induction m as [|c m IH]; [reflexivity|].
  cbn [map forallb]. now rewrite lower_unit_ascii, IH.
Qed.

(** A name whose lower-cased form is a name of ASCII code units, as every
    model name the handlers compare with is, has ASCII code units only. *)
Lemma lower_cased_ascii_name (m name : jstr) :
  toLowerCase_str m = name -> ascii_only name = true -> ascii_only m = true.
Proof. intros <-. now rewrite lower_case_ascii. Qed.

(** The readings of the specification are what the normalizing expressions
    of the code find usable. *)
Lemma read_generic (data : value) :
  read (Fields ["response"; "message"; "result"]) data
  = usable Index.normalize_generic data.
Proof.
  unfold read, usable, extract, first_truthy, Index.normalize_generic,
    orM, bind, get_prop, ret, throw.
  destruct (is_nullish data); [reflexivity|]. cbn [map find fst].
  destruct (truthy (prop_of data (js "response"))) eqn:H1; cbn [fst]; rewrite ?H1;
    [reflexivity|].
  destruct (truthy (prop_of data (js "message"))) eqn:H2; cbn [fst]; rewrite ?H2;
    [reflexivity|].
  destruct (truthy (prop_of data (js "result"))) eqn:H3; reflexivity.
Qed.

Lemma read_deepenglish (data : value) :
  read (Fields ["response"; "message"]) data = usable Index.normalize_deepenglish data.
Proof.
  unfold read, usable, extract, first_truthy, Index.normalize_deepenglish,
    orM, bind, get_prop, ret, throw.
  destruct (is_nullish data); [reflexivity|]. cbn [map find fst].
  destruct (truthy (prop_of data (js "response"))) eqn:H1; cbn [fst]; rewrite ?H1;
    [reflexivity|].
  destruct (truthy (prop_of data (js "message"))) eqn:H2; reflexivity.
Qed.

Lemma read_gemini (data : value) :
  read CandidatesText data = usable Index.normalize_gemini data.
Proof.
  unfold read, usable, extract, candidates_text, Index.normalize_gemini,
    bind, get_prop, ret, throw.
  destruct (is_nullish data); reflexivity.
Qed.

Lemma read_primary (data : value) :
  read (Fields ["response"; "answer"; "result"]) data
  = usable Part000.normalize_primary data.
Proof.
  unfold read, usable, extract, first_truthy, Part000.normalize_primary,
    orM, bind, get_prop, ret, throw.
  destruct (is_nullish data); [reflexivity|]. cbn [map find fst].
  destruct (truthy (prop_of data (js "response"))) eqn:H1; cbn [fst]; rewrite ?H1;
    [reflexivity|].
  destruct (truthy (prop_of data (js "answer"))) eqn:H2; cbn [fst]; rewrite ?H2;
    [reflexivity|].
  destruct (truthy (prop_of data (js "result"))) eqn:H3; cbn [fst]; rewrite ?H3;
    reflexivity.
Qed.

Lemma read_choices (data : value) :
  read ChoicesContent data = usable Part000.normalize_choices data.
Proof.
  unfold read, usable, extract, choices_content, Part000.normalize_choices,
    bind, get_prop, ret, throw, or_else.
  destruct (is_nullish data); [reflexivity|]. cbn [fst].
  destruct (truthy (opt_prop _ _)) eqn:H; rewrite ?H; reflexivity.
Qed.

(** The targets of the specification are the candidates the code goes
    through, address by address and reading by reading. *)
Lemma chatgpt_targets_chain : Forall2 stands_for chatgpt_targets chatgpt_chain.
Proof.
  repeat constructor; intros data; [apply read_generic | apply read_deepenglish].
Qed.

Lemma index_targets_chain (w : world) (model : jstr) :
  Forall2 stands_for (index_targets w model) (index_chain w model).
Proof.
  pose proof chatgpt_targets_chain as Hc.
  unfold index_targets, index_chain.
  destruct (jstr_eqb model (js "claude")) eqn:Ecl.
  { apply jstr_eqb_eq in Ecl. subst model. cbn [orb].
    repeat constructor. intros data. apply read_generic. }
  destruct (jstr_eqb model (js "perplexity") || jstr_eqb model (js "search"))%bool eqn:Ep.
  { assert (Hn : (jstr_eqb model (js "chatgpt") || jstr_eqb model (js "gpt")
                  || jstr_eqb model (js "gpt4"))%bool = false).
    { apply orb_true_iff in Ep as [Ep|Ep]; apply jstr_eqb_eq in Ep; subst model;
        reflexivity. }
    rewrite Hn. repeat constructor. intros data. apply read_generic. }
  destruct (jstr_eqb model (js "gemini")) eqn:Eg.
  { apply jstr_eqb_eq in Eg. subst model. cbn [orb].
    unfold key_configured, Index.gemini_url, Index.GEMINI_KEY.
    destruct (GEMINI_API_KEY w) as [[|c k]|]; try exact Hc.
    change (jstr_eqb (c :: k) []) with false.
    change Index.placeholder_key with (js "YOUR_GEMINI_KEY").
    change (jstr_eqb (js "gemini") (js "chatgpt") || jstr_eqb (js "gemini") (js "gpt")
            || jstr_eqb (js "gemini") (js "gpt4"))%bool with false.
    cbn [orb].
    destruct (jstr_eqb (c :: k) (js "YOUR_GEMINI_KEY")); cbn [negb]; [exact Hc|].
    constructor; [|exact Hc].
    split; [|intros data; apply read_gemini].
    unfold gemini_target. cbn [t_url c_url]. reflexivity. }
  destruct (_ || _ || _)%bool; exact Hc.
Qed.

Lemma part000_primary_api_url (model : jstr) :
  Part000.api_url model
  = match part000_primary model with
    | Some u => Part000.Url u
    | None => Part000.NotUrl
    end.
Proof.
  unfold Part000.api_url, Part000.APIS, Part000.APIS_gpt4, part000_primary.
  cbn [Part000.own_url].
  destruct (jstr_eqb model (js "gpt4")) eqn:E.
  { apply jstr_eqb_eq in E. subst model. reflexivity. }
  repeat match goal with
         | |- context [if ?b then _ else _] => destruct b
         end; reflexivity.
Qed.

Lemma part000_targets_chain (model : jstr) :
  Forall2 stands_for (part000_targets model) (part000_chain model).
Proof.
  unfold part000_targets, part000_chain. rewrite part000_primary_api_url.
  assert (Hf : Forall2 stands_for
                 [ {| t_url := js "https://widipe.com/openai"; t_reading := ChoicesContent |};
                   {| t_url := js "https://api.freeaiapi.xyz/v1/chat/completions";
                      t_reading := ChoicesContent |} ]
                 (map (fun u => {| c_url := u; c_normalize := Part000.normalize_choices |})
                    (Part000.chat Part000.FALLBACK))).
  { repeat constructor; intros data; apply read_choices. }
  destruct (part000_primary model) as [u|]; [|exact Hf].
  constructor; [|exact Hf]. split; [reflexivity|]. intros data. apply read_primary.
Qed.

Lemma targets_chain (d : deployment) (w : world) (model : jstr) :
  Forall2 stands_for (targets_of d w model) (chain_of d w model).
Proof.
  destruct d; [apply index_targets_chain | apply part000_targets_chain].
Qed.

Lemma stands_for_nth (ts : list target) (cs : list candidate) :
  Forall2 stands_for ts cs ->
  forall n t, nth_error ts n = Some t ->
    exists c, nth_error cs n = Some c /\ stands_for t c.
Proof.
  induction 1 as [|t0 c0 ts cs H0 _ IH]; intros [|n] t Hn; try discriminate.
  - injection Hn as <-. exists c0. split; [reflexivity | exact H0].
  - apply (IH n t Hn).
Qed.

Lemma stands_for_nth_back (ts : list target) (cs : list candidate) :
  Forall2 stands_for ts cs ->
  forall n c, nth_error cs n = Some c ->
    exists t, nth_error ts n = Some t /\ stands_for t c.
Proof.
  induction 1 as [|t0 c0 ts cs H0 _ IH]; intros [|n] c Hn; try discriminate.
  - injection Hn as <-. exists t0. split; [reflexivity | exact H0].
  - apply (IH n c Hn).
Qed.

Lemma stands_for_urls (ts : list target) (cs : list candidate) (n : nat) :
  Forall2 stands_for ts cs ->
  map c_url (firstn n cs) = map t_url (firstn n ts).
Proof.
  intros H. revert n. induction H as [|t0 c0 ts cs [H0 _] _ IH]; intros [|n];
    try reflexivity.
  cbn [firstn map]. now rewrite H0, IH.
Qed.

Lemma stands_for_down (w : world) (t : target) (c : candidate) :
  stands_for t c -> down w t -> fails w c.
Proof. intros [Hu _] H n payload. rewrite <- Hu. apply H. Qed.

Lemma stands_for_answer (w : world) (t : target) (c : candidate) (v : value) :
  stands_for t c -> valid_answer w t v -> answers w c v.
Proof.
  intros [Hu Hr] H n payload. destruct (H n payload) as (st & data & Hup & Hok & Hv).
  exists st, data. rewrite <- Hu, <- Hr. auto.
Qed.

Lemma label_of_answered_as (d : deployment) (model : jstr) (n : nat) :
  answered_as d model n = label_of d model n.
Proof.
  destruct d; [reflexivity|]. cbn [answered_as label_of].
  rewrite part000_primary_api_url. destruct (part000_primary model); reflexivity.
Qed.

(** C2 (amended).  For every chat request with a string model and a history
    that is an array of turns, to a model whose targets have one at position
    [n] (so [n] is below their number): when the [n] targets before it fail
    (network error, non-2xx status, or a body that does not parse) and this
    one returns a valid payload, the handler answers HTTP 200, the response
    field of the body is the normalized value [v] of that payload, and the
    upstreams called are exactly the first [n + 1] targets, in registry
    order: none after it is invoked.  The targets, their addresses and the
    readings of their answers are those the specification lists.  The body
    is the success envelope; its model field is the lower-cased requested
    name (for a name of ASCII characters), or "fallback" when part_000 was
    answered by its fallback list.  This holds for both deployments. *)
Theorem C2_first_answer_short_circuits
    (d : deployment) (w : world) (req : request) (m : jstr) (n : nat)
    (t : target) (v : value) :
  chat_request req = true ->
  model_of d req = VStr m ->
  is_turns (history_of req) = true ->
  nth_error (targets_of d w (toLowerCase_str m)) n = Some t ->
  (forall i t', (i < n)%nat ->
     nth_error (targets_of d w (toLowerCase_str m)) i = Some t' -> down w t') ->
  valid_answer w t v ->
  status_of (handler_of d w req) = 200%Z
  /\ field_of (body_of (handler_of d w req)) "response" = v
  /\ (exists name,
        lower_cased m name
        /\ body_of (handler_of d w req) = Json (chat_envelope w (label_of d name n) v))
  /\ urls_of (handler_of d w req)
     = map t_url (firstn (S n) (targets_of d w (toLowerCase_str m))).
Proof.
  intros Hreq Hmodel Hturns Hn Hbefore Hans.
  pose proof (targets_chain d w (toLowerCase_str m)) as HF.
  destruct (stands_for_nth _ _ HF n t Hn) as (c & Hc & Hst).
  assert (Hfails : forall i c', (i < n)%nat ->
            nth_error (chain_of d w (toLowerCase_str m)) i = Some c' -> fails w c').
  { intros i c' Hi Hc'.
    destruct (stands_for_nth_back _ _ HF i c' Hc') as (t' & Ht' & Hst').
    apply (stands_for_down w t' c' Hst'), (Hbefore i t' Hi Ht'). }
  pose proof (stands_for_answer w t c v Hst Hans) as Hanswers.
  rewrite <- (stands_for_urls _ _ (S n) HF).
  assert (Hrun : run (handler_of d w req)
                 = (Ret tt,
                    responded (cors (match d with
                                     | IndexJs => "Content-Type, Authorization"
                                     | Part000Js => "Content-Type"
                                     end)) 200
                      (chat_envelope w (label_of d (toLowerCase_str m) n) v)
                      (calls (final (handler_of d w req))))
                 /\ urls_of (handler_of d w req)
                    = map c_url (firstn (S n) (chain_of d w (toLowerCase_str m)))).
  { rewrite <- label_of_answered_as.
    destruct d; cbn [handler_of chain_of] in *.
    - apply (index_short_circuit w req m n c v); assumption.
    - apply (part000_short_circuit w req m n c v); try assumption.
      intros i c' Hi Hc'. apply fails_answers_nothing, (Hfails i c' Hi Hc'). }
  destruct Hrun as [Hrun Hurls].
  unfold status_of, body_of, final. rewrite Hrun.
  split; [reflexivity|]. split; [reflexivity|]. split; [|exact Hurls].
  exists (toLowerCase_str m). split; [intros _|]; reflexivity.
Qed.

Lemma C2_first_answer_short_circuits_witness :
  let h := handler_of IndexJs world_first_down (chat_post "ping") in
  status_of h = 200%Z
  /\ field_of (body_of h) "response" = VStr (js "pong")
  /\ (exists name,
        lower_cased (js "chatgpt") name
        /\ body_of h
           = Json (chat_envelope world_first_down (label_of IndexJs name 1)
                     (VStr (js "pong"))))
  /\ urls_of h = [ js "https://api.kastg.xyz/api/ai/chatgptv2";
                   js "https://deepenglish.com/wp-json/ai-chatbot/v1/chat" ].
Proof.
  apply (C2_first_answer_short_circuits IndexJs world_first_down (chat_post "ping")
           (js "chatgpt") 1 deepenglish_target (VStr (js "pong"))).
  - reflexivity.
  - reflexivity.
  - reflexivity.
  - reflexivity.
  - intros i t' Hi Ht'. destruct i as [|i]; [|lia].
    injection Ht' as <-. intros n payload. reflexivity.
  - intros n payload. exists 200%Z, pong. repeat split.
Defined.

(** C2 as stated fails on a history that is no array.  A GET request gives
    the history as a string: with the first chatgpt upstream down and the
    second one ready to answer a valid payload, api/index.js never calls
    the second (building its request body throws) and answers HTTP 500. *)
Lemma C2_counterexample_string_history :
  let w := world_first_down in
  let req := get [("prompt", "ping"); ("history", "x")] in
  chat_request req = true
  /\ model_of IndexJs req = VStr (js "chatgpt")
  /\ targets_of IndexJs w (js "chatgpt") = [kastg_target; deepenglish_target]
  /\ down w kastg_target
  /\ valid_answer w deepenglish_target (VStr (js "pong"))
  /\ status_of (Index.handler w req) = 500%Z
  /\ urls_of (Index.handler w req) = [ js "https://api.kastg.xyz/api/ai/chatgptv2" ].
Proof.
  repeat split.
  intros n payload. exists 200%Z, pong. repeat split.
Qed.

Lemma chain_nothing_plan (w : world) (plan : list planned) (chain : list candidate) :
  map fst plan = chain ->
  (forall c, In c chain -> answers_nothing w c) ->
  forall e, In e plan -> answers_nothing w (fst e).
Proof.
  intros <- H e He. apply H. now apply in_map.
Qed.

Lemma settle_usable_nothing_value (normalize : value -> M value) (r : fetch_result) :
  gives_nothing normalize r = true ->
  truthy (value_of (settle_usable normalize r)) = false.
Proof. intros H. now rewrite (settle_usable_nothing _ _ H). Qed.

Lemma walk_usable_exhausted (w : world) (plan : list planned) (s : state) :
  (forall e, In e plan -> answers_nothing w (fst e)) ->
  fst (walk settle_usable w plan s) = None.
Proof.
  intros H.
  pose proof (walk_exhausted settle_usable w settle_usable_nothing_value plan s H) as Hf.
  destruct (fst (walk settle_usable w plan s)) as [v|] eqn:E; [|reflexivity].
  apply walk_usable_truthy in E. cbn in Hf. congruence.
Qed.

(** C3 (amended).  For every chat request in which every candidate upstream
    of the model fails or returns unusable data, the chat layer does not
    throw past itself and the router answers HTTP 500 with a JSON body whose
    error is "Chat generation failed".  In api/index.js the body also has a
    model field, a string, which for a requested name of ASCII characters is
    that name in lower case; in part_000 the body has no model field. *)
Theorem C3_exhausted_chain_answers_500
    (d : deployment) (w : world) (req : request) (m : jstr) :
  chat_request req = true ->
  model_of d req = VStr m ->
  (forall c, In c (chain_of d w (toLowerCase_str m)) -> answers_nothing w c) ->
  fst (chat_layer d w req m (routed_state d)) = Ret tt
  /\ status_of (handler_of d w req) = 500%Z
  /\ field_of (body_of (handler_of d w req)) "error" = VStr (js "Chat generation failed")
  /\ exists name,
       lower_cased m name
       /\ body_of (handler_of d w req) = Json (chat_failed d name)
       /\ field_of (body_of (handler_of d w req)) "model"
          = match d with
            | IndexJs => VStr name
            | Part000Js => VUndef
            end.
Proof.
  intros Hreq Hmodel Hall.
  assert (Hrun : fst (chat_layer d w req m (routed_state d)) = Ret tt
                 /\ status_of (handler_of d w req) = 500%Z
                 /\ body_of (handler_of d w req) = Json (chat_failed d (toLowerCase_str m))).
  { unfold status_of, body_of, final.
    destruct d; cbn [handler_of chain_of chat_layer chat_failed] in *.
    - split; [apply handleChatRequest_total|].
      rewrite (index_routes_chat w req m Hreq Hmodel), handleChatRequest_run. cbn zeta.
      rewrite (walk_exhausted settle_returned w settle_returned_nothing).
      + repeat split.
      + eapply chain_nothing_plan; [apply index_plan_chain | exact Hall].
    - split; [apply handleChat_total|].
      rewrite (part000_routes_chat w req m Hreq Hmodel), handleChat_run. cbn zeta.
      pose proof (chain_nothing_plan w _ _
                    (part000_plan_chain (toLowerCase_str m) (prompt_of req) (history_of req))
                    Hall) as Hplan.
      unfold part000_plan in Hplan.
      destruct (Part000.api_url (toLowerCase_str m)) as [u|].
      + pose proof (Hplan _ (or_introl eq_refl) 0%nat
                      (primary_payload (prompt_of req) (history_of req))) as H0.
        cbn [fst c_url c_normalize] in H0.
        cbn [routed_state calls List.length].
        rewrite (settle_usable_nothing _ _ H0).
        rewrite walk_usable_exhausted.
        * repeat split.
        * intros e He. apply Hplan. right. exact He.
      + rewrite walk_usable_exhausted.
        * repeat split.
        * intros e He. apply Hplan. exact He. }
  destruct Hrun as (Hlayer & Hstatus & Hbody).
  split; [exact Hlayer|]. split; [exact Hstatus|]. rewrite Hbody.
  split; [destruct d; reflexivity|].
  exists (toLowerCase_str m). split; [intros _; reflexivity|].
  split; [reflexivity | destruct d; reflexivity].
Qed.

Lemma C3_exhausted_chain_answers_500_witness :
  let w := world_all (NetErr (js "unreachable")) in
  let req := post (VObj [(js "prompt", VStr (js "ping")); (js "model", VStr (js "Claude"))]) in
  fst (chat_layer IndexJs w req (js "Claude") (routed_state IndexJs)) = Ret tt
  /\ status_of (Index.handler w req) = 500%Z
  /\ field_of (body_of (Index.handler w req)) "error" = VStr (js "Chat generation failed")
  /\ body_of (Index.handler w req) = Json (index_chat_failed (js "claude"))
  /\ field_of (body_of (Index.handler w req)) "model" = VStr (js "claude").
Proof.
  destruct (C3_exhausted_chain_answers_500 IndexJs (world_all (NetErr (js "unreachable")))
              (post (VObj [(js "prompt", VStr (js "ping"));
                           (js "model", VStr (js "Claude"))]))
              (js "Claude") eq_refl eq_refl
              (fun c _ n payload => eq_refl))
    as (Hlayer & Hstatus & Herror & name & Hname & Hbody & Hfield).
  rewrite (Hname eq_refl) in Hbody, Hfield.
  repeat split; assumption.
Defined.

(** C3 as stated fails on part_000: the body of the HTTP 500 answer has the
    error and a message, and no model field. *)
Lemma C3_counterexample_part000_no_model :
  let w := world_all (NetErr (js "unreachable")) in
  let req := post (VObj [(js "prompt", VStr (js "ping")); (js "model", VStr (js "claude"))]) in
  status_of (Part000.handler w req) = 500%Z
  /\ body_of (Part000.handler w req) = Json part000_chat_failed
  /\ prop_of part000_chat_failed (js "error") = VStr (js "Chat generation failed")
  /\ prop_of part000_chat_failed (js "model") = VUndef.
Proof. repeat split. Qed.

Lemma key_not_configured (w : world) :
  GEMINI_API_KEY w = None \/ GEMINI_API_KEY w = Some Index.placeholder_key ->
  key_configured w = false.
Proof. unfold key_configured. intros [-> | ->]; reflexivity. Qed.

(** C7.  For every chat request with model "gemini" (in any letter case),
    when GEMINI_API_KEY is absent or equals the placeholder, the request is
    handled by the default chat strategy: tryGemini is tryChatGPT, the
    handler makes exactly the calls of tryChatGPT and answers with what it
    returns (HTTP 200 and the success envelope for a usable value, HTTP 500
    otherwise), under the model name "gemini"; a request for the model
    chatgpt with the same prompt and history gets the same calls, the same
    status and the same response.  Every upstream called is one of the
    chatgpt registry, and none is the gemini upstream. *)
Theorem C7_gemini_without_key_is_chatgpt (w : world) (req : request) (m : jstr) :
  chat_request req = true ->
  model_of IndexJs req = VStr m ->
  toLowerCase_str m = js "gemini" ->
  GEMINI_API_KEY w = None \/ GEMINI_API_KEY w = Some Index.placeholder_key ->
  let served :=
    Index.tryChatGPT w (prompt_of req) (history_of req) (routed_state IndexJs) in
  (forall s,
      Index.tryGemini w (prompt_of req) (history_of req) (param req "imageUrl" VNull) s
      = Index.tryChatGPT w (prompt_of req) (history_of req) s)
  /\ (exists v,
         fst served = Ret v
         /\ run (Index.handler w req)
            = (Ret tt,
               if truthy v
               then responded (cors "Content-Type, Authorization") 200
                      (chat_envelope w (js "gemini") v) (calls (snd served))
               else responded (cors "Content-Type, Authorization") 500
                      (index_chat_failed (js "gemini")) (calls (snd served))))
  /\ (forall req',
         chat_request req' = true ->
         model_of IndexJs req' = VStr (js "chatgpt") ->
         prompt_of req' = prompt_of req ->
         history_of req' = history_of req ->
         calls (final (Index.handler w req')) = calls (final (Index.handler w req))
         /\ status_of (Index.handler w req') = status_of (Index.handler w req)
         /\ field_of (body_of (Index.handler w req')) "response"
            = field_of (body_of (Index.handler w req)) "response")
  /\ (forall u, In u (urls_of (Index.handler w req)) ->
        In u (Index.chatgpt Index.WORKING_APIS) /\ starts_with gemini_base u = false).
Proof.
  intros Hreq Hmodel Hlower Hkey served. apply key_not_configured in Hkey.
  assert (Hplan : index_plan w (js "gemini") (prompt_of req) (history_of req)
                  = chatgpt_plan (prompt_of req) (history_of req)).
  { unfold index_plan. rewrite Hkey. reflexivity. }
  pose proof (walk_res settle_returned w
                (chatgpt_plan (prompt_of req) (history_of req))
                (routed_state IndexJs)) as Hres.
  assert (Hrun : run (Index.handler w req)
                 = (Ret tt,
                    if truthy (value_of (fst (walk settle_returned w
                                 (chatgpt_plan (prompt_of req) (history_of req))
                                 (routed_state IndexJs))))
                    then responded (cors "Content-Type, Authorization") 200
                           (chat_envelope w (js "gemini")
                              (value_of (fst (walk settle_returned w
                                 (chatgpt_plan (prompt_of req) (history_of req))
                                 (routed_state IndexJs)))))
                           (calls (snd served))
                    else responded (cors "Content-Type, Authorization") 500
                           (index_chat_failed (js "gemini")) (calls (snd served)))).
  { subst served.
    rewrite (index_routes_chat w req m Hreq Hmodel), handleChatRequest_run. cbn zeta.
    rewrite Hlower, Hplan, tryChatGPT_walk. cbn [snd].
    destruct (truthy _); unfold res_json; rewrite Hres; reflexivity. }
  split; [|split; [|split]].
  - intros s. unfold Index.tryGemini. rewrite gemini_key_test, Hkey. reflexivity.
  - eexists. split; [|exact Hrun].
    subst served. rewrite tryChatGPT_walk. reflexivity.
  - intros req' Hreq' Hmodel' Hp Hh.
    unfold status_of, body_of, final. rewrite Hrun.
    rewrite (index_routes_chat w req' (js "chatgpt") Hreq' Hmodel'), handleChatRequest_run.
    cbn zeta. rewrite Hp, Hh.
    change (index_plan w (toLowerCase_str (js "chatgpt")) (prompt_of req) (history_of req))
      with (chatgpt_plan (prompt_of req) (history_of req)).
    subst served. rewrite tryChatGPT_walk. cbn [snd].
    destruct (truthy _); repeat split.
  - intros u. unfold urls_of, final. rewrite Hrun. subst served.
    rewrite tryChatGPT_walk. cbn [snd].
    intros Hu.
    assert (Hu' : In u (map call_url
                          (calls (snd (walk settle_returned w
                                         (chatgpt_plan (prompt_of req) (history_of req))
                                         (routed_state IndexJs)))))).
    { destruct (truthy _) in Hu; exact Hu. }
    apply walk_calls_in_plan in Hu' as [[]|Hin].
    cbn in Hin. destruct Hin as [<- | [<- | []]]; split; try reflexivity.
    + left. reflexivity.
    + right. left. reflexivity.
Qed.

Lemma C7_gemini_without_key_is_chatgpt_witness :
  let w := world_first_down in
  let req := post (VObj [(js "prompt", VStr (js "ping")); (js "model", VStr (js "Gemini"))]) in
  let served :=
    Index.tryChatGPT w (prompt_of req) (history_of req) (routed_state IndexJs) in
  (forall s,
      Index.tryGemini w (prompt_of req) (history_of req) (param req "imageUrl" VNull) s
      = Index.tryChatGPT w (prompt_of req) (history_of req) s)
  /\ (exists v,
         fst served = Ret v
         /\ run (Index.handler w req)
            = (Ret tt,
               if truthy v
               then responded (cors "Content-Type, Authorization") 200
                      (chat_envelope w (js "gemini") v) (calls (snd served))
               else responded (cors "Content-Type, Authorization") 500
                      (index_chat_failed (js "gemini")) (calls (snd served))))
  /\ (forall req',
         chat_request req' = true ->
         model_of IndexJs req' = VStr (js "chatgpt") ->
         prompt_of req' = prompt_of req ->
         history_of req' = history_of req ->
         calls (final (Index.handler w req')) = calls (final (Index.handler w req))
         /\ status_of (Index.handler w req') = status_of (Index.handler w req)
         /\ field_of (body_of (Index.handler w req')) "response"
            = field_of (body_of (Index.handler w req)) "response")
  /\ (forall u, In u (urls_of (Index.handler w req)) ->
        In u (Index.chatgpt Index.WORKING_APIS) /\ starts_with gemini_base u = false).
Proof.
  apply (C7_gemini_without_key_is_chatgpt world_first_down
           (post (VObj [(js "prompt", VStr (js "ping")); (js "model", VStr (js "Gemini"))]))
           (js "Gemini")).
  - reflexivity.
  - reflexivity.
  - reflexivity.
  - left. reflexivity.
Defined.

(** In api/index.js any 2xx answer with a parsed body that is not null ends
    [tryChatGPT] after its first call, whatever the body holds. *)
Lemma tryChatGPT_returns_on_2xx (w : world) (prompt : value) (turns : list value)
    (s : state) (st : Z) (data : value) :
  let url := Index.at_ (Index.chatgpt Index.WORKING_APIS) 0 in
  let payload := VObj [(js "prompt", prompt); (js "history", VArr (last_n 5 turns))] in
  upstream w (List.length (calls s)) url payload = Resp st (Some data) ->
  ok_status st = true ->
  is_nullish data = false ->
  Index.tryChatGPT w prompt (VArr turns) s
  = (Ret (or_else (prop_of data (js "response"))
            (or_else (prop_of data (js "message")) (prop_of data (js "result")))),
     log s url payload).
Proof.
  intros url payload Hup Hok Hd. rewrite tryChatGPT_walk.
  unfold chatgpt_plan. cbn [walk c_url c_normalize].
  change (built (Index.kastg_body prompt (VArr turns))) with (Some payload).
  cbv beta iota. fold url. fold payload. rewrite Hup.
  unfold settle_returned. rewrite Hok.
  unfold extract, Index.normalize_generic, orM, bind, get_prop, or_else.
  rewrite Hd. cbn [ret fst].
  destruct (truthy (prop_of data (js "response"))); [reflexivity|].
  cbn [fst]. destruct (truthy (prop_of data (js "message"))); reflexivity.
Qed.

(** C1 (the code departs from it).  In api/index.js a 2xx answer whose body
    has none of the expected fields ends the search: the first chatgpt
    upstream answers 200 with [{}], the second candidate would answer with a
    usable body, yet it is never called and the handler answers HTTP 500
    "All APIs failed".  On the same world part_000 goes on to its next
    candidate and answers HTTP 200. *)
Theorem C1_unusable_body_ends_the_search :
  let req := chat_post "ping" in
  let w := world_first_empty in
  gives_nothing Index.normalize_generic
    (upstream w 0 (js "https://api.kastg.xyz/api/ai/chatgptv2") VNull) = true
  /\ failed (upstream w 0 (js "https://api.kastg.xyz/api/ai/chatgptv2") VNull) = false
  /\ answers w deepenglish (VStr (js "pong"))
  /\ urls_of (Index.handler w req) = [ js "https://api.kastg.xyz/api/ai/chatgptv2" ]
  /\ status_of (Index.handler w req) = 500%Z
  /\ body_of (Index.handler w req) = Json (index_chat_failed (js "chatgpt"))
  /\ urls_of (Part000.handler w req)
     = [ js "https://api.guruapi.tech/ai/gpt4"; js "https://widipe.com/openai" ]
  /\ status_of (Part000.handler w req) = 200%Z.
Proof.
  repeat split.
  intros n payload. exists 200%Z, pong_any. repeat split.
Qed.

(* ================================================================== *)
(** ** The handlers at large: every request is answered *)
(* ================================================================== *)


Lemma stateless_encodeURIComponent (p : value) : stateless (encodeURIComponent p).
Proof.
  intros ?. unfold encodeURIComponent.
  destruct (to_string p) as [t|]; [destruct (encodeURIComponent_str t)|]; reflexivity.
Qed.

Lemma handleImageGeneration_run (w : world) (p : value) (st : state) :
  truthy p = true ->
  Index.handleImageGeneration w p st
  = match encoded p with
    | Ret e => res_json 200 (index_image_envelope w p (index_image_url e)) st
    | Throw err =>
        let st1 := log st (call_url (stable_diffusion_call p))
                     (call_body (stable_diffusion_call p)) in
        match upstream w (List.length (calls st)) (call_url (stable_diffusion_call p))
                (call_body (stable_diffusion_call p)) with
        | Resp code (Some data) =>
            if (ok_status code && negb (is_nullish data))%bool
            then res_json 200
                   (stable_diffusion_envelope w p
                      (or_else (prop_of data (js "url")) (prop_of data (js "image"))))
                   st1
            else res_json 500 (image_failed (message err)) st1
        | Resp _ None | NetErr _ => res_json 500 (image_failed (message err)) st1
        end
    end.
Proof.
  intros Hp. unfold Index.handleImageGeneration. rewrite Hp. cbn [negb].
  unfold try_catch at 1. unfold bind at 1.
  rewrite (stateless_encodeURIComponent p st). fold (encoded p).
  destruct (encoded p) as [e|err]; [reflexivity|].
  cbv zeta. cbn [stable_diffusion_call call_url call_body].
  unfold try_catch, bind, fetch, ok, ok_status, log.
  destruct (upstream w _ _ _) as [msg|code [data|]]; cbn [resp_status resp_parsed];
    try reflexivity.
  - destruct (Z.leb 200 code && Z.leb code 299)%bool; [|reflexivity].
    unfold json. cbn [resp_parsed andb]. unfold ret at 1.
    rewrite normalize_image_run.
    unfold extract, Index.normalize_image, orM, bind, get_prop, or_else.
    destruct (is_nullish data); [reflexivity|]. cbn [negb ret fst].
    destruct (truthy (prop_of data (js "url"))); reflexivity.
  - destruct (Z.leb 200 code && Z.leb code 299)%bool; reflexivity.
Qed.

Lemma handleImageGen_run (w : world) (p : value) (st : state) :
  Part000.handleImageGen w p st
  = if truthy p then
      match encoded p with
      | Ret e => res_json 200 (part000_image_envelope w p (part000_image_url e)) st
      | Throw _ =>
          let st1 := log st (call_url (dalle_call p)) (call_body (dalle_call p)) in
          match upstream w (List.length (calls st)) (call_url (dalle_call p))
                  (call_body (dalle_call p)) with
          | NetErr msg => res_json 500 (image_failed msg) st1
          | Resp _ None => res_json 500 (image_failed (js "Unexpected token in JSON")) st1
          | Resp _ (Some data) =>
              if is_nullish data
              then res_json 500
                     (image_failed (js "Cannot read properties of null or undefined")) st1
              else res_json 200
                     (dalle_envelope w p
                        (or_else
                           (opt_prop (opt_index0 (prop_of data (js "data"))) (js "url"))
                           VNull))
                     st1
          end
      end
    else res_json 400 image_prompt_required st.
Proof.
  unfold Part000.handleImageGen. destruct (truthy p); cbn [negb]; [|reflexivity].
  unfold try_catch at 1. unfold bind at 1.
  rewrite (stateless_encodeURIComponent p st). fold (encoded p).
  destruct (encoded p) as [e|err]; [reflexivity|].
  cbv zeta. cbn [dalle_call call_url call_body].
  unfold try_catch, bind, fetch, log.
  destruct (upstream w _ _ _) as [msg|code [data|]]; try reflexivity.
  unfold json. cbn [resp_parsed]. unfold ret, get_prop.
  destruct (is_nullish data); reflexivity.
Qed.

Lemma try_catch_ret_tt (m : M unit) (h : exn -> M unit) (s : state) :
  fst (m s) = Ret tt -> try_catch m h s = m s.
Proof.
  unfold try_catch. destruct (m s) as [[[]|e] s']; cbn; [reflexivity | discriminate].
Qed.

Lemma index_handler_run (w : world) (req : request) :
  run (Index.handler w req)
  = if jstr_eqb (method req) (js "OPTIONS")
    then (Ret tt, preflight_state (cors "Content-Type, Authorization"))
    else if is_nullish (params_of req)
    then (Ret tt, responded (cors "Content-Type, Authorization") 500
                    (internal_error (js "Cannot read properties of null or undefined")) [])
    else if (negb (truthy (prompt_of req))
             && negb (strict_eq_str (action_of req) (js "test")))%bool
    then (Ret tt, responded (cors "Content-Type, Authorization") 400
                    index_missing_prompt [])
    else if strict_eq_str (action_of req) (js "test")
    then (Ret tt, responded (cors "Content-Type, Authorization") 200 (status_payload w) [])
    else if strict_eq_str (action_of req) (js "image")
    then Index.handleImageGeneration w (prompt_of req) (routed_state IndexJs)
    else match model_of IndexJs req with
         | VStr m =>
             Index.handleChatRequest w (prompt_of req) (VStr m) (history_of req)
               (param req "imageUrl" VNull) (routed_state IndexJs)
         | VUndef | VNull =>
             (Ret tt, responded (cors "Content-Type, Authorization") 500
                        (internal_error (js "Cannot read properties of null or undefined"))
                        [])
         | _ =>
             (Ret tt, responded (cors "Content-Type, Authorization") 500
                        (internal_error (js "toLowerCase is not a function")) [])
         end.
Proof.
  unfold Index.handler. plumb.
  destruct (jstr_eqb (method req) (js "OPTIONS")); [reflexivity|].
  unfold get_prop. destruct (is_nullish (params_of req)); [reflexivity|].
  plumb. fold (prompt_of req). fold (action_of req). fold (history_of req).
  destruct (negb (truthy (prompt_of req))
            && negb (strict_eq_str (action_of req) (js "test")))%bool; [reflexivity|].
  destruct (strict_eq_str (action_of req) (js "test")); [reflexivity|].
  destruct (strict_eq_str (action_of req) (js "image")).
  - destruct (handleImageGeneration_total w (prompt_of req) (routed_state IndexJs))
      as [st' E].
    unfold routed_state, cors in E. cbn [app]. rewrite E. rewrite <- E. reflexivity.
  - cbn [model_of].
    destruct (param req "model" (VStr (js "chatgpt"))) as [| | | |m| |] eqn:Em;
      try reflexivity.
    pose proof (handleChatRequest_total w (prompt_of req) m (history_of req)
                  (param req "imageUrl" VNull) (routed_state IndexJs)) as Htot.
    unfold routed_state, cors in Htot. cbn [app].
    destruct (Index.handleChatRequest w _ _ _ _ _) as [o s'] eqn:E.
    cbn [fst] in Htot. subst o. reflexivity.
Qed.

Lemma part000_handler_run (w : world) (req : request) :
  run (Part000.handler w req)
  = if jstr_eqb (method req) (js "OPTIONS")
    then (Ret tt, preflight_state (cors "Content-Type"))
    else if is_nullish (params_of req)
    then (Ret tt, responded (cors "Content-Type") 500
                    (internal_error (js "Cannot read properties of null or undefined")) [])
    else if (negb (truthy (prompt_of req))
             && strict_eq_str (action_of req) (js "chat"))%bool
    then (Ret tt, responded (cors "Content-Type") 400 part000_prompt_required [])
    else if strict_eq_str (action_of req) (js "image")
    then Part000.handleImageGen w (prompt_of req) (routed_state Part000Js)
    else match model_of Part000Js req with
         | VStr m =>
             Part000.handleChat w (prompt_of req) (VStr m) (history_of req)
               (routed_state Part000Js)
         | VUndef | VNull =>
             (Ret tt, responded (cors "Content-Type") 500
                        (internal_error (js "Cannot read properties of null or undefined"))
                        [])
         | _ =>
             (Ret tt, responded (cors "Content-Type") 500
                        (internal_error (js "toLowerCase is not a function")) [])
         end.
Proof.
  unfold Part000.handler. plumb.
  destruct (jstr_eqb (method req) (js "OPTIONS")); [reflexivity|].
  unfold get_prop. destruct (is_nullish (params_of req)); [reflexivity|].
  plumb. fold (prompt_of req). fold (action_of req). fold (history_of req).
  destruct (negb (truthy (prompt_of req))
            && strict_eq_str (action_of req) (js "chat"))%bool; [reflexivity|].
  destruct (strict_eq_str (action_of req) (js "image")).
  - destruct (handleImageGen_total w (prompt_of req) (routed_state Part000Js))
      as [st' E].
    unfold routed_state, cors in E. cbn [app]. rewrite E. rewrite <- E. reflexivity.
  - cbn [model_of].
    destruct (param req "model" (VStr (js "gpt4"))) as [| | | |m| |] eqn:Em;
      try reflexivity.
    pose proof (handleChat_total w (prompt_of req) m (history_of req)
                  (routed_state Part000Js)) as Htot.
    unfold routed_state, cors in Htot. cbn [app].
    destruct (Part000.handleChat w _ _ _ _) as [o s'] eqn:E.
    cbn [fst] in Htot. subst o. reflexivity.
Qed.

Lemma handleImageGeneration_answers (w : world) (p : value) (st : state) :
  json_answer st (snd (Index.handleImageGeneration w p st)).
Proof.
  destruct (truthy p) eqn:Hp.
  - rewrite (handleImageGeneration_run w p st Hp).
    destruct (encoded p) as [e|err]; [repeat split; discriminate|].
    cbv zeta.
    destruct (upstream w _ _ _) as [msg|code [data|]];
      try (repeat split; discriminate).
    destruct (ok_status code && negb (is_nullish data))%bool; repeat split; discriminate.
  - unfold Index.handleImageGeneration. rewrite Hp. repeat split; discriminate.
Qed.

Lemma handleImageGen_answers (w : world) (p : value) (st : state) :
  json_answer st (snd (Part000.handleImageGen w p st)).
Proof.
  rewrite handleImageGen_run.
  destruct (truthy p); [|repeat split; discriminate].
  destruct (encoded p) as [e|err]; [repeat split; discriminate|].
  cbv zeta.
  destruct (upstream w _ _ _) as [msg|code [data|]];
    try (repeat split; discriminate).
  destruct (is_nullish data); repeat split; discriminate.
Qed.

Lemma handleChatRequest_answers (w : world) (prompt : value) (m : jstr)
    (history imageUrl : value) (st : state) :
  json_answer st (snd (Index.handleChatRequest w prompt (VStr m) history imageUrl st)).
Proof.
  rewrite handleChatRequest_run. cbv zeta.
  match goal with
  | |- context [walk settle_returned w ?plan st] =>
      pose proof (walk_res settle_returned w plan st) as Hres
  end.
  destruct (truthy _); unfold json_answer, res_json; cbn [snd res headers statusCode sent_body];
    rewrite Hres; repeat split; discriminate.
Qed.

Lemma handleChat_answers (w : world) (prompt : value) (m : jstr) (history : value)
    (st : state) :
  json_answer st (snd (Part000.handleChat w prompt (VStr m) history st)).
Proof.
  rewrite handleChat_run. cbv zeta.
  destruct (Part000.api_url _) as [u|].
  - destruct (settle_usable Part000.normalize_primary _);
      [repeat split; discriminate|].
    match goal with
    | |- context [walk settle_usable w ?plan ?s] =>
        pose proof (walk_res settle_usable w plan s) as Hres
    end.
    destruct (fst (walk _ _ _ _)); unfold json_answer, res_json;
      cbn [snd res headers statusCode sent_body]; rewrite Hres;
      repeat split; discriminate.
  - match goal with
    | |- context [walk settle_usable w ?plan ?s] =>
        pose proof (walk_res settle_usable w plan s) as Hres
    end.
    destruct (fst (walk _ _ _ _)); unfold json_answer, res_json;
      cbn [snd res headers statusCode sent_body]; rewrite Hres;
      repeat split; discriminate.
Qed.

(** X1.  The handler of api/index.js answers every request: it never throws,
    the three CORS headers are on the response, the status is 200 for an
    empty body or a JSON body without error field and 400 or 500 for a JSON
    body with an error string, and the body is empty exactly for the OPTIONS
    pre-flight, which makes no upstream call. *)
Theorem index_handler_always_answers (w : world) (req : request) :
  fst (run (Index.handler w req)) = Ret tt
  /\ headers (res (final (Index.handler w req))) = cors "Content-Type, Authorization"
  /\ answered (res (final (Index.handler w req))) = true
  /\ (sent_body (res (final (Index.handler w req))) = Ended
      <-> method req = js "OPTIONS")
  /\ (if jstr_eqb (method req) (js "OPTIONS")
      then urls_of (Index.handler w req) = []
      else True).
Proof.
  unfold urls_of, final. rewrite index_handler_run.
  destruct (jstr_eqb (method req) (js "OPTIONS")) eqn:Hm.
  { apply jstr_eqb_eq in Hm. repeat split; auto. }
  cut (fst (run (Index.handler w req)) = Ret tt
       /\ headers (res (final (Index.handler w req))) = cors "Content-Type, Authorization"
       /\ answered (res (final (Index.handler w req))) = true
       /\ (sent_body (res (final (Index.handler w req))) = Ended
           <-> method req = js "OPTIONS")).
  { unfold final. rewrite index_handler_run, Hm. tauto. }
  unfold final. rewrite index_handler_run, Hm.
  assert (Hne : method req <> js "OPTIONS").
  { intros E. apply jstr_eqb_eq in E. congruence. }
  assert (Hsplit : forall st' : state,
             json_answer (routed_state IndexJs) st' ->
             headers (res st') = cors "Content-Type, Authorization"
             /\ answered (res st') = true
             /\ (sent_body (res st') = Ended <-> method req = js "OPTIONS")).
  { intros st' (Hh & Ha & Hs). repeat split; auto; intros; contradiction. }
  destruct (is_nullish (params_of req)).
  { split; [reflexivity|]. apply Hsplit. repeat split; discriminate. }
  destruct (negb (truthy (prompt_of req)) && _)%bool.
  { split; [reflexivity|]. apply Hsplit. repeat split; discriminate. }
  destruct (strict_eq_str (action_of req) (js "test")).
  { split; [reflexivity|]. apply Hsplit. repeat split; discriminate. }
  destruct (strict_eq_str (action_of req) (js "image")).
  { split.
    - destruct (handleImageGeneration_total w (prompt_of req) (routed_state IndexJs))
        as [st' E]. now rewrite E.
    - apply Hsplit, handleImageGeneration_answers. }
  destruct (model_of IndexJs req) as [| | | |m| |];
    try (split; [reflexivity|]; apply Hsplit; repeat split; discriminate).
  split; [apply handleChatRequest_total|].
  apply Hsplit, handleChatRequest_answers.
Qed.

(** X2.  The handler of part_000 answers every request in the same way: no
    exception escapes, the CORS headers are set, status and body agree, and
    only the OPTIONS pre-flight has an empty body. *)
Theorem part000_handler_always_answers (w : world) (req : request) :
  fst (run (Part000.handler w req)) = Ret tt
  /\ headers (res (final (Part000.handler w req))) = cors "Content-Type"
  /\ answered (res (final (Part000.handler w req))) = true
  /\ (sent_body (res (final (Part000.handler w req))) = Ended
      <-> method req = js "OPTIONS")
  /\ (if jstr_eqb (method req) (js "OPTIONS")
      then urls_of (Part000.handler w req) = []
      else True).
Proof.
  unfold urls_of, final. rewrite part000_handler_run.
  destruct (jstr_eqb (method req) (js "OPTIONS")) eqn:Hm.
  { apply jstr_eqb_eq in Hm. repeat split; auto. }
  cut (fst (run (Part000.handler w req)) = Ret tt
       /\ headers (res (final (Part000.handler w req))) = cors "Content-Type"
       /\ answered (res (final (Part000.handler w req))) = true
       /\ (sent_body (res (final (Part000.handler w req))) = Ended
           <-> method req = js "OPTIONS")).
  { unfold final. rewrite part000_handler_run, Hm. tauto. }
  unfold final. rewrite part000_handler_run, Hm.
  assert (Hne : method req <> js "OPTIONS").
  { intros E. apply jstr_eqb_eq in E. congruence. }
  assert (Hsplit : forall st' : state,
             json_answer (routed_state Part000Js) st' ->
             headers (res st') = cors "Content-Type"
             /\ answered (res st') = true
             /\ (sent_body (res st') = Ended <-> method req = js "OPTIONS")).
  { intros st' (Hh & Ha & Hs). repeat split; auto; intros; contradiction. }
  destruct (is_nullish (params_of req)).
  { split; [reflexivity|]. apply Hsplit. repeat split; discriminate. }
  destruct (negb (truthy (prompt_of req)) && _)%bool.
  { split; [reflexivity|]. apply Hsplit. repeat split; discriminate. }
  destruct (strict_eq_str (action_of req) (js "image")).
  { split.
    - destruct (handleImageGen_total w (prompt_of req) (routed_state Part000Js))
        as [st' E]. now rewrite E.
    - apply Hsplit, handleImageGen_answers. }
  destruct (model_of Part000Js req) as [| | | |m| |];
    try (split; [reflexivity|]; apply Hsplit; repeat split; discriminate).
  split; [apply handleChat_total|].
  apply Hsplit, handleChat_answers.
Qed.

(** X3.  What the router does not expect ends in its catch-all before any
    upstream call: a request without parameter object (a POST without body)
    and a chat request whose model is not a string are answered HTTP 500
    "Internal server error", in both deployments. *)
Theorem unexpected_input_is_internal_error (d : deployment) (w : world) (req : request) :
  jstr_eqb (method req) (js "OPTIONS") = false ->
  (if is_nullish (params_of req) then true
   else chat_request req && negb (is_string (model_of d req)))%bool = true ->
  exists msg,
    run (handler_of d w req)
    = (Ret tt, responded (headers (res (routed_state d))) 500 (internal_error msg) []).
Proof.
  intros Hm H. destruct (is_nullish (params_of req)) eqn:Hq.
  - destruct d; cbn [handler_of];
      [rewrite index_handler_run | rewrite part000_handler_run];
      rewrite Hm, Hq; eexists; reflexivity.
  - apply andb_true_iff in H as [Hreq Hmodel]. apply negb_true_iff in Hmodel.
    apply chat_request_inv in Hreq as (Hr & Hp & Ht & Hi).
    destruct d; cbn [handler_of].
    + rewrite index_handler_run, Hm, Hq, Hp, Ht, Hi. cbn [negb andb].
      destruct (model_of IndexJs req); try discriminate; eexists; reflexivity.
    + rewrite part000_handler_run, Hm, Hq, Hp, Hi. cbn [negb andb].
      destruct (model_of Part000Js req); try discriminate; eexists; reflexivity.
Qed.

Lemma unexpected_input_is_internal_error_witness :
  exists msg,
    run (Index.handler (world_all (Resp 200 (Some pong)))
           (post (VObj [(js "prompt", VStr (js "ping")); (js "model", VNum 4)])))
    = (Ret tt, responded (cors "Content-Type, Authorization") 500 (internal_error msg) []).
Proof.
  apply (unexpected_input_is_internal_error IndexJs (world_all (Resp 200 (Some pong)))
           (post (VObj [(js "prompt", VStr (js "ping")); (js "model", VNum 4)])));
    reflexivity.
Defined.

Lemma NoDup_map_filter_firstn {A B} (f : A -> B) (g : A -> bool) (k : nat) (l : list A) :
  NoDup (map f l) -> NoDup (map f (filter g (firstn k l))).
Proof.
  revert k. induction l as [|x l IH]; intros k H.
  - destruct k; constructor.
  - destruct k as [|k]; [constructor|].
    cbn [firstn filter]. inversion H as [|? ? Hx Hl]; subst.
    destruct (g x); [|apply IH, Hl].
    cbn [map]. constructor; [|apply IH, Hl].
    intros Hin. apply Hx.
    apply in_map_iff in Hin as (y & Hy & Hin). apply in_map_iff. exists y.
    split; [exact Hy|]. apply filter_In in Hin as [Hin _].
    revert Hin. clear. revert l. induction k as [|k IHk]; intros [|z l]; cbn; try tauto.
    intros [->|H]; [now left | right; now apply IHk].
Qed.

Lemma length_map_filter_firstn {A B} (f : A -> B) (g : A -> bool) (k : nat) (l : list A) :
  (List.length (map f (filter g (firstn k l))) <= List.length l)%nat.
Proof.
  rewrite length_map.
  revert k. induction l as [|x l IH]; intros [|k]; cbn; try lia.
  destruct (g x); cbn; specialize (IH k); lia.
Qed.

Lemma starts_with_app (p x : jstr) : starts_with p (p ++ x) = true.
Proof. induction p as [|c p IH]; cbn; [reflexivity|]. now rewrite N.eqb_refl. Qed.

Lemma gemini_url_fresh (w : world) :
  ~ In (Index.gemini_url w) (Index.chatgpt Index.WORKING_APIS).
Proof.
  intros Hin.
  assert (Hs : starts_with gemini_base (Index.gemini_url w) = true)
    by apply starts_with_app.
  unfold Index.chatgpt, Index.WORKING_APIS in Hin. cbn [In] in Hin.
  destruct Hin as [E | [E | []]]; rewrite <- E in Hs; vm_compute in Hs; discriminate.
Qed.

Lemma index_plan_distinct (w : world) (model : jstr) (prompt history : value) :
  NoDup (map (fun e : planned => c_url (fst e)) (index_plan w model prompt history))
  /\ (List.length (index_plan w model prompt history) <= 3)%nat.
Proof.
  assert (Hc : NoDup (Index.chatgpt Index.WORKING_APIS)).
  { repeat constructor; cbn; intuition discriminate. }
  unfold index_plan.
  repeat match goal with
         | |- context [if ?b then _ else _] => destruct b
         end; cbn [map fst c_url chatgpt_plan List.length];
    (split; [|lia]); try exact Hc; try (repeat constructor; cbn; tauto).
  constructor; [apply gemini_url_fresh | exact Hc].
Qed.

Lemma api_url_registry (model u : jstr) :
  Part000.api_url model = Part000.Url u -> In u (map snd Part000.APIS).
Proof.
  unfold Part000.api_url.
  destruct (Part000.own_url model Part000.APIS) as [x|] eqn:E.
  - intros H. injection H as <-. revert E. generalize Part000.APIS.
    induction l as [|[k v] l IH]; cbn; [discriminate|].
    destruct (jstr_eqb model k); [intros H; injection H as ->; now left|].
    intros H. right. now apply IH.
  - destruct (_ || _)%bool; [discriminate|]. intros H. injection H as <-.
    left. reflexivity.
Qed.

Lemma part000_plan_distinct (model : jstr) (prompt history : value) :
  NoDup (map (fun e : planned => c_url (fst e)) (part000_plan model prompt history))
  /\ (List.length (part000_plan model prompt history) <= 3)%nat.
Proof.
  unfold part000_plan.
  destruct (Part000.api_url model) as [u|] eqn:E.
  - apply api_url_registry in E. split; [|cbn; lia].
    cbn in E |- *.
    destruct E as [<- | [<- | [<- | [<- | [<- | []]]]]];
      repeat constructor; cbn; intuition discriminate.
  - split; [|cbn; lia]. repeat constructor; cbn; intuition discriminate.
Qed.

(** The walk of part_000's chat handler over its whole plan. *)
Lemma handleChat_calls (w : world) (prompt : value) (m : jstr) (history : value)
    (st : state) :
  calls (snd (Part000.handleChat w prompt (VStr m) history st))
  = calls (snd (walk settle_usable w
                  (part000_plan (toLowerCase_str m) prompt history) st)).
Proof.
  rewrite handleChat_run. cbv zeta. unfold part000_plan.
  destruct (Part000.api_url _) as [u|]; cbn [app walk c_url c_normalize].
  - destruct (settle_usable Part000.normalize_primary _); [reflexivity|].
    destruct (fst (walk _ _ _ _)); reflexivity.
  - destruct (fst (walk _ _ _ _)); reflexivity.
Qed.

Lemma handleChatRequest_calls (w : world) (prompt : value) (m : jstr)
    (history imageUrl : value) (st : state) :
  calls (snd (Index.handleChatRequest w prompt (VStr m) history imageUrl st))
  = calls (snd (walk settle_returned w
                  (index_plan w (toLowerCase_str m) prompt history) st)).
Proof.
  rewrite handleChatRequest_run. cbv zeta. destruct (truthy _); reflexivity.
Qed.

Lemma walk_calls_bounded (settle : (value -> M value) -> fetch_result -> returned)
    (w : world) (plan : list planned) (st : state) :
  calls st = [] ->
  NoDup (map (fun e : planned => c_url (fst e)) plan) ->
  NoDup (map call_url (calls (snd (walk settle w plan st))))
  /\ (List.length (map call_url (calls (snd (walk settle w plan st))))
      <= List.length plan)%nat.
Proof.
  intros Hst Hnd. destruct (walk_calls settle w plan st) as [k Hk].
  rewrite Hk, Hst. cbn [map app]. split.
  - apply NoDup_map_filter_firstn, Hnd.
  - apply length_map_filter_firstn.
Qed.

(** X4.  Whatever the request and whatever the upstreams answer, a handler
    makes at most three upstream calls and never calls the same address
    twice: nothing is retried. *)
Theorem calls_are_few_and_distinct (d : deployment) (w : world) (req : request) :
  NoDup (urls_of (handler_of d w req))
  /\ (List.length (urls_of (handler_of d w req)) <= 3)%nat.
Proof.
  unfold urls_of, final.
  assert (H0 : forall st : state, calls st = [] ->
             NoDup (map call_url (calls st))
             /\ (List.length (map call_url (calls st)) <= 3)%nat).
  { intros st ->. split; [constructor | cbn; lia]. }
  destruct d; cbn [handler_of].
  - rewrite index_handler_run.
    repeat match goal with
           | |- context [if ?b then _ else _] => destruct b; [now apply H0|]
           end.
    destruct (strict_eq_str (action_of req) (js "image")).
    + destruct (truthy (prompt_of req)) eqn:Hp.
      * rewrite (handleImageGeneration_run w _ _ Hp).
        destruct (encoded _); [now apply H0|]. cbv zeta.
        destruct (upstream w _ _ _) as [msg|code [data|]];
          try destruct (ok_status code && negb (is_nullish data))%bool;
          cbn; (split; [repeat constructor; cbn; tauto | lia]).
      * unfold Index.handleImageGeneration. rewrite Hp. now apply H0.
    + destruct (model_of IndexJs req) as [| | | |m| |]; try now apply H0.
      rewrite handleChatRequest_calls.
      destruct (index_plan_distinct w (toLowerCase_str m) (prompt_of req) (history_of req))
        as [Hnd Hlen].
      destruct (walk_calls_bounded settle_returned w _ (routed_state IndexJs) eq_refl Hnd)
        as [H1 H2].
      split; [exact H1 | lia].
  - rewrite part000_handler_run.
    repeat match goal with
           | |- context [if ?b then _ else _] => destruct b; [now apply H0|]
           end.
    destruct (strict_eq_str (action_of req) (js "image")).
    + rewrite handleImageGen_run.
      destruct (truthy (prompt_of req)); [|now apply H0].
      destruct (encoded _); [now apply H0|]. cbv zeta.
      destruct (upstream w _ _ _) as [msg|code [data|]];
        try destruct (is_nullish data);
        cbn; (split; [repeat constructor; cbn; tauto | lia]).
    + destruct (model_of Part000Js req) as [| | | |m| |]; try now apply H0.
      rewrite handleChat_calls.
      destruct (part000_plan_distinct (toLowerCase_str m) (prompt_of req) (history_of req))
        as [Hnd Hlen].
      destruct (walk_calls_bounded settle_usable w _ (routed_state Part000Js) eq_refl Hnd)
        as [H1 H2].
      split; [exact H1 | lia].
Qed.

(* ================================================================== *)
(** ** What is sent upstream *)
(* ================================================================== *)


Lemma last_n_suffix {A} (n : nat) (l : list A) :
  firstn (List.length l - n) l ++ last_n n l = l.
Proof. unfold last_n. apply firstn_skipn. Qed.

Lemma last_n_length {A} (n : nat) (l : list A) :
  List.length (last_n n l) = Nat.min n (List.length l).
Proof. unfold last_n. rewrite length_skipn. lia. Qed.

(** Every call of a walk is a candidate of the plan with the request body
    planned for it. *)
Lemma walk_calls_entries (settle : (value -> M value) -> fetch_result -> returned)
    (w : world) (plan : list planned) (s : state) (c : call) :
  In c (calls (snd (walk settle w plan s))) ->
  In c (calls s)
  \/ exists cand, In (cand, Some (call_body c)) plan /\ c_url cand = call_url c.
Proof.
  revert s. induction plan as [|[cand [p|]] rest IH]; intros s; cbn [walk].
  - now left.
  - assert (Hlog : forall c', In c' (calls (log s (c_url cand) p)) ->
               In c' (calls s)
               \/ (call_body c' = p /\ call_url c' = c_url cand)).
    { intros c' H. cbn in H. apply in_app_or in H as [H|[<-|[]]]; auto. }
    destruct (settle _ _).
    + cbn [snd]. intros H. apply Hlog in H as [H|[H1 H2]]; [now left|right].
      exists cand. split; [left; now rewrite H1 | now rewrite H2].
    + intros H. apply IH in H as [H|(cand' & Hin & Hu)].
      * apply Hlog in H as [H|[H1 H2]]; [now left|right].
        exists cand. split; [left; now rewrite H1 | now rewrite H2].
      * right. exists cand'. split; [now right | exact Hu].
  - intros H. apply IH in H as [H|(cand' & Hin & Hu)]; [now left|right].
    exists cand'. split; [now right | exact Hu].
Qed.

Lemma mapM_turn_of_run (l : list value) (s : state) :
  forallb (fun h => negb (is_nullish h)) l = true ->
  mapM Index.turn_of l s = (Ret (map turn l), s).
Proof.
  induction l as [|h l IH]; cbn [forallb mapM map]; [reflexivity|].
  intros H. apply andb_true_iff in H as [Hh Hl]. apply negb_true_iff in Hh.
  unfold bind at 1. rewrite (turn_of_run h s Hh).
  unfold bind. rewrite (IH Hl). reflexivity.
Qed.

Lemma deepenglish_body_built (prompt : value) (l : list value) :
  forallb (fun h => negb (is_nullish h)) l = true ->
  built (Index.deepenglish_body prompt (VArr l))
  = Some (VObj [(js "messages", VArr (map turn l ++ [user_turn prompt]))]).
Proof.
  intros H. unfold built, Index.deepenglish_body, Index.map_turns, bind.
  rewrite (mapM_turn_of_run l initial H). reflexivity.
Qed.

(** X5.  The request bodies of api/index.js, for a chat request whose history
    is an array of turns: the kastg upstreams (chatgpt and claude) get the
    prompt and the last five turns at most, the deepenglish upstream gets
    every turn, reduced to role and content, followed by the prompt as a user
    turn, and the perplexity and gemini upstreams get the prompt and no
    history. *)
Theorem index_request_bodies (w : world) (req : request) (m : jstr) (l : list value)
    (c : call) :
  chat_request req = true ->
  model_of IndexJs req = VStr m ->
  history_of req = VArr l ->
  is_turns (VArr l) = true ->
  In c (calls (final (Index.handler w req))) ->
  (call_url c = Index.at_ (Index.chatgpt Index.WORKING_APIS) 0
   \/ call_url c = Index.at_ (Index.claude Index.WORKING_APIS) 0 ->
   call_body c = VObj [(js "prompt", prompt_of req); (js "history", VArr (last_n 5 l))])
  /\ (call_url c = Index.at_ (Index.chatgpt Index.WORKING_APIS) 1 ->
      call_body c = VObj [(js "messages", VArr (map turn l ++ [user_turn (prompt_of req)]))])
  /\ (call_url c = Index.at_ (Index.perplexity Index.WORKING_APIS) 0 ->
      call_body c = VObj [(js "prompt", prompt_of req)])
  /\ (call_url c = Index.gemini_url w ->
      call_body c = gemini_payload (prompt_of req))
  /\ firstn (List.length l - 5) l ++ last_n 5 l = l
  /\ List.length (last_n 5 l) = Nat.min 5 (List.length l).
Proof.
  intros Hreq Hmodel Hl Hturns Hin.
  cut ((call_url c = Index.at_ (Index.chatgpt Index.WORKING_APIS) 0
        \/ call_url c = Index.at_ (Index.claude Index.WORKING_APIS) 0 ->
        call_body c = VObj [(js "prompt", prompt_of req); (js "history", VArr (last_n 5 l))])
       /\ (call_url c = Index.at_ (Index.chatgpt Index.WORKING_APIS) 1 ->
           call_body c
           = VObj [(js "messages", VArr (map turn l ++ [user_turn (prompt_of req)]))])
       /\ (call_url c = Index.at_ (Index.perplexity Index.WORKING_APIS) 0 ->
           call_body c = VObj [(js "prompt", prompt_of req)])
       /\ (call_url c = Index.gemini_url w ->
           call_body c = gemini_payload (prompt_of req))).
  { pose proof (last_n_suffix 5 l). pose proof (last_n_length 5 l). tauto. }
  unfold last_n.
  unfold final in Hin.
  rewrite (index_routes_chat w req m Hreq Hmodel), handleChatRequest_calls, Hl in Hin.
  apply walk_calls_entries in Hin as [[]|(cand & Hin & Hu)].
  assert (Hfresh : forall u, In u (Index.chatgpt Index.WORKING_APIS) ->
                             u <> Index.gemini_url w).
  { intros u Hu' E. apply (gemini_url_fresh w). now rewrite <- E. }
  assert (Hk : forall u : jstr, u = call_url c -> c_url cand = u) by (intros; congruence).
  cbn [is_turns] in Hturns.
  pose proof (deepenglish_body_built (prompt_of req) l Hturns) as Hd.
  assert (Hchat : In (cand, Some (call_body c)) (chatgpt_plan (prompt_of req) (VArr l)) ->
                  (c_url cand = Index.at_ (Index.chatgpt Index.WORKING_APIS) 0
                   /\ call_body c = VObj [(js "prompt", prompt_of req);
                                          (js "history", VArr (skipn (List.length l - 5) l))])
                  \/ (c_url cand = Index.at_ (Index.chatgpt Index.WORKING_APIS) 1
                      /\ call_body c
                         = VObj [(js "messages",
                                  VArr (map turn l ++ [user_turn (prompt_of req)]))])).
  { unfold chatgpt_plan. rewrite Hd. intros [E|[E|[]]]; injection E as <- <-; auto. }
  rewrite <- Hu.
  unfold index_plan in Hin.
  repeat match type of Hin with
         | In _ (if ?b then _ else _) => destruct b
         end;
    try (apply Hchat in Hin as [[-> ->]|[-> ->]]);
    try (destruct Hin as [E|Hin];
         [injection E as <- <- | try apply Hchat in Hin as [[-> ->]|[-> ->]]]);
    try (destruct Hin);
    cbn [c_url];
    repeat split; try (intros [E|E]); try intros E;
    try reflexivity; try (vm_compute in E; discriminate);
    try (exfalso; apply (gemini_url_fresh w); rewrite <- E; cbn; tauto);
    try (exfalso; apply (gemini_url_fresh w); rewrite E; cbn; tauto).
Qed.

Lemma index_request_bodies_witness :
  let req := post (VObj [(js "prompt", VStr (js "ping"));
                         (js "history", VArr seven_turns)]) in
  let c := {| call_url := js "https://api.kastg.xyz/api/ai/chatgptv2";
              call_body := VObj [(js "prompt", VStr (js "ping"));
                                 (js "history", VArr (skipn 2 seven_turns))] |} in
  (call_url c = Index.at_ (Index.chatgpt Index.WORKING_APIS) 0
   \/ call_url c = Index.at_ (Index.claude Index.WORKING_APIS) 0 ->
   call_body c = VObj [(js "prompt", prompt_of req);
                       (js "history", VArr (last_n 5 seven_turns))])
  /\ (call_url c = Index.at_ (Index.chatgpt Index.WORKING_APIS) 1 ->
      call_body c
      = VObj [(js "messages", VArr (map turn seven_turns ++ [user_turn (prompt_of req)]))])
  /\ (call_url c = Index.at_ (Index.perplexity Index.WORKING_APIS) 0 ->
      call_body c = VObj [(js "prompt", prompt_of req)])
  /\ (call_url c = Index.gemini_url world_first_down ->
      call_body c = gemini_payload (prompt_of req))
  /\ firstn (List.length seven_turns - 5) seven_turns ++ last_n 5 seven_turns = seven_turns
  /\ List.length (last_n 5 seven_turns) = Nat.min 5 (List.length seven_turns).
Proof.
  intros req c.
  apply (index_request_bodies world_first_down req (js "chatgpt") seven_turns c).
  - reflexivity.
  - reflexivity.
  - reflexivity.
  - reflexivity.
  - left. reflexivity.
Defined.

(** X6.  The request bodies of part_000, for a chat request whose history is
    an array: a call to one of the two fallback addresses carries the model
    gpt-4, the whole history followed by the prompt as a user turn, and
    stream false; any other call goes to the address the registry has for
    the model and carries the prompt as query and the whole history. *)
Theorem part000_request_bodies (w : world) (req : request) (m : jstr) (l : list value)
    (c : call) :
  chat_request req = true ->
  model_of Part000Js req = VStr m ->
  history_of req = VArr l ->
  In c (calls (final (Part000.handler w req))) ->
  if existsb (jstr_eqb (call_url c)) (Part000.chat Part000.FALLBACK)
  then call_body c = fallback_payload (prompt_of req) l
  else call_body c = VObj [(js "query", prompt_of req); (js "history", VArr l)]
       /\ Part000.api_url (toLowerCase_str m) = Part000.Url (call_url c).
Proof.
  intros Hreq Hmodel Hl Hin.
  unfold final in Hin.
  rewrite (part000_routes_chat w req m Hreq Hmodel), handleChat_calls, Hl in Hin.
  apply walk_calls_entries in Hin as [[]|(cand & Hin & Hu)].
  unfold part000_plan in Hin. rewrite <- Hu.
  apply in_app_or in Hin as [Hin|Hin].
  - destruct (Part000.api_url (toLowerCase_str m)) as [u|] eqn:E; [|destruct Hin].
    destruct Hin as [H|[]]. injection H as <- <-. cbn [c_url].
    apply api_url_registry in E as Hreg. cbn in Hreg.
    destruct Hreg as [<- | [<- | [<- | [<- | [<- | []]]]]]; split; reflexivity.
  - unfold fallback_plan in Hin. apply in_map_iff in Hin as (u & E & Hu').
    injection E as <- E. cbn [c_url].
    assert (Hex : existsb (jstr_eqb u) (Part000.chat Part000.FALLBACK) = true).
    { apply existsb_exists. exists u. split; [exact Hu' | apply jstr_eqb_refl]. }
    rewrite Hex. symmetry. exact E.
Qed.

Lemma part000_request_bodies_witness :
  let l := [VObj [(js "role", VStr (js "user")); (js "content", VStr (js "hi"))]] in
  let req := post (VObj [(js "prompt", VStr (js "ping")); (js "history", VArr l)]) in
  let c := {| call_url := js "https://widipe.com/openai";
              call_body := fallback_payload (VStr (js "ping")) l |} in
  call_body c = fallback_payload (VStr (js "ping")) l.
Proof.
  intros l req c.
  apply (part000_request_bodies (world_all (NetErr (js "unreachable"))) req (js "gpt4") l c).
  - reflexivity.
  - reflexivity.
  - reflexivity.
  - right. left. reflexivity.
Defined.

(** X7.  In api/index.js a history that is neither an array nor a string
    (null, a number, an object) stops the attempts of tryChatGPT and
    tryClaude before their calls: for every model but perplexity, search and
    gemini the chat request is answered HTTP 500 "All APIs failed" without
    any upstream call.  The model field of the answer is a string, the
    lower-cased requested name when that is a name of ASCII characters. *)
Theorem history_without_slice_is_never_sent (w : world) (req : request) (m : jstr) :
  chat_request req = true ->
  model_of IndexJs req = VStr m ->
  sliceable (history_of req) = false ->
  jstr_eqb (toLowerCase_str m) (js "perplexity") = false ->
  jstr_eqb (toLowerCase_str m) (js "search") = false ->
  jstr_eqb (toLowerCase_str m) (js "gemini") = false ->
  exists name,
    lower_cased m name
    /\ run (Index.handler w req)
       = (Ret tt, responded (cors "Content-Type, Authorization") 500
                    (index_chat_failed name) []).
Proof.
  intros Hreq Hmodel Hs Hp Hse Hg.
  exists (toLowerCase_str m). split; [intros _; reflexivity|].
  rewrite (index_routes_chat w req m Hreq Hmodel), handleChatRequest_run. cbv zeta.
  unfold index_plan. rewrite Hp, Hse, Hg. cbn [orb].
  assert (Hk : built (Index.kastg_body (prompt_of req) (history_of req)) = None).
  { destruct (history_of req); try discriminate; reflexivity. }
  assert (Hd : built (Index.deepenglish_body (prompt_of req) (history_of req)) = None).
  { destruct (history_of req); try discriminate; reflexivity. }
  unfold chatgpt_plan. rewrite Hk, Hd.
  destruct (jstr_eqb (toLowerCase_str m) (js "chatgpt")
            || jstr_eqb (toLowerCase_str m) (js "gpt")
            || jstr_eqb (toLowerCase_str m) (js "gpt4"))%bool;
    [|destruct (jstr_eqb (toLowerCase_str m) (js "claude"))];
    reflexivity.
Qed.

Lemma history_without_slice_is_never_sent_witness :
  run (Index.handler (world_all (Resp 200 (Some pong)))
         (post (VObj [(js "prompt", VStr (js "ping")); (js "history", VNull)])))
  = (Ret tt, responded (cors "Content-Type, Authorization") 500
               (index_chat_failed (js "chatgpt")) []).
Proof.
  destruct (history_without_slice_is_never_sent (world_all (Resp 200 (Some pong)))
              (post (VObj [(js "prompt", VStr (js "ping")); (js "history", VNull)]))
              (js "chatgpt") eq_refl eq_refl eq_refl eq_refl eq_refl eq_refl)
    as (name & Hname & Hrun).
  rewrite (Hname eq_refl) in Hrun. exact Hrun.
Defined.

(* ================================================================== *)
(** ** Image fallbacks and the image URL *)
(* ================================================================== *)


(** X8.  The catch branch of handleImageGeneration: when encoding the prompt
    throws, one POST goes to the stable-diffusion address; a 2xx answer with
    a parsed body that is not null gives HTTP 200 with imageUrl equal to
    [data.url || data.image], whatever that is, and everything else gives
    HTTP 500 "Image generation failed" with the message of the encoding
    error. *)
Theorem index_image_fallback (w : world) (p : value) (err : exn) :
  truthy p = true ->
  encoded p = Throw err ->
  let h := Index.handleImageGeneration w p in
  calls (final h) = [ stable_diffusion_call p ]
  /\ match upstream w 0 (call_url (stable_diffusion_call p))
             (call_body (stable_diffusion_call p)) with
     | Resp code (Some data) =>
         if (ok_status code && negb (is_nullish data))%bool
         then status_of h = 200%Z
              /\ body_of h
                 = Json (stable_diffusion_envelope w p
                           (or_else (prop_of data (js "url")) (prop_of data (js "image"))))
         else status_of h = 500%Z /\ body_of h = Json (image_failed (message err))
     | Resp _ None | NetErr _ =>
         status_of h = 500%Z /\ body_of h = Json (image_failed (message err))
     end.
Proof.
  intros Hp He h. subst h. unfold status_of, body_of, final, run.
  rewrite (handleImageGeneration_run w p initial Hp), He. cbv zeta.
  cbn [initial calls List.length].
  destruct (upstream w 0 _ _) as [msg|code [data|]]; try (repeat split).
  all: try (destruct (ok_status code && negb (is_nullish data))%bool; repeat split).
Qed.

Lemma index_image_fallback_witness :
  let w := world_all (Resp 200 (Some (VObj [(js "image", VStr (js "https://img/1.png"))]))) in
  let p := VStr lone_surrogate in
  let h := Index.handleImageGeneration w p in
  calls (final h) = [ stable_diffusion_call p ]
  /\ (status_of h = 200%Z
      /\ body_of h
         = Json (stable_diffusion_envelope w p (VStr (js "https://img/1.png")))).
Proof.
  exact (index_image_fallback
           (world_all (Resp 200 (Some (VObj [(js "image", VStr (js "https://img/1.png"))]))))
           (VStr lone_surrogate) (URIError (js "URI malformed")) eq_refl eq_refl).
Defined.

(** X9.  The catch branch of handleImageGen in part_000 does not look at the
    upstream status: whenever the fallback answers with a parsed body that
    is not null, even with a non-2xx status, the handler answers HTTP 200
    with success true, and the imageUrl is a usable value or null. *)
Theorem part000_image_fallback_ignores_status (w : world) (p : value) (err : exn)
    (code : Z) (data : value) :
  truthy p = true ->
  encoded p = Throw err ->
  upstream w 0 (call_url (dalle_call p)) (call_body (dalle_call p))
  = Resp code (Some data) ->
  is_nullish data = false ->
  let h := Part000.handleImageGen w p in
  let url := or_else (opt_prop (opt_index0 (prop_of data (js "data"))) (js "url")) VNull in
  calls (final h) = [ dalle_call p ]
  /\ status_of h = 200%Z
  /\ body_of h = Json (dalle_envelope w p url)
  /\ (url = VNull \/ truthy url = true).
Proof.
  intros Hp He Hup Hd h url. subst h. unfold status_of, body_of, final, run.
  rewrite handleImageGen_run, Hp, He. cbv zeta.
  cbn [initial calls List.length]. rewrite Hup, Hd.
  repeat split. subst url. unfold or_else.
  destruct (truthy (opt_prop _ _)) eqn:E; [right; exact E | left; reflexivity].
Qed.

Lemma part000_image_fallback_ignores_status_witness :
  let w := world_all (Resp 503 (Some (VObj [(js "error", VStr (js "overloaded"))]))) in
  let p := VStr lone_surrogate in
  let h := Part000.handleImageGen w p in
  calls (final h) = [ dalle_call p ]
  /\ status_of h = 200%Z
  /\ body_of h = Json (dalle_envelope w p VNull)
  /\ (VNull = VNull \/ truthy VNull = true).
Proof.
  exact (part000_image_fallback_ignores_status
           (world_all (Resp 503 (Some (VObj [(js "error", VStr (js "overloaded"))]))))
           (VStr lone_surrogate) (URIError (js "URI malformed")) 503
           (VObj [(js "error", VStr (js "overloaded"))])
           eq_refl eq_refl eq_refl eq_refl).
Defined.

Lemma hex_digit_safe (d : N) : (d < 16)%N -> url_safe (hex_digit d) = true.
Proof.
  intros H.
  assert (E : (d = 0 \/ d = 1 \/ d = 2 \/ d = 3 \/ d = 4 \/ d = 5 \/ d = 6 \/ d = 7
               \/ d = 8 \/ d = 9 \/ d = 10 \/ d = 11 \/ d = 12 \/ d = 13 \/ d = 14
               \/ d = 15)%N) by lia.
  repeat (destruct E as [->|E]; [reflexivity|]). subst. reflexivity.
Qed.

Lemma pct_octet_safe (b : N) : (b < 256)%N -> forallb url_safe (pct_octet b) = true.
Proof.
  intros H. unfold pct_octet. cbn [forallb].
  rewrite !hex_digit_safe; [reflexivity | |].
  - apply N.mod_lt. discriminate.
  - apply N.Div0.div_lt_upper_bound. exact H.
Qed.

Lemma utf8_octets_bytes (cp : N) :
  (cp < 1114112)%N -> Forall (fun b => (b < 256)%N) (utf8_octets cp).
Proof.
  intros H. unfold utf8_octets.
  assert (M : forall x, (x mod 64 < 64)%N) by (intros; apply N.mod_lt; discriminate).
  destruct (N.ltb_spec cp 128); [repeat constructor; lia|].
  destruct (N.ltb_spec cp 2048).
  { assert (cp / 64 < 32)%N by (apply N.Div0.div_lt_upper_bound; lia).
    pose proof (M cp). repeat constructor; lia. }
  destruct (N.ltb_spec cp 65536).
  { assert (cp / 4096 < 16)%N by (apply N.Div0.div_lt_upper_bound; lia).
    pose proof (M cp). pose proof (M (cp / 64)%N). repeat constructor; lia. }
  assert (cp / 262144 < 5)%N by (apply N.Div0.div_lt_upper_bound; lia).
  pose proof (M cp). pose proof (M (cp / 64)%N). pose proof (M (cp / 4096)%N).
  repeat constructor; lia.
Qed.

Lemma pct_code_point_safe (cp : N) :
  (cp < 1114112)%N -> forallb url_safe (pct_code_point cp) = true.
Proof.
  intros H. unfold pct_code_point. pose proof (utf8_octets_bytes cp H) as Hb.
  induction Hb as [|b l Hb _ IH]; cbn [flat_map]; [reflexivity|].
  rewrite forallb_app, (pct_octet_safe b Hb), IH. reflexivity.
Qed.

Lemma encode_safe_bounded (n : nat) :
  forall s e, (List.length s <= n)%nat ->
    sixteen_bit s = true ->
    encodeURIComponent_str s = Some e ->
    forallb url_safe e = true.
Proof.
  induction n as [|n IH]; intros s e Hlen Hbits He.
  - destruct s; [|simpl in Hlen; lia]. injection He as <-. reflexivity.
  - destruct s as [|c rest]; [injection He as <-; reflexivity|].
    cbn [sixteen_bit forallb] in Hbits. apply andb_true_iff in Hbits as [Hc Hrest].
    apply N.ltb_lt in Hc. cbn [List.length] in Hlen.
    cbn [encodeURIComponent_str] in He.
    destruct (uri_unreserved c) eqn:Hu.
    { destruct (encodeURIComponent_str rest) as [e'|] eqn:E; [|discriminate].
      injection He as <-. cbn [forallb]. unfold url_safe at 1. rewrite Hu. cbn [orb andb].
      apply (IH rest e'); [lia | exact Hrest | exact E]. }
    destruct (is_low_surrogate c); [discriminate|].
    destruct (is_high_surrogate c) eqn:Hh.
    + destruct rest as [|d rest']; [discriminate|].
      destruct (is_low_surrogate d) eqn:Hl; [|discriminate].
      destruct (encodeURIComponent_str rest') as [e'|] eqn:E; [|discriminate].
      injection He as <-.
      cbn [forallb] in Hrest. apply andb_true_iff in Hrest as [Hd Hrest'].
      rewrite forallb_app. apply andb_true_iff. split.
      * apply pct_code_point_safe. unfold pair_code_point.
        unfold is_high_surrogate in Hh. unfold is_low_surrogate in Hl.
        apply andb_true_iff in Hh as [H1 H2]. apply andb_true_iff in Hl as [H3 H4].
        apply N.leb_le in H1, H2, H3, H4. lia.
      * apply (IH rest' e'); [cbn [List.length] in Hlen; lia | exact Hrest' | exact E].
    + destruct (encodeURIComponent_str rest) as [e'|] eqn:E; [|discriminate].
      injection He as <-. rewrite forallb_app. apply andb_true_iff. split.
      * apply pct_code_point_safe. lia.
      * apply (IH rest e'); [lia | exact Hrest | exact E].
Qed.

Lemma encode_safe (s e : jstr) :
  sixteen_bit s = true -> encodeURIComponent_str s = Some e -> forallb url_safe e = true.
Proof. intros. eapply (encode_safe_bounded (List.length s)); eauto. Qed.

Lemma occurrences_app (c : code_unit) (a b : jstr) :
  occurrences c (a ++ b) = (occurrences c a + occurrences c b)%nat.
Proof. unfold occurrences. now rewrite filter_app, length_app. Qed.

Lemma occurrences_safe (c : code_unit) (e : jstr) :
  url_safe c = false -> forallb url_safe e = true -> occurrences c e = 0%nat.
Proof.
  intros Hc. unfold occurrences. induction e as [|x e IH]; cbn [forallb filter]; [reflexivity|].
  intros H. apply andb_true_iff in H as [Hx He].
  destruct (N.eqb_spec c x); [subst; congruence | apply IH, He].
Qed.

(** X10.  The prompt cannot add to or change the parameters of the image
    URL: for a prompt that is a well-formed string of 16-bit code units the
    encoded prompt has no question mark, ampersand, number sign, slash,
    equals sign or space, so the URL of api/index.js has exactly one question
    mark and three ampersands, those of the fixed parameters. *)
Theorem image_url_parameters_are_fixed (w : world) (req : request) (s : jstr) :
  image_request req s = true ->
  s <> [] ->
  sixteen_bit s = true ->
  well_formed s = true ->
  exists e,
    body_of (Index.handler w req)
    = Json (index_image_envelope w (VStr s)
              (js "https://image.pollinations.ai/prompt/" ++ e
                 ++ js "?width=1024&height=1024&nologo=true&enhance=true"))
    /\ body_of (Part000.handler w req)
       = Json (part000_image_envelope w (VStr s)
                 (js "https://image.pollinations.ai/prompt/" ++ e
                    ++ js "?width=1024&height=1024&nologo=true"))
    /\ occurrences 63%N e = 0%nat      (* ? *)
    /\ occurrences 38%N e = 0%nat      (* & *)
    /\ occurrences 35%N e = 0%nat      (* # *)
    /\ occurrences 47%N e = 0%nat      (* / *)
    /\ occurrences 61%N e = 0%nat      (* = *)
    /\ occurrences 32%N e = 0%nat      (* space *)
    /\ occurrences 63%N
         (js "https://image.pollinations.ai/prompt/" ++ e
            ++ js "?width=1024&height=1024&nologo=true&enhance=true") = 1%nat
    /\ occurrences 38%N
         (js "https://image.pollinations.ai/prompt/" ++ e
            ++ js "?width=1024&height=1024&nologo=true&enhance=true") = 3%nat.
Proof.
  intros Hreq Hs Hbits Hwf.
  destruct (encode_well_formed s Hwf) as [e He]. exists e.
  pose proof (encode_safe s e Hbits He) as Hsafe.
  unfold body_of, final.
  rewrite (index_routes_image w req s Hreq Hs), (part000_routes_image w req s Hreq Hs).
  rewrite (handleImageGeneration_primary w s e _ Hs He).
  rewrite (handleImageGen_primary w s e _ Hs He).
  repeat split; try (apply occurrences_safe; trivial);
    rewrite !occurrences_app, (occurrences_safe _ e) by (first [reflexivity | assumption]);
    reflexivity.
Qed.

Lemma image_url_parameters_are_fixed_witness :
  exists e,
    body_of (Index.handler (world_all (NetErr (js "unreachable")))
               (image_post (js "fox?width=1&x=#")))
    = Json (index_image_envelope (world_all (NetErr (js "unreachable")))
              (VStr (js "fox?width=1&x=#"))
              (js "https://image.pollinations.ai/prompt/" ++ e
                 ++ js "?width=1024&height=1024&nologo=true&enhance=true"))
    /\ body_of (Part000.handler (world_all (NetErr (js "unreachable")))
                  (image_post (js "fox?width=1&x=#")))
       = Json (part000_image_envelope (world_all (NetErr (js "unreachable")))
                 (VStr (js "fox?width=1&x=#"))
                 (js "https://image.pollinations.ai/prompt/" ++ e
                    ++ js "?width=1024&height=1024&nologo=true"))
    /\ occurrences 63%N e = 0%nat
    /\ occurrences 38%N e = 0%nat
    /\ occurrences 35%N e = 0%nat
    /\ occurrences 47%N e = 0%nat
    /\ occurrences 61%N e = 0%nat
    /\ occurrences 32%N e = 0%nat
    /\ occurrences 63%N
         (js "https://image.pollinations.ai/prompt/" ++ e
            ++ js "?width=1024&height=1024&nologo=true&enhance=true") = 1%nat
    /\ occurrences 38%N
         (js "https://image.pollinations.ai/prompt/" ++ e
            ++ js "?width=1024&height=1024&nologo=true&enhance=true") = 3%nat.
Proof.
  apply (image_url_parameters_are_fixed (world_all (NetErr (js "unreachable")))
           (image_post (js "fox?width=1&x=#")) (js "fox?width=1&x=#")).
  - reflexivity.
  - discriminate.
  - reflexivity.
  - reflexivity.
Defined.

(* ================================================================== *)
(** ** Model names, the chat functions of part_000, the registry *)
(* ================================================================== *)


(** X11.  In api/index.js a model name that is none of chatgpt, gpt, gpt4,
    claude, perplexity, search and gemini (in lower case) is served like
    chatgpt: the same upstream calls and the same status, and the success
    envelope differs in the model field only, which carries the name that
    was asked for, in lower case when it is a name of ASCII characters. *)
Theorem unknown_model_is_served_by_chatgpt (w : world) (prompt : value) (m : jstr)
    (history imageUrl : value) (s : state) :
  known_model (toLowerCase_str m) = false ->
  let unknown := Index.handleChatRequest w prompt (VStr m) history imageUrl s in
  let chatgpt := Index.handleChatRequest w prompt (VStr (js "chatgpt")) history imageUrl s in
  calls (snd unknown) = calls (snd chatgpt)
  /\ statusCode (res (snd unknown)) = statusCode (res (snd chatgpt))
  /\ exists name,
       lower_cased m name
       /\ forall v,
            sent_body (res (snd chatgpt)) = Json (chat_envelope w (js "chatgpt") v) ->
            sent_body (res (snd unknown)) = Json (chat_envelope w name v).
Proof.
  intros Hk unknown chatgpt. subst unknown chatgpt.
  rewrite !handleChatRequest_run. cbv zeta.
  assert (Hplan : index_plan w (toLowerCase_str m) prompt history
                  = chatgpt_plan prompt history).
  { unfold known_model in Hk. unfold index_plan.
    repeat (apply orb_false_iff in Hk as [Hk ?]).
    repeat match goal with H : jstr_eqb _ _ = false |- _ => rewrite H; clear H end.
    reflexivity. }
  assert (Hdef : index_plan w (toLowerCase_str (js "chatgpt")) prompt history
                 = chatgpt_plan prompt history) by reflexivity.
  rewrite Hplan, Hdef.
  set (r := walk settle_returned w (chatgpt_plan prompt history) s).
  destruct (truthy (value_of (fst r))); unfold res_json;
    cbn [snd calls res statusCode sent_body].
  - repeat split. exists (toLowerCase_str m). split; [intros _; reflexivity|].
    intros v Hv. injection Hv as Hv. rewrite Hv. reflexivity.
  - repeat split. exists (toLowerCase_str m). split; [intros _; reflexivity|].
    intros v Hv. discriminate.
Qed.

Lemma unknown_model_is_served_by_chatgpt_witness :
  let unknown := Index.handleChatRequest world_first_down (VStr (js "ping"))
                   (VStr (js "Llama-3")) (VArr []) VNull initial in
  let chatgpt := Index.handleChatRequest world_first_down (VStr (js "ping"))
                   (VStr (js "chatgpt")) (VArr []) VNull initial in
  calls (snd unknown) = calls (snd chatgpt)
  /\ statusCode (res (snd unknown)) = statusCode (res (snd chatgpt))
  /\ forall v,
       sent_body (res (snd chatgpt)) = Json (chat_envelope world_first_down (js "chatgpt") v) ->
       sent_body (res (snd unknown))
       = Json (chat_envelope world_first_down (js "llama-3") v).
Proof.
  destruct (unknown_model_is_served_by_chatgpt world_first_down (VStr (js "ping"))
              (js "Llama-3") (VArr []) VNull initial eq_refl)
    as (Hcalls & Hstatus & name & Hname & Hbody).
  rewrite (Hname eq_refl) in Hbody.
  split; [exact Hcalls|]. split; [exact Hstatus | exact Hbody].
Defined.

(** X12.  callChatAPI and callFallbackChat of part_000 never throw, whatever
    the model, the address, the history and the upstream: they make at most
    one call, leave the response object alone, and return null or a usable
    (truthy) value. *)
Theorem part000_calls_give_null_or_usable (w : world) (prompt : value) (model url : jstr)
    (history : value) (s : state) :
  (exists v s',
      Part000.callChatAPI w prompt model history s = (Ret v, s')
      /\ (v = VNull \/ truthy v = true)
      /\ res s' = res s
      /\ (List.length (calls s') <= S (List.length (calls s)))%nat)
  /\ (exists v s',
         Part000.callFallbackChat w prompt url history s = (Ret v, s')
         /\ (v = VNull \/ truthy v = true)
         /\ res s' = res s
         /\ (List.length (calls s') <= S (List.length (calls s)))%nat).
Proof.
  split.
  - rewrite callChatAPI_run.
    destruct (Part000.api_url model) as [u|].
    + eexists _, _. split; [reflexivity|].
      destruct (settle_usable _ _) as [v|] eqn:E; cbn [value_of].
      * apply settle_usable_truthy in E. repeat split; auto.
        cbn. rewrite length_app. cbn. lia.
      * repeat split; auto. cbn. rewrite length_app. cbn. lia.
    + eexists _, _. split; [reflexivity|]. repeat split; auto.
  - rewrite callFallbackChat_run.
    destruct (built _) as [p|].
    + eexists _, _. split; [reflexivity|].
      destruct (settle_usable _ _) as [v|] eqn:E; cbn [value_of].
      * apply settle_usable_truthy in E. repeat split; auto.
        cbn. rewrite length_app. cbn. lia.
      * repeat split; auto. cbn. rewrite length_app. cbn. lia.
    + eexists _, _. split; [reflexivity|]. repeat split; auto.
Qed.

(** X13.  A chat request with a string model has one of two answers, in both
    deployments: HTTP 200 with the success envelope, whose response is then
    a usable (truthy) value, or HTTP 500 with the fixed failure envelope,
    which tells nothing of what the upstreams answered: its error and its
    message are fixed texts, and in api/index.js it names the model (in
    lower case, for a name of ASCII characters). *)
Theorem chat_answer_is_usable_or_failed (d : deployment) (w : world) (req : request)
    (m : jstr) :
  chat_request req = true ->
  model_of d req = VStr m ->
  (status_of (handler_of d w req) = 200%Z
   /\ exists label v,
        body_of (handler_of d w req) = Json (chat_envelope w label v)
        /\ truthy v = true)
  \/ (status_of (handler_of d w req) = 500%Z
      /\ exists name,
           lower_cased m name
           /\ body_of (handler_of d w req) = Json (chat_failed d name)).
Proof.
  intros Hreq Hmodel. unfold status_of, body_of, final.
  assert (Hname : lower_cased m (toLowerCase_str m)) by (intros _; reflexivity).
  destruct d; cbn [handler_of chat_failed].
  - rewrite (index_routes_chat w req m Hreq Hmodel), handleChatRequest_run. cbv zeta.
    destruct (truthy _) eqn:E;
      [left|right; split; [reflexivity | eexists; split; [exact Hname | reflexivity]]].
    split; [reflexivity|]. eexists _, _. split; [reflexivity | exact E].
  - rewrite (part000_routes_chat w req m Hreq Hmodel), handleChat_run. cbv zeta.
    destruct (Part000.api_url _) as [u|].
    + destruct (settle_usable Part000.normalize_primary _) as [v|] eqn:E.
      * left. split; [reflexivity|]. exists (toLowerCase_str m), v.
        split; [reflexivity | eapply settle_usable_truthy, E].
      * destruct (fst (walk _ _ _ _)) as [v|] eqn:Ew;
          [left|right; split; [reflexivity | eexists; split; [exact Hname | reflexivity]]].
        split; [reflexivity|]. exists (js "fallback"), v.
        split; [reflexivity | eapply walk_usable_truthy, Ew].
    + destruct (fst (walk _ _ _ _)) as [v|] eqn:Ew;
        [left|right; split; [reflexivity | eexists; split; [exact Hname | reflexivity]]].
      split; [reflexivity|]. exists (js "fallback"), v.
      split; [reflexivity | eapply walk_usable_truthy, Ew].
Qed.

Lemma chat_answer_is_usable_or_failed_witness :
  (status_of (Part000.handler world_first_down (chat_post "ping")) = 200%Z
   /\ exists label v,
        body_of (Part000.handler world_first_down (chat_post "ping"))
        = Json (chat_envelope world_first_down label v)
        /\ truthy v = true)
  \/ (status_of (Part000.handler world_first_down (chat_post "ping")) = 500%Z
      /\ exists name,
           lower_cased (js "gpt4") name
           /\ body_of (Part000.handler world_first_down (chat_post "ping"))
              = Json (chat_failed Part000Js name)).
Proof.
  apply (chat_answer_is_usable_or_failed Part000Js world_first_down (chat_post "ping")
           (js "gpt4")); reflexivity.
Defined.

Lemma lower_unit_not_capital (c : code_unit) : lower_unit c <> 71%N.
Proof.
  unfold lower_unit.
  destruct (N.leb_spec 65 c); destruct (N.leb_spec c 90); cbn [andb]; lia.
Qed.

Lemma lowercase_is_not_imageGen (m : jstr) : jstr_eqb (toLowerCase_str m) (js "imageGen") = false.
Proof.
  destruct (jstr_eqb _ _) eqn:E; [|reflexivity]. apply jstr_eqb_eq in E.
  assert (H : In 71%N (toLowerCase_str m)) by (rewrite E; cbn; tauto).
  unfold toLowerCase_str in H. apply in_map_iff in H as (c & Hc & _).
  now apply lower_unit_not_capital in Hc.
Qed.

Lemma lowercase_api_url (m u : jstr) :
  Part000.api_url (toLowerCase_str m) = Part000.Url u ->
  In u [ js "https://api.guruapi.tech/ai/gpt4"; js "https://api.guruapi.tech/ai/claude";
         js "https://api.guruapi.tech/ai/gemini"; js "https://api.guruapi.tech/ai/llama" ].
Proof.
  unfold Part000.api_url, Part000.APIS. cbn [Part000.own_url].
  rewrite lowercase_is_not_imageGen.
  repeat match goal with
         | |- context [if ?b then _ else _] => destruct b
         end; intros H; try discriminate; injection H as <-; cbn; tauto.
Qed.

Lemma index_plan_urls (w : world) (model : jstr) (prompt history : value) (u : jstr) :
  In u (map (fun e : planned => c_url (fst e)) (index_plan w model prompt history)) ->
  In u (contactable IndexJs w).
Proof.
  unfold index_plan.
  repeat match goal with
         | |- context [if ?b then _ else _] => destruct b
         end; cbn; tauto.
Qed.

Lemma part000_plan_urls (w : world) (m : jstr) (prompt history : value) (u : jstr) :
  In u (map (fun e : planned => c_url (fst e))
          (part000_plan (toLowerCase_str m) prompt history)) ->
  In u (contactable Part000Js w).
Proof.
  unfold part000_plan. rewrite map_app. intros H. apply in_app_or in H as [H|H].
  - destruct (Part000.api_url (toLowerCase_str m)) as [x|] eqn:E; [|destruct H].
    destruct H as [<-|[]]. apply lowercase_api_url in E.
    cbn [contactable]. apply in_or_app. now left.
  - cbn in H. cbn. tauto.
Qed.

Lemma never_contacted (d : deployment) (w : world) :
  ~ In (js "https://image.pollinations.ai/prompt/") (contactable d w)
  /\ ~ In (js "https://api.guruapi.tech/ai/image") (contactable d w).
Proof.
  assert (Hg : forall u, starts_with gemini_base u = false -> Index.gemini_url w <> u).
  { intros u Hu E. rewrite <- E in Hu. unfold Index.gemini_url, gemini_base in Hu.
    rewrite starts_with_app in Hu. discriminate. }
  destruct d; split; intros H; cbn in H;
    repeat (destruct H as [H|H]; try discriminate H);
    try contradiction; revert H; apply Hg; reflexivity.
Qed.

(** X14.  No request can make a handler contact an address outside its
    registry: every upstream call goes to one of the chat addresses, the
    gemini address with the configured key, or the image fallback.  The
    pollinations address is only handed back to the caller, and the image
    entry of part_000's APIS table is never used. *)
Theorem calls_stay_in_the_registry (d : deployment) (w : world) (req : request) (u : jstr) :
  In u (urls_of (handler_of d w req)) ->
  In u (contactable d w)
  /\ u <> js "https://image.pollinations.ai/prompt/"
  /\ u <> js "https://api.guruapi.tech/ai/image".
Proof.
  intros Hin.
  cut (In u (contactable d w)).
  { intros H. destruct (never_contacted d w) as [H1 H2].
    repeat split; trivial; intros ->; contradiction. }
  revert Hin.
  unfold urls_of, final.
  destruct d; cbn [handler_of].
  - rewrite index_handler_run.
    repeat match goal with
           | |- context [if ?b then _ else _] => destruct b; [intros []|]
           end.
    destruct (strict_eq_str (action_of req) (js "image")).
    + destruct (truthy (prompt_of req)) eqn:Hp.
      * rewrite (handleImageGeneration_run w _ _ Hp).
        destruct (encoded _); [intros []|]. cbv zeta.
        destruct (upstream w _ _ _) as [msg|code [data|]];
          try destruct (ok_status code && negb (is_nullish data))%bool;
          cbn; tauto.
      * unfold Index.handleImageGeneration. rewrite Hp. intros [].
    + destruct (model_of IndexJs req) as [| | | |m| |]; try (intros []).
      rewrite handleChatRequest_calls. intros H.
      apply walk_calls_in_plan in H as [[]|H]. eapply index_plan_urls, H.
  - rewrite part000_handler_run.
    repeat match goal with
           | |- context [if ?b then _ else _] => destruct b; [intros []|]
           end.
    destruct (strict_eq_str (action_of req) (js "image")).
    + rewrite handleImageGen_run.
      destruct (truthy (prompt_of req)); [|intros []].
      destruct (encoded _); [intros []|]. cbv zeta.
      destruct (upstream w _ _ _) as [msg|code [data|]];
        try destruct (is_nullish data); cbn; tauto.
    + destruct (model_of Part000Js req) as [| | | |m| |]; try (intros []).
      rewrite handleChat_calls. intros H.
      apply walk_calls_in_plan in H as [[]|H]. eapply part000_plan_urls, H.
Qed.

Lemma calls_stay_in_the_registry_witness :
  In (js "https://widipe.com/openai") (contactable Part000Js world_first_empty)
  /\ js "https://widipe.com/openai" <> js "https://image.pollinations.ai/prompt/"
  /\ js "https://widipe.com/openai" <> js "https://api.guruapi.tech/ai/image".
Proof.
  apply (calls_stay_in_the_registry Part000Js world_first_empty (chat_post "ping")
           (js "https://widipe.com/openai")).
  right. left. reflexivity.
Defined.

(* ================================================================== *)
(** ** Histories that are not arrays *)
(* ================================================================== *)

(** X15.  In api/index.js a history that is a string, as a GET query gives
    it, is cut to its last five code units for the first chatgpt upstream
    and makes the second one unreachable: a chat request served by
    tryChatGPT makes exactly one call, whatever that upstream answers. *)
Theorem string_history_disables_the_fallback (w : world) (req : request) (m s : jstr) :
  chat_request req = true ->
  model_of IndexJs req = VStr m ->
  history_of req = VStr s ->
  jstr_eqb (toLowerCase_str m) (js "claude") = false ->
  jstr_eqb (toLowerCase_str m) (js "perplexity") = false ->
  jstr_eqb (toLowerCase_str m) (js "search") = false ->
  jstr_eqb (toLowerCase_str m) (js "gemini") = false ->
  calls (final (Index.handler w req))
  = [ {| call_url := js "https://api.kastg.xyz/api/ai/chatgptv2";
         call_body := VObj [(js "prompt", prompt_of req);
                            (js "history", VStr (last_n 5 s))] |} ].
Proof.
  intros Hreq Hmodel Hh Hc Hp Hse Hg. unfold final.
  rewrite (index_routes_chat w req m Hreq Hmodel), handleChatRequest_calls, Hh.
  assert (Hplan : index_plan w (toLowerCase_str m) (prompt_of req) (VStr s)
                  = chatgpt_plan (prompt_of req) (VStr s)).
  { unfold index_plan. rewrite Hc, Hp, Hse, Hg. cbn [orb].
    destruct (_ || _ || _)%bool; reflexivity. }
  rewrite Hplan. unfold chatgpt_plan.
  change (built (Index.kastg_body (prompt_of req) (VStr s)))
    with (Some (VObj [(js "prompt", prompt_of req); (js "history", VStr (last_n 5 s))])).
  change (built (Index.deepenglish_body (prompt_of req) (VStr s))) with (@None value).
  cbn [walk c_url c_normalize].
  destruct (settle_returned _ _); reflexivity.
Qed.

Lemma string_history_disables_the_fallback_witness :
  calls (final (Index.handler world_first_down
                  {| method := js "GET";
                     query := [(js "prompt", VStr (js "ping"));
                               (js "history", VStr (js "earlier talk"))];
                     body := VUndef |}))
  = [ {| call_url := js "https://api.kastg.xyz/api/ai/chatgptv2";
         call_body := VObj [(js "prompt", VStr (js "ping"));
                            (js "history", VStr (js " talk"))] |} ].
Proof.
  apply (string_history_disables_the_fallback world_first_down
           {| method := js "GET";
              query := [(js "prompt", VStr (js "ping"));
                        (js "history", VStr (js "earlier talk"))];
              body := VUndef |}
           (js "chatgpt") (js "earlier talk")); reflexivity.
Defined.

(** X16.  In part_000 a falsy history (null, the empty string, 0, false) is
    served as the empty history, where api/index.js answers HTTP 500 for a
    null history. *)
Theorem part000_falsy_history_is_empty (w : world) (prompt : value) (m : jstr)
    (history : value) (s : state) :
  truthy history = false ->
  Part000.handleChat w prompt (VStr m) history s
  = Part000.handleChat w prompt (VStr m) (VArr []) s.
Proof.
  intros Hf. rewrite !handleChat_run. cbv zeta.
  assert (Hp : primary_payload prompt history = primary_payload prompt (VArr [])).
  { unfold primary_payload, or_else. rewrite Hf. reflexivity. }
  assert (Hb : fallback_plan prompt history (Part000.chat Part000.FALLBACK)
               = fallback_plan prompt (VArr []) (Part000.chat Part000.FALLBACK)).
  { unfold fallback_plan, fallback_body, or_else. rewrite Hf. reflexivity. }
  rewrite Hp, Hb. reflexivity.
Qed.

Lemma part000_falsy_history_is_empty_witness :
  Part000.handleChat world_first_down (VStr (js "ping")) (VStr (js "gpt4")) VNull initial
  = Part000.handleChat world_first_down (VStr (js "ping")) (VStr (js "gpt4")) (VArr [])
      initial.
Proof.
  apply (part000_falsy_history_is_empty world_first_down (VStr (js "ping")) (js "gpt4")
           VNull initial).
  reflexivity.
Defined.
